(** * Apprise: configuration aggregation and two notifier plugins

    A shallow embedding of [apprise/apprise_config.py],
    [apprise/plugins/pushjet.py] and [apprise/plugins/mattermost.py].

    Python objects are records, [None] is [option], dictionaries are
    [gmap]s with string keys, exceptions and the logger are threaded
    explicitly through a small state-and-exception monad.  The first part
    of the file holds the embedding, the second part the properties of the
    specification, the third part further properties of the code. *)

From Stdlib Require Import String Ascii List ZArith Lia Bool.
From Stdlib Require Import DecimalString DecimalPos DecimalZ.
From stdpp Require Import base option list gmap strings.

Open Scope string_scope.
Open Scope list_scope.
Open Scope Z_scope.

(* ===================================================================== *)
(** * Part I: the embedding                                                *)
(* ===================================================================== *)

(** ** Python: exceptions, outcomes, the logger, list.pop *)

Module Py.

(** The exceptions the three files raise or let escape.  All of them are
    subclasses of [Exception]. *)
Inductive Exc :=
| TypeError (msg : string)
| KeyError (key : string)
| IndexError (msg : string).

Inductive Outcome (A : Type) :=
| Return (a : A)
| Raise (e : Exc).
Arguments Return {A} a.
Arguments Raise {A} e.

Inductive Level := DEBUG | INFO | WARNING | ERROR.

(** The logger is the list of the records emitted so far, oldest first. *)
Definition Log := list (Level * string).

(** A computation over a state [St] that returns or raises; as in Python
    the state reached at the point of a raise is kept. *)
Definition M (St A : Type) := St -> Outcome A * St.

Definition ret {St A} (a : A) : M St A := fun s => (Return a, s).

Definition raise {St A} (e : Exc) : M St A := fun s => (Raise e, s).

Definition bind {St A B} (m : M St A) (k : A -> M St B) : M St B :=
  fun s => match m s with
           | (Return a, s') => k a s'
           | (Raise e, s') => (Raise e, s')
           end.

(** [try: m except Exception: h] *)
Definition try_except {St A} (m : M St A) (h : Exc -> M St A) : M St A :=
  fun s => match m s with
           | (Return a, s') => (Return a, s')
           | (Raise e, s') => h e s'
           end.

(** Lift a pure outcome (a call that touches no state). *)
Definition lift {St A} (o : Outcome A) : M St A := fun s => (o, s).

Definition log_to (lvl : Level) (msg : string) : M Log unit :=
  fun l => (Return tt, l ++ [(lvl, msg)]).

(** [len(l)] *)
Definition len {A} (l : list A) : Z := Z.of_nat (length l).

(** [l.pop(index)]: negative indices count from the end; an index outside
    the list raises [IndexError].  Returns the element and the list left. *)
Definition list_pop {A} (l : list A) (index : Z) : Outcome (A * list A) :=
  match l with
  | [] => Raise (IndexError "pop from empty list")
  | _ =>
    let i := if index <? 0 then index + len l else index in
    if (i <? 0) || (len l <=? i) then Raise (IndexError "pop index out of range")
    else match l !! Z.to_nat i with
         | Some x => Return (x, delete (Z.to_nat i) l)
         | None => Raise (IndexError "pop index out of range")
         end
  end.

(** [s.lower()] on the ASCII range. *)
Definition lower_ascii (c : ascii) : ascii :=
  let n := nat_of_ascii c in
  if ((65 <=? n) && (n <=? 90))%nat then ascii_of_nat (n + 32) else c.

Fixpoint lower (s : string) : string :=
  match s with
  | EmptyString => EmptyString
  | String c s' => String (lower_ascii c) (lower s')
  end.

(** [str(z)] for an integer. *)
Definition str_of_int (z : Z) : string := NilZero.string_of_int (Z.to_int z).

(** A dictionary whose order of insertion matters, as an association
    list: [d[k] = v] keeps the place of a key already present. *)
Fixpoint dict_set (k v : string) (d : list (string * string))
    : list (string * string) :=
  match d with
  | [] => [(k, v)]
  | (k', v') :: d' =>
    if String.eqb k k' then (k, v) :: d' else (k', v') :: dict_set k v d'
  end.

(** [d.update(other)] *)
Definition dict_update (d other : list (string * string))
    : list (string * string) :=
  fold_left (fun acc kv => dict_set kv.1 kv.2 acc) other d.

(** Truth value of an optional string: [None] and the empty string are
    false. *)
Definition truthy (o : option string) : bool :=
  match o with
  | Some (String _ _) => true
  | _ => false
  end.

(** [l[index]]: negative indices count from the end; an index outside the
    list raises [IndexError]. *)
Definition list_getitem {A} (l : list A) (index : Z) : Outcome A :=
  let i := if index <? 0 then index + len l else index in
  if (i <? 0) || (len l <=? i) then Raise (IndexError "list index out of range")
  else match l !! Z.to_nat i with
       | Some x => Return x
       | None => Raise (IndexError "list index out of range")
       end.

(** [int(s)] for a text made of decimal digits, most significant first;
    [acc] is the value of the digits read so far. *)
Fixpoint int_of_digits (acc : Z) (s : string) : Z :=
  match s with
  | EmptyString => acc
  | String c s' => int_of_digits (10 * acc + Z.of_nat (nat_of_ascii c - 48)) s'
  end.

End Py.

Notation "'do' x <- m ; k" := (Py.bind m (fun x => k))
  (at level 10, x name, m at level 100, k at level 200).
Notation "'run' m ; k" := (Py.bind m (fun _ => k))
  (at level 10, m at level 100, k at level 200).

(** ** apprise_config.py *)

(** Values that travel in the keyword-argument mapping handed to a
    configuration plugin's constructor. *)
Record AppriseAsset := { app_id : string }.

Inductive Val :=
| VNone
| VBool (b : bool)
| VInt (z : Z)
| VStr (s : string)
| VList (l : list string)
| VTags (t : gset string)
| VAsset (a : AppriseAsset).

(** [cache: bool | int] *)
Inductive Cache := CacheBool (b : bool) | CacheInt (seconds : Z).

Definition cache_val (c : Cache) : Val :=
  match c with CacheBool b => VBool b | CacheInt z => VInt z end.

(** [tag: str | list[str] | None] *)
Inductive TagArg := TagNone | TagStr (s : string) | TagList (l : list string).

Definition tag_val (t : TagArg) : Val :=
  match t with TagNone => VNone | TagStr s => VStr s | TagList l => VList l end.

(** A tag expression as [servers] takes it: a string, or a list whose
    elements are strings or groups (tuples) of strings. *)
Inductive TagEntry := EntryStr (s : string) | EntryGroup (g : list string).
Inductive TagLogic := LogicStr (s : string) | LogicList (l : list TagEntry).

Module ConfigBase.

(** Modelled from the spec: [apprise/config/base.py] (class ConfigBase) is
    not part of the sources.  Following the spec's ConfigSource, an
    instance carries its tag set, the format of its content (the [value]
    of the ConfigFormat member, [None] while undetected) and the notifiers
    it currently expands to; [servers] reads that list, as
    [servers(cache=True)] does on a source that has loaded, and
    [pop(index)] removes from it with the semantics of [list.pop].  A
    [servers()] that refetches under the cache policy of section 4.5 is
    in [Shared] below. *)
Record t (N : Type) := Make {
  tags : gset string;
  config_format : option string;
  loaded : list N;
}.
Arguments Make {N} _ _ _.
Arguments tags {N} _.
Arguments config_format {N} _.
Arguments loaded {N} _.

Definition servers {N} (self : t N) : list N := loaded self.

Definition pop {N} (self : t N) (index : Z) : Py.Outcome (N * t N) :=
  match Py.list_pop (loaded self) index with
  | Py.Return (x, l') => Py.Return (x, Make (tags self) (config_format self) l')
  | Py.Raise e => Py.Raise e
  end.

End ConfigBase.

(** A configuration plugin as the manager hands it out: its static
    [parse_url] and its constructor called with the results as keyword arguments. *)
Record ConfigPlugin (N : Type) := {
  plugin_parse_url : string -> option (gmap string Val);
  plugin_new : gmap string Val -> Py.Outcome (ConfigBase.t N);
}.
Arguments plugin_parse_url {N} _ _.
Arguments plugin_new {N} _ _.

(** What [apprise_config.py] imports and the sources do not contain.
    Nothing is assumed of these: every property below is stated for an
    arbitrary environment. *)
Record Env (N : Type) := {
  (** [GET_SCHEMA_RE.match(url)], projected on its [schema] group *)
  GET_SCHEMA_RE : string -> option string;
  (** [URLBase.quote] *)
  URLBase_quote : string -> string;
  (** [utils.parse.parse_list] *)
  parse_list : TagArg -> list string;
  (** [utils.logic.is_exclusive_match(logic, data, match_all, match_always)] *)
  is_exclusive_match : TagLogic -> gset string -> string -> option string -> bool;
  (** [common.MATCH_ALL_TAG], [common.MATCH_ALWAYS_TAG], [common.CONFIG_FORMATS] *)
  MATCH_ALL_TAG : string;
  MATCH_ALWAYS_TAG : string;
  CONFIG_FORMATS : list string;
  (** the default [AppriseAsset()] *)
  default_asset : AppriseAsset;
  (** the ConfigurationManager singleton: schema to plugin *)
  C_MGR : gmap string (ConfigPlugin N);
}.
Arguments GET_SCHEMA_RE {N} _ _.
Arguments URLBase_quote {N} _ _.
Arguments parse_list {N} _ _.
Arguments is_exclusive_match {N} _ _ _ _ _.
Arguments MATCH_ALL_TAG {N} _.
Arguments MATCH_ALWAYS_TAG {N} _.
Arguments CONFIG_FORMATS {N} _.
Arguments default_asset {N} _.
Arguments C_MGR {N} _.

Module AppriseConfig.

Import Py.

Section Methods.

Context {N : Type}.
Variable env : Env N.

(** The object: [self.configs] and the defaults set by [__init__]. *)
Record t := Make {
  configs : list (ConfigBase.t N);
  asset : AppriseAsset;
  cache : Cache;
  recursion : Z;
  insecure_includes : bool;
}.

Definition set_configs (self : t) (cs : list (ConfigBase.t N)) : t :=
  Make cs (asset self) (cache self) (recursion self) (insecure_includes self).

(** The state a method runs in: the object and the logger. *)
Definition St : Type := t * Log.

Definition logger (lvl : Level) (msg : string) : M St unit :=
  fun s => (Return tt, (s.1, s.2 ++ [(lvl, msg)])).

(** [self.configs.append(c)] *)
Definition append (c : ConfigBase.t N) : M St unit :=
  fun s => (Return tt, (set_configs s.1 (configs s.1 ++ [c]), s.2)).

(** Run a static method, which only sees the logger. *)
Definition static {A} (m : M Log A) : M St A :=
  fun s => let '(o, l) := m s.2 in (o, (s.1, l)).

(** [C_MGR[schema]] *)
Definition C_MGR_getitem (schema : string) : Outcome (ConfigPlugin N) :=
  match C_MGR env !! schema with
  | Some p => Return p
  | None => Raise (KeyError schema)
  end.

(** [not results] for what a [parse_url] returns: [None] or an empty
    dictionary. *)
Definition not_results (results : option (gmap string Val)) : bool :=
  match results with
  | None => true
  | Some r => bool_decide (size r = 0%nat)
  end.

(** [instantiate] from the parse of the URL by the plugin registered under
    [schema] to the last override: the URL and the keyword arguments the
    constructor will receive, or [None] after a warning. *)
Definition instantiate_results (schema url : string)
    (asset : option AppriseAsset) (tag : TagArg) (cache : option Cache)
    (recursion : Z) (insecure_includes : bool)
    : M Log (option (string * gmap string Val)) :=
  do plugin <- lift (C_MGR_getitem schema);
  let results := plugin_parse_url plugin url in
  if not_results results then
    run log_to WARNING ("Unparseable URL " +:+ url +:+ ".");
    ret None
  else
    let results := default ∅ results in
    let results := <["tag" := VTags (list_to_set (parse_list env tag))]> results in
    let results := <["asset" := VAsset (default (default_asset env) asset)]> results in
    let results :=
      match cache with
      | Some c => <["cache" := cache_val c]> results
      | None => results
      end in
    let results := <["recursion" := VInt recursion]> results in
    let results := <["insecure_includes" := VBool insecure_includes]> results in
    ret (Some (url, results)).

(** [instantiate], up to the point where the constructor is called. *)
Definition instantiate_kwargs (url : string) (asset : option AppriseAsset)
    (tag : TagArg) (cache : option Cache) (recursion : Z)
    (insecure_includes : bool) : M Log (option (string * gmap string Val)) :=
  match GET_SCHEMA_RE env url with
  | None =>
    let schema := "file" in
    let url := schema +:+ "://" +:+ URLBase_quote env url in
    instantiate_results schema url asset tag cache recursion insecure_includes
  | Some schema =>
    let schema := lower schema in
    if negb (bool_decide (schema ∈ dom (C_MGR env))) then
      run log_to WARNING ("Unsupported schema " +:+ schema +:+ ".");
      ret None
    else
      instantiate_results schema url asset tag cache recursion insecure_includes
  end.

(** The constructor call: the plugin registered under the [schema] key
    of [results], applied to [results] as keyword arguments. *)
Definition construct (results : gmap string Val) : Outcome (ConfigBase.t N) :=
  match results !! "schema" with
  | Some (VStr schema) =>
    match C_MGR_getitem schema with
    | Return plugin => plugin_new plugin results
    | Raise e => Raise e
    end
  | _ => Raise (KeyError "schema")
  end.

Definition instantiate (url : string) (asset : option AppriseAsset)
    (tag : TagArg) (cache : option Cache) (recursion : Z)
    (insecure_includes : bool) (suppress_exceptions : bool)
    : M Log (option (ConfigBase.t N)) :=
  do kw <- instantiate_kwargs url asset tag cache recursion insecure_includes;
  match kw with
  | None => ret None
  | Some (url, results) =>
    if suppress_exceptions then
      try_except
        (do cfg_plugin <- lift (construct results); ret (Some cfg_plugin))
        (fun _ => run log_to WARNING ("Could not load URL: " +:+ url); ret None)
    else
      do cfg_plugin <- lift (construct results); ret (Some cfg_plugin)
  end.

(** The argument of [add]: an instance, a string, a tuple/set/list of
    elements, or a value of another type. *)
Inductive ConfigElem :=
| ElemInstance (c : ConfigBase.t N)
| ElemStr (s : string)
| ElemOther (type_name : string).

Inductive ConfigsArg :=
| ArgInstance (c : ConfigBase.t N)
| ArgStr (s : string)
| ArgSeq (l : list ConfigElem)
| ArgOther (type_name : string).

(** The body of [for _config in configs], with [return_status] threaded. *)
Fixpoint add_loop (l : list ConfigElem) (asset : AppriseAsset) (tag : TagArg)
    (cache : Cache) (recursion : Z) (insecure_includes : bool)
    (return_status : bool) : M St bool :=
  match l with
  | [] => ret return_status
  | _config :: rest =>
    match _config with
    | ElemInstance c =>
      run append c;
      add_loop rest asset tag cache recursion insecure_includes return_status
    | ElemOther ty =>
      run logger WARNING ("An invalid configuration (type=" +:+ ty +:+ ") was specified.");
      add_loop rest asset tag cache recursion insecure_includes false
    | ElemStr s =>
      run logger DEBUG ("Loading configuration: " +:+ s);
      do instance <- static (instantiate s (Some asset) tag (Some cache) recursion
                               insecure_includes true);
      match instance with
      | None => add_loop rest asset tag cache recursion insecure_includes false
      | Some c =>
        run append c;
        add_loop rest asset tag cache recursion insecure_includes return_status
      end
    end
  end.

(** [self.asset], [self.cache], [self.recursion], [self.insecure_includes] *)
Definition defaults (self : t) : AppriseAsset * Cache * Z * bool :=
  (asset self, cache self, recursion self, insecure_includes self).

Definition add (configs : ConfigsArg) (asset : option AppriseAsset)
    (tag : TagArg) (cache : option Cache) (recursion : option Z)
    (insecure_includes : option bool) : M St bool :=
  fun s =>
    let '(self_asset, self_cache, self_recursion, self_insecure_includes) :=
      defaults s.1 in
    let cache := default self_cache cache in
    let recursion := default self_recursion recursion in
    let insecure_includes := default self_insecure_includes insecure_includes in
    let asset := default self_asset asset in
    match configs with
    | ArgInstance c => (run append c; ret true) s
    | ArgOther ty =>
      (run logger ERROR ("An invalid configuration path (type=" +:+ ty +:+ ") was specified.");
       ret false) s
    | ArgStr c =>
      add_loop [ElemStr c] asset tag cache recursion insecure_includes true s
    | ArgSeq l =>
      add_loop l asset tag cache recursion insecure_includes true s
    end.

(** The [content] argument of [add_config]: a string or anything else. *)
Inductive ContentArg := ContentStr (s : string) | ContentOther (type_name : string).

(** The keyword arguments of the [C_MGR["memory"]] call. *)
Definition memory_kwargs (content : string) (format : option string)
    (asset : AppriseAsset) (tag : TagArg) (recursion : Z)
    (insecure_includes : bool) : gmap string Val :=
  <["content" := VStr content]>
  (<["format" := from_option VStr VNone format]>
  (<["asset" := VAsset asset]>
  (<["tag" := tag_val tag]>
  (<["recursion" := VInt recursion]>
  (<["insecure_includes" := VBool insecure_includes]> ∅))))).

(** [instance.config_format and instance.config_format.value in
    common.CONFIG_FORMATS] *)
Definition format_supported (instance : ConfigBase.t N) : bool :=
  match ConfigBase.config_format instance with
  | None => false
  | Some f => bool_decide (f ∈ CONFIG_FORMATS env)
  end.

Definition add_config (content : ContentArg) (asset : option AppriseAsset)
    (tag : TagArg) (format : option string) (recursion : option Z)
    (insecure_includes : option bool) : M St bool :=
  fun s =>
    let '(self_asset, _, self_recursion, self_insecure_includes) := defaults s.1 in
    let recursion := default self_recursion recursion in
    let insecure_includes := default self_insecure_includes insecure_includes in
    let asset := default self_asset asset in
    match content with
    | ContentOther ty =>
      (run logger WARNING ("An invalid configuration (type=" +:+ ty +:+ ") was specified.");
       ret false) s
    | ContentStr content =>
      (run logger DEBUG ("Loading raw configuration: " +:+ content);
       do memory <- lift (C_MGR_getitem "memory");
       do instance <- lift (plugin_new memory
                              (memory_kwargs content format asset tag recursion
                                 insecure_includes));
       if negb (format_supported instance) then
         run logger WARNING "The format of the configuration could not be deteced.";
         ret false
       else
         run append instance;
         ret true) s
    end.

(** [servers]: the loop over [self.configs], extending [response]. *)
Fixpoint servers_loop (entries : list (ConfigBase.t N)) (tag : TagLogic)
    (match_always : option string) (response : list N) : list N :=
  match entries with
  | [] => response
  | entry :: rest =>
    if is_exclusive_match env tag (ConfigBase.tags entry) (MATCH_ALL_TAG env) match_always
    then servers_loop rest tag match_always (response ++ ConfigBase.servers entry)
    else servers_loop rest tag match_always response
  end.

Definition servers (self : t) (tag : TagLogic) (match_always : bool) : list N :=
  let match_always := if match_always then Some (MATCH_ALWAYS_TAG env) else None in
  servers_loop (configs self) tag match_always [].

(** [server_pop]: the loop over [self.configs] with [prev_offset]; the
    result is the notifier and the entries as the pop left them.  Every
    position has a value of its own here, so the entry popped from changes
    at its position only; source objects held at several positions are in
    [Shared] below. *)
Fixpoint server_pop_loop (entries : list (ConfigBase.t N)) (prev_offset : Z)
    (index : Z) : Outcome (N * list (ConfigBase.t N)) :=
  match entries with
  | [] => Raise (IndexError "list index out of range")
  | entry :: rest =>
    let servers := ConfigBase.servers entry in
    if len servers >? 0 then
      let offset := prev_offset + len servers in
      if offset >=? index then
        match ConfigBase.pop entry
                (if prev_offset =? -1 then index else index - prev_offset - 1) with
        | Return (x, entry') => Return (x, entry' :: rest)
        | Raise e => Raise e
        end
      else
        match server_pop_loop rest offset index with
        | Return (x, rest') => Return (x, entry :: rest')
        | Raise e => Raise e
        end
    else
      match server_pop_loop rest prev_offset index with
      | Return (x, rest') => Return (x, entry :: rest')
      | Raise e => Raise e
      end
  end.

Definition server_pop (index : Z) : M St N :=
  fun s =>
    match server_pop_loop (configs s.1) (-1) index with
    | Return (x, cs) => (Return x, (set_configs s.1 cs, s.2))
    | Raise e => (Raise e, s)
    end.

(** [__init__]: the fields are set, then [self.add(paths)] is called with
    the defaults of [add] for everything but the paths, [cache=True] among
    them.  An exception of [add] leaves the constructor; what [add]
    returns is dropped. *)
Definition __init__ (paths : option ConfigsArg) (asset : option AppriseAsset)
    (cache : Cache) (recursion : Z) (insecure_includes : bool) : M Log t :=
  fun log =>
    let self :=
      Make [] (default (default_asset env) asset) cache recursion
        insecure_includes in
    match paths with
    | None => (Return self, log)
    | Some paths =>
      match add paths None TagNone (Some (CacheBool true)) None None
              (self, log) with
      | (Return _, (self, log)) => (Return self, log)
      | (Raise e, (_, log)) => (Raise e, log)
      end
    end.

(** [clear]: [self.configs[:] = []] *)
Definition clear : M St unit :=
  fun s => (Return tt, (set_configs s.1 [], s.2)).

(** [pop(index)]; the default of [index] is [-1]. *)
Definition pop (index : Z) : M St (ConfigBase.t N) :=
  fun s =>
    match list_pop (configs s.1) index with
    | Return (c, cs) => (Return c, (set_configs s.1 cs, s.2))
    | Raise e => (Raise e, s)
    end.

(** [self[index]], [bool(self)], [len(self)] *)
Definition __getitem__ (self : t) (index : Z) : Outcome (ConfigBase.t N) :=
  list_getitem (configs self) index.

Definition __bool__ (self : t) : bool :=
  match configs self with
  | [] => false
  | _ :: _ => true
  end.

Definition __len__ (self : t) : Z := len (configs self).

End Methods.

Arguments t : clear implicits.
Arguments St : clear implicits.
Arguments ConfigElem : clear implicits.
Arguments ConfigsArg : clear implicits.

End AppriseConfig.

(** ** [servers] and [server_pop] over shared source objects

    [self.configs] holds references to source objects, and nothing keeps
    one object from being held at several positions: [entry.pop] changes
    the object, for every position that holds it, and [entry.servers()]
    may refetch and so change what the object has cached.  [AppriseConfig]
    above gives every position a value of its own and reads the cached
    list, which is the same as long as no object is held twice and every
    source serves from its cache; here the store of the objects is
    explicit. *)

Module Shared.

Import Py.

Section Store.

Context {N : Type}.
Variable env : Env N.

(** Modelled from the spec: [entry.servers()] under the cache policy of
    the source (section 4.5; [apprise/config/base.py] is not part of the
    sources).  [refetch e] is [None] when the source serves the list it
    has cached, and [Some l] when it refetches, [l] being what the refetch
    loads and caches. *)
Variable refetch : ConfigBase.t N -> option (list N).

(** A reference to a source object, and the objects by reference. *)
Definition Ref : Type := positive.
Definition Store : Type := Ref -> ConfigBase.t N.

Definition update (store : Store) (r : Ref) (e : ConfigBase.t N) : Store :=
  fun r' => if Pos.eqb r' r then e else store r'.

(** [server_pop]: the loop over [self.configs]; [entry.servers(cache=True)]
    reads the cached list, [entry.pop] changes the object in the store. *)
Fixpoint server_pop_loop (entries : list Ref) (store : Store)
    (prev_offset : Z) (index : Z) : Outcome (N * Store) :=
  match entries with
  | [] => Raise (IndexError "list index out of range")
  | entry :: rest =>
    let servers := ConfigBase.servers (store entry) in
    if len servers >? 0 then
      let offset := prev_offset + len servers in
      if offset >=? index then
        match ConfigBase.pop (store entry)
                (if prev_offset =? -1 then index else index - prev_offset - 1) with
        | Return (x, entry') => Return (x, update store entry entry')
        | Raise e => Raise e
        end
      else server_pop_loop rest store offset index
    else server_pop_loop rest store prev_offset index
  end.

Definition server_pop (configs : list Ref) (index : Z) : M Store N :=
  fun store =>
    match server_pop_loop configs store (-1) index with
    | Return (x, store') => (Return x, store')
    | Raise e => (Raise e, store)
    end.

(** [servers]: the loop over [self.configs]; a source that refetches
    caches what it loaded. *)
Fixpoint servers_loop (entries : list Ref) (tag : TagLogic)
    (match_always : option string) (response : list N) (store : Store)
    : list N * Store :=
  match entries with
  | [] => (response, store)
  | entry :: rest =>
    if is_exclusive_match env tag (ConfigBase.tags (store entry))
         (MATCH_ALL_TAG env) match_always
    then
      match refetch (store entry) with
      | None =>
        servers_loop rest tag match_always
          (response ++ ConfigBase.servers (store entry)) store
      | Some l =>
        servers_loop rest tag match_always (response ++ l)
          (update store entry
             (ConfigBase.Make (ConfigBase.tags (store entry))
                (ConfigBase.config_format (store entry)) l))
      end
    else servers_loop rest tag match_always response store
  end.

Definition servers (configs : list Ref) (tag : TagLogic) (match_always : bool)
    (store : Store) : list N * Store :=
  let match_always := if match_always then Some (MATCH_ALWAYS_TAG env) else None in
  servers_loop configs tag match_always [] store.

End Store.

End Shared.

(** ** Strings and the generic URL grammar *)

Module Utils.

Definition is_digit (c : ascii) : bool :=
  let n := nat_of_ascii c in ((48 <=? n) && (n <=? 57))%nat.

Definition is_lower (c : ascii) : bool :=
  let n := nat_of_ascii c in ((97 <=? n) && (n <=? 122))%nat.

Definition is_upper (c : ascii) : bool :=
  let n := nat_of_ascii c in ((65 <=? n) && (n <=? 90))%nat.

Definition is_alnum (c : ascii) : bool := is_digit c || is_lower c || is_upper c.

(** Python's ASCII whitespace: space, tab, LF, VT, FF, CR. *)
Definition is_space (c : ascii) : bool :=
  let n := nat_of_ascii c in ((n =? 32) || ((9 <=? n) && (n <=? 13)))%nat.

Fixpoint mem (c : ascii) (s : string) : bool :=
  match s with
  | EmptyString => false
  | String d s' => Ascii.eqb c d || mem c s'
  end.

(** [all(p(c) for c in s)] *)
Fixpoint all_chars (p : ascii -> bool) (s : string) : bool :=
  match s with
  | EmptyString => true
  | String c s' => p c && all_chars p s'
  end.

Definition nonempty (s : string) : bool :=
  match s with EmptyString => false | _ => true end.

(** [s.lstrip()], [s.rstrip()], [s.strip()] *)
Fixpoint lstrip (s : string) : string :=
  match s with
  | EmptyString => EmptyString
  | String c s' => if is_space c then lstrip s' else s
  end.

Fixpoint rstrip (s : string) : string :=
  match s with
  | EmptyString => EmptyString
  | String c s' =>
    let r := rstrip s' in
    if is_space c && negb (nonempty r) then EmptyString else String c r
  end.

Definition strip (s : string) : string := rstrip (lstrip s).

(** [s.lstrip(chars)] for a one-character [chars] *)
Fixpoint lstrip_char (d : ascii) (s : string) : string :=
  match s with
  | EmptyString => EmptyString
  | String c s' => if Ascii.eqb c d then lstrip_char d s' else s
  end.

(** [s.rstrip(chars)] for a one-character [chars] *)
Fixpoint rstrip_char (d : ascii) (s : string) : string :=
  match s with
  | EmptyString => EmptyString
  | String c s' =>
    let r := rstrip_char d s' in
    if Ascii.eqb c d && negb (nonempty r) then EmptyString else String c r
  end.

(** [s.split(sep)] for a one-character separator: never empty. *)
Fixpoint split (sep : ascii) (s : string) : list string :=
  match s with
  | EmptyString => [EmptyString]
  | String c s' =>
    if Ascii.eqb c sep then EmptyString :: split sep s'
    else match split sep s' with
         | [] => [String c EmptyString]
         | w :: ws => String c w :: ws
         end
  end.

(** [sep.join(l)] *)
Fixpoint join (sep : string) (l : list string) : string :=
  match l with
  | [] => EmptyString
  | [w] => w
  | w :: ws => w +:+ sep +:+ join sep ws
  end.

(** The text before the first character satisfying [stop], and the text
    from that character on. *)
Fixpoint until (stop : ascii -> bool) (s : string) : string * string :=
  match s with
  | EmptyString => (EmptyString, EmptyString)
  | String c s' =>
    if stop c then (EmptyString, s)
    else let '(a, b) := until stop s' in (String c a, b)
  end.

Definition tail (s : string) : string :=
  match s with EmptyString => EmptyString | String _ s' => s' end.

(** The stop test "[c] is one of the characters of [ds]". *)
Definition one_of (ds : string) (c : ascii) : bool := mem c ds.

(** A literal of a pattern compiled with [re.I], matched at the start of
    [s]: the text it matched and the text after it.  (Texts within
    Latin-1, where a letter only matches its own two cases.) *)
Fixpoint match_ci (lit s : string) : option (string * string) :=
  match lit with
  | EmptyString => Some (EmptyString, s)
  | String a lit' =>
    match s with
    | EmptyString => None
    | String b s' =>
      if Ascii.eqb (Py.lower_ascii a) (Py.lower_ascii b) then
        match match_ci lit' s' with
        | Some (m, rest) => Some (String b m, rest)
        | None => None
        end
      else None
    end
  end.

(** *** Percent-encoding *)

Definition hex_digit (n : nat) : ascii :=
  match String.get n "0123456789ABCDEF" with Some c => c | None => "0"%char end.

Definition hex_value (c : ascii) : option nat :=
  let n := nat_of_ascii c in
  if is_digit c then Some (n - 48)%nat
  else if ((65 <=? n) && (n <=? 70))%nat then Some (n - 55)%nat
  else if ((97 <=? n) && (n <=? 102))%nat then Some (n - 87)%nat
  else None.

(** Characters [urllib.parse.quote] never encodes. *)
Definition unreserved (c : ascii) : bool := is_alnum c || mem c "_.-~".

(** Modelled from the spec: [URLBase.quote(content, safe)] comes from
    [apprise/url.py], which is not part of the sources; it is the
    percent-encoding whose inverse the spec's URL grammar applies
    (section 4.1): every character outside the unreserved ones and [safe]
    becomes [%XX]. *)
Fixpoint quote (safe : string) (s : string) : string :=
  match s with
  | EmptyString => EmptyString
  | String c s' =>
    if unreserved c || mem c safe then String c (quote safe s')
    else
      let n := nat_of_ascii c in
      String "%" (String (hex_digit (n / 16)) (String (hex_digit (n mod 16))
        (quote safe s')))
  end.

(** Modelled from the spec: [URLBase.unquote], the percent-decoding of
    section 4.1 ([apprise/url.py] is not part of the sources).  A [%] that
    is not followed by two hexadecimal digits is kept. *)
Fixpoint unquote (s : string) : string :=
  match s with
  | EmptyString => EmptyString
  | String c rest =>
    if Ascii.eqb c "%" then
      match rest with
      | String h (String l s') =>
        match hex_value h, hex_value l with
        | Some a, Some b => String (ascii_of_nat (16 * a + b)) (unquote s')
        | _, _ => String c (unquote rest)
        end
      | _ => String c (unquote rest)
      end
    else String c (unquote rest)
  end.

(** Modelled from the spec: [URLBase.split_path] ([apprise/url.py] is not
    part of the sources): the non-empty segments of a path, each
    percent-decoded. *)
Definition split_path (fullpath : string) : list string :=
  map unquote (filter (fun w => nonempty w = true) (split "/" fullpath)).

(** Modelled from the spec: [URLBase.urlencode] ([apprise/url.py] is not
    part of the sources): [key=value] pairs joined by [&], keys and values
    percent-encoded. *)
Definition urlencode (params : list (string * string)) : string :=
  join "&" (map (fun kv => quote "" kv.1 +:+ "=" +:+ quote "" kv.2) params).

(** Modelled from the spec: the query-string part of the URL grammar
    (section 4.1; [apprise/utils/parse.py] is not part of the sources):
    keys are case-insensitive (stored in lower case), the last occurrence
    of a key wins, keys and values are percent-decoded. *)
Definition parse_qsd (query : string) : gmap string string :=
  fold_left
    (fun (m : gmap string string) piece =>
       if nonempty piece then
         let '(k, v) := until (one_of "=") piece in
         <[Py.lower (unquote k) := unquote (tail v)]> m
       else m)
    (split "&" query) ∅.

(** Modelled from the spec: [validate_regex] with its default pattern
    ([apprise/utils/parse.py] is not part of the sources).  [None] and a
    value that does not start with a non-blank character are rejected; an
    accepted value is returned stripped. *)
Definition validate_regex (value : option string) : option string :=
  match value with
  | None => None
  | Some v =>
    match v with
    | EmptyString => None
    | String c _ => if is_space c then None else Some (strip v)
    end
  end.

(** *** The URL grammar of section 4.1 *)

Definition scheme_char (c : ascii) : bool :=
  is_alnum c || mem c "+-".

(** Modelled from the spec: [GET_SCHEMA_RE] ([apprise/utils/parse.py] is
    not part of the sources), the scheme pattern
    [^[a-z][a-z0-9+-]*://] of section 4.1 matched without regard to case
    (the callers lower-case the group).  Returns the scheme and the text
    after [://]. *)
Definition get_schema (url : string) : option (string * string) :=
  let '(sch, rest) := until (fun c => negb (scheme_char c)) url in
  match sch, rest with
  | String c _, String ":" (String "/" (String "/" rest')) =>
    if is_lower c || is_upper c then Some (sch, rest') else None
  | _, _ => None
  end.

Definition GET_SCHEMA_RE (url : string) : option string :=
  fst <$> get_schema url.

(** The spec's ParsedURL. *)
Record ParsedURL := {
  schema : string;
  user : option string;
  password : option string;
  host : string;
  port : option Z;
  fullpath : string;
  qsd : gmap string string;
  fragment : string;
}.

(** A base-10 integer in [1, 65535]. *)
Definition parse_port (s : string) : option Z :=
  if nonempty s && all_chars is_digit s then
    match NilEmpty.uint_of_string s with
    | Some d =>
      let p := Z.of_uint d in
      if (1 <=? p) && (p <=? 65535) then Some p else None
    | None => None
    end
  else None.

(** Modelled from the spec: the URL Grammar Parser of section 4.1
    ([apprise/utils/parse.py] and [apprise/url.py] are not part of the
    sources), for URLs that carry a scheme.  The path is everything after
    host[:port] up to [?] or [#]; percent-decoding is applied to every
    component but the scheme: user, password, host, path, query parameters
    and fragment; the port, when present, must be a base-10 integer in
    [1, 65535]; the host is mandatory. *)
Definition parse_url (url : string) : option ParsedURL :=
  match get_schema url with
  | None => None
  | Some (sch, rest) =>
    let '(main, after) := until (one_of "?#") rest in
    let '(query, frag) :=
      match after with
      | String "?" q => let '(q', f) := until (one_of "#") q in (q', tail f)
      | _ => (EmptyString, tail after)
      end in
    let '(authority, path) := until (one_of "/") main in
    let '(userinfo, hostport) :=
      let '(ui, r) := until (one_of "@") authority in
      match r with
      | EmptyString => (None, authority)
      | String _ hp => (Some ui, hp)
      end in
    let '(usr, pwd) :=
      match userinfo with
      | None => (None, None)
      | Some ui =>
        let '(u, p) := until (one_of ":") ui in
        (if nonempty u then Some (unquote u) else None,
         match p with
         | EmptyString => None
         | String _ p' => Some (unquote p')
         end)
      end in
    let '(h, pr) := until (one_of ":") hostport in
    let prt : option (option Z) :=
      match pr with
      | EmptyString => Some None
      | String _ digits =>
        match parse_port digits with
        | Some p => Some (Some p)
        | None => None
        end
      end in
    match prt with
    | None => None
    | Some prt =>
      if nonempty h then
        Some {| schema := Py.lower sch; user := usr; password := pwd;
                host := unquote h; port := prt; fullpath := unquote path;
                qsd := parse_qsd query; fragment := unquote frag |}
      else None
    end
  end.

End Utils.

(** ** Notifier plugins *)

(** [PrivacyMode] of [apprise/url.py]. *)
Inductive PrivacyMode := Secret | Outer | Tail.

(** [NotifyType] of [apprise/common.py]. *)
Inductive NotifyType := NT_INFO | NT_SUCCESS | NT_WARNING | NT_FAILURE.

Module NotifyBase.

(** Modelled from the spec: [apprise/plugins/base.py] and [apprise/url.py]
    are not part of the sources.  The attributes common to all notifiers
    that the two plugins read (spec, section 3): security mode flag, target
    host and port, optional embedded credentials. *)
Record t := Make {
  secure : bool;
  user : option string;
  password : option string;
  host : string;
  port : option Z;
}.

(** Modelled from the spec: [NotifyBase.parse_url] is the URL Grammar
    Parser of section 4.1. *)
Definition parse_url (url : string) : option Utils.ParsedURL :=
  Utils.parse_url url.

(** Modelled from the spec: the base constructor keeps the parsed
    components; a secure scheme differs from its insecure counterpart only
    in the security flag (section 3, SchemeRegistration). *)
Definition __init__ (secure_protocol : string) (kwargs : Utils.ParsedURL) : t :=
  {| secure := bool_decide (Utils.schema kwargs = secure_protocol);
     user := Utils.user kwargs;
     password := Utils.password kwargs;
     host := Utils.host kwargs;
     port := Utils.port kwargs |}.

End NotifyBase.

(** An HTTP request as [requests.post] receives it, and what comes back:
    a response with its status code, or a [requests.RequestException]. *)
Record Payload := {
  text : string;
  icon_url : option string;
  username : string;
  channel : option string;
}.

Record Request := {
  req_url : string;
  req_data : Payload;
  req_headers : list (string * string);
}.

Inductive Response :=
| Status (status_code : Z) (content : string)
| RequestException (msg : string).

(** What the plugins use and the sources do not contain, and of which the
    spec says nothing.  Nothing is assumed of these. *)
Record PluginEnv := {
  (** [self.url_parameters(privacy=...)] *)
  url_parameters : NotifyBase.t -> bool -> list (string * string);
  (** what [pprint] shows instead of a value when [privacy] is set *)
  pprint_masked : PrivacyMode -> string -> string;
  (** [utils.parse.parse_list] on the [channels] argument *)
  parse_channels : list string -> list string;
  (** [URLBase.parse_list] on a query-string value *)
  URLBase_parse_list : string -> list string;
  (** [utils.parse.parse_bool] *)
  parse_bool : string -> bool;
  (** [self.app_id], [self.image_url(notify_type)] *)
  self_app_id : string;
  image_url : NotifyType -> option string;
  (** [requests.post]: the answer to a request, given the requests made
      before it *)
  requests_post : list Request -> Request -> Response;
}.

(** [URLBase.pprint(content, privacy, mode, safe=safe)] *)
Definition pprint (penv : PluginEnv) (content : string) (privacy : bool)
    (mode : PrivacyMode) (safe : string) : string :=
  if privacy then pprint_masked penv mode content else Utils.quote safe content.

Module NotifyPushjet.

Import Py.

Definition protocol : string := "pjet".
Definition secure_protocol : string := "pjets".

Record t := Make {
  base : NotifyBase.t;
  secret_key : string;
}.

(** The dictionary [parse_url] returns: the generic results and the
    [secret_key] entry. *)
Record Results := {
  results : Utils.ParsedURL;
  results_secret_key : option string;
}.

Definition __init__ (secret_key : option string) (kwargs : Utils.ParsedURL)
    : Outcome t :=
  let base := NotifyBase.__init__ secure_protocol kwargs in
  let self_secret_key := Utils.validate_regex secret_key in
  if negb (truthy self_secret_key) then
    Raise (TypeError ("An invalid Pushjet Secret Key (" +:+
                      default "None" secret_key +:+ ") was specified."))
  else Return {| base := base; secret_key := default "" self_secret_key |}.

Definition url_identifier (self : t)
    : string * option string * option string * string * option Z * string :=
  (if NotifyBase.secure (base self) then secure_protocol else protocol,
   NotifyBase.user (base self),
   NotifyBase.password (base self),
   NotifyBase.host (base self),
   NotifyBase.port (base self),
   secret_key self).

Definition url (penv : PluginEnv) (self : t) (privacy : bool) : string :=
  let b := base self in
  let params := url_parameters penv b privacy in
  let default_port := if NotifyBase.secure b then 443 else 80 in
  let auth :=
    if truthy (NotifyBase.user b) && truthy (NotifyBase.password b) then
      Utils.quote "" (default "" (NotifyBase.user b)) +:+ ":" +:+
      pprint penv (default "" (NotifyBase.password b)) privacy Secret "" +:+ "@"
    else "" in
  (if NotifyBase.secure b then secure_protocol else protocol) +:+ "://" +:+
  auth +:+ NotifyBase.host b +:+
  (match NotifyBase.port b with
   | None => ""
   | Some p => if p =? default_port then "" else ":" +:+ str_of_int p
   end) +:+
  "/" +:+ pprint penv (secret_key self) privacy Secret "" +:+
  "/?" +:+ Utils.urlencode params.

Definition parse_url (url : string) : option Results :=
  match NotifyBase.parse_url url with
  | None => None
  | Some results =>
    let secret_key :=
      match Utils.split_path (Utils.fullpath results) with
      | first :: _ => Some first
      | [] => None
      end in
    let secret_key :=
      match Utils.qsd results !! "secret" with
      | Some v => if Utils.nonempty v then Some (Utils.unquote v) else secret_key
      | None => secret_key
      end in
    Some {| results := results; results_secret_key := secret_key |}
  end.

(** What [send] hands to [requests.post]: the URL, the query parameters,
    the payload given to [dumps], the headers and the credentials.
    ([verify] and [timeout] are read from attributes of the base class
    that the embedding does not carry.) *)
Record SendPayload := {
  message : string;
  title : string;
  link : option string;
  level : option string;
}.

Record SendRequest := {
  send_url : string;
  send_params : list (string * string);
  send_data : SendPayload;
  send_headers : list (string * string);
  send_auth : option (string * option string);
}.

(** [notify_url] of [send]; the port is tested for truth, so that [None]
    and [0] both leave it out. *)
Definition notify_url (self : t) : string :=
  let b := base self in
  (if NotifyBase.secure b then "https" else "http") +:+ "://" +:+
  NotifyBase.host b +:+
  (match NotifyBase.port b with
   | None => ""
   | Some p => if p =? 0 then "" else ":" +:+ str_of_int p
   end) +:+
  "/message/".

(** [send]: [requests_post] answers a request, given the requests made
    before it; the state is the trace of requests and answers.  Calls to
    the logger and to [throttle] carry no value and are left out. *)
Definition send (penv : PluginEnv)
    (requests_post : list SendRequest -> SendRequest -> Response) (self : t)
    (body : string) (title : string) (notify_type : NotifyType)
    : M (list (SendRequest * Response)) bool :=
  fun trace =>
    let params := [("secret", secret_key self)] in
    let payload :=
      {| message := body; title := title; link := None; level := None |} in
    let headers :=
      [("User-Agent", self_app_id penv);
       ("Content-Type", "application/x-www-form-urlencoded; charset=utf-8")] in
    let auth :=
      if truthy (NotifyBase.user (base self))
      then Some (default "" (NotifyBase.user (base self)),
                 NotifyBase.password (base self))
      else None in
    let req :=
      {| send_url := notify_url self; send_params := params;
         send_data := payload; send_headers := headers; send_auth := auth |} in
    let r := requests_post (map fst trace) req in
    let trace := trace ++ [(req, r)] in
    match r with
    | Status status_code _ =>
      if negb (status_code =? 200) then (Return false, trace)
      else (Return true, trace)
    | RequestException _ => (Return false, trace)
    end.

End NotifyPushjet.

Module NotifyMattermost.

Import Py.

Definition protocol : string := "mmost".
Definition secure_protocol : string := "mmosts".

Record t := Make {
  base : NotifyBase.t;
  schema : string;
  fullpath : string;
  token : string;
  channels : list string;
  include_image : bool;
}.

(** The dictionary [parse_url] returns: the generic results, with
    [fullpath] replaced, and the plugin's own entries. *)
Record Results := {
  results : Utils.ParsedURL;
  results_token : option string;
  results_fullpath : option string;
  results_channels : list string;
  results_include_image : bool;
}.

Definition __init__ (penv : PluginEnv) (token : option string)
    (fullpath : option string) (channels : list string) (include_image : bool)
    (kwargs : Utils.ParsedURL) : Outcome t :=
  let base := NotifyBase.__init__ secure_protocol kwargs in
  let schema := if NotifyBase.secure base then "https" else "http" in
  let self_fullpath :=
    match fullpath with None => "" | Some f => Utils.strip f end in
  let self_token := Utils.validate_regex token in
  if negb (truthy self_token) then
    Raise (TypeError ("An invalid Mattermost Authorization Token (" +:+
                      default "None" token +:+ ") was specified."))
  else
    Return {| base := base; schema := schema; fullpath := self_fullpath;
              token := default "" self_token;
              channels := map (Utils.lstrip_char "#") (parse_channels penv channels);
              include_image := include_image |}.

(** The URL every pass of the loop in [send] posts to. *)
Definition hook_url (self : t) : string :=
  schema self +:+ "://" +:+ NotifyBase.host (base self) +:+
  (match NotifyBase.port (base self) with
   | None => ""
   | Some p => ":" +:+ str_of_int p
   end) +:+
  Utils.rstrip_char "/" (fullpath self) +:+ "/hooks/" +:+ token self.

Definition set_channel (payload : Payload) (c : string) : Payload :=
  {| text := text payload; icon_url := icon_url payload;
     username := username payload; channel := Some c |}.

(** [requests.post(...)], recorded in the trace of requests and answers. *)
Definition post (penv : PluginEnv) (req : Request)
    : M (list (Request * Response)) Response :=
  fun trace =>
    let r := requests_post penv (map fst trace) req in
    (Return r, trace ++ [(req, r)]).

(** The [while len(channels)] loop of [send]: the channels still to pop,
    the payload as the passes before left it, the error flag.  Calls to
    the logger and to [throttle] carry no value and are left out. *)
Fixpoint send_loop (penv : PluginEnv) (self : t)
    (channels : list (option string)) (headers : list (string * string))
    (payload : Payload) (has_error : bool)
    : M (list (Request * Response)) bool :=
  match channels with
  | [] => ret (negb has_error)
  | channel :: channels =>
    let payload :=
      if truthy channel then set_channel payload (default "" channel)
      else payload in
    let url := hook_url self in
    do r <- post penv {| req_url := url; req_data := payload;
                         req_headers := headers |};
    match r with
    | Status status_code _ =>
      if negb (status_code =? 200)
      then send_loop penv self channels headers payload true
      else send_loop penv self channels headers payload has_error
    | RequestException _ =>
      send_loop penv self channels headers payload true
    end
  end.

Definition send (penv : PluginEnv) (self : t) (body : string) (title : string)
    (notify_type : NotifyType) : M (list (Request * Response)) bool :=
  let channels : list (option string) :=
    match channels self with
    | [] => [None]
    | cs => map Some cs
    end in
  let headers := [("User-Agent", self_app_id penv);
                  ("Content-Type", "application/json")] in
  let image_url :=
    if negb (include_image self) then None else image_url penv notify_type in
  let payload :=
    {| text := body;
       icon_url := if truthy image_url then image_url else None;
       username := if truthy (NotifyBase.user (base self))
                   then default "" (NotifyBase.user (base self))
                   else self_app_id penv;
       channel := None |} in
  send_loop penv self channels headers payload false.

Definition url_identifier (self : t)
    : string * string * string * option Z * string :=
  (if NotifyBase.secure (base self) then secure_protocol else protocol,
   token self,
   NotifyBase.host (base self),
   NotifyBase.port (base self),
   fullpath self).

Definition url (penv : PluginEnv) (self : t) (privacy : bool) : string :=
  let b := base self in
  let params :=
    dict_update [("image", if include_image self then "yes" else "no")]
      (url_parameters penv b privacy) in
  let params :=
    match channels self with
    | [] => params
    | cs => dict_set "channel" (Utils.join "," (map (Utils.quote "") cs)) params
    end in
  let default_port := if NotifyBase.secure b then 443 else 80 in
  let default_schema := if NotifyBase.secure b then secure_protocol else protocol in
  let botname :=
    if truthy (NotifyBase.user b)
    then Utils.quote "" (default "" (NotifyBase.user b)) +:+ "@"
    else "" in
  default_schema +:+ "://" +:+ botname +:+ NotifyBase.host b +:+
  (match NotifyBase.port b with
   | None => ""
   | Some p => if p =? default_port then "" else ":" +:+ str_of_int p
   end) +:+
  (if negb (Utils.nonempty (fullpath self)) then "/"
   else Utils.quote "/" (fullpath self) +:+ "/") +:+
  pprint penv (token self) privacy Outer "" +:+
  "/?" +:+ Utils.urlencode params.

Definition parse_url (penv : PluginEnv) (url : string) : option Results :=
  match NotifyBase.parse_url url with
  | None => None
  | Some results =>
    let tokens := Utils.split_path (Utils.fullpath results) in
    let token := last tokens in
    let tokens := removelast tokens in
    let fullpath :=
      match tokens with
      | [] => ""
      | _ => "/" +:+ Utils.join "/" tokens
      end in
    let qsd := Utils.qsd results in
    let from_key (key : string) : list string :=
      match qsd !! key with
      | Some v => if Utils.nonempty v then URLBase_parse_list penv v else []
      | None => []
      end in
    let channels := from_key "to" ++ from_key "channel" ++ from_key "channels" in
    let include_image :=
      match qsd !! "image" with
      | Some v => parse_bool penv v
      | None => true
      end in
    Some {| results := results; results_token := token;
            results_fullpath := Some fullpath; results_channels := channels;
            results_include_image := include_image |}
  end.

(** The groups of the pattern of [parse_native_url]; [port] and [params]
    are [None] when their group took no part in the match. *)
Record NativeMatch := {
  native_secure : string;
  native_host : string;
  native_port : option string;
  native_token : string;
  native_params : option string;
}.

(** The classes [[A-Z0-9_.-]] and [[A-Z0-9_-]] under [re.I]. *)
Definition host_class (c : ascii) : bool :=
  Utils.is_alnum c || Utils.mem c "_.-".

Definition token_class (c : ascii) : bool :=
  Utils.is_alnum c || Utils.mem c "_-".

(** [re.match] of the pattern of [parse_native_url], compiled with [re.I]:
    [^http(s?)://(mattermost\.[A-Z0-9_.-]+)(:([1-9][0-9]{0,5}))?/hooks/([A-Z0-9_-]+)/?(\?.+)?$].
    Each repetition is followed by a character outside its class, so the
    longest run is the only candidate; [.] stops at a line feed and [$]
    stands at the end of the text or before a line feed that ends it. *)
Definition native_match (url : string) : option NativeMatch :=
  match Utils.match_ci "http" url with
  | None => None
  | Some (_, r1) =>
    let '(secure, r2) :=
      match r1 with
      | String c r =>
        if Ascii.eqb (lower_ascii c) "s" then (String c "", r) else ("", r1)
      | EmptyString => ("", r1)
      end in
    match Utils.match_ci "://" r2 with
    | None => None
    | Some (_, r3) =>
      match Utils.match_ci "mattermost." r3 with
      | None => None
      | Some (m, r4) =>
        let '(h, r5) := Utils.until (fun c => negb (host_class c)) r4 in
        if negb (Utils.nonempty h) then None
        else
          let port_rest : option (option string * string) :=
            match r5 with
            | String ":" r =>
              let '(d, r6) := Utils.until (fun c => negb (Utils.is_digit c)) r in
              match d with
              | String c0 _ =>
                if negb (Ascii.eqb c0 "0") && (String.length d <=? 6)%nat
                then Some (Some d, r6)
                else None
              | EmptyString => None
              end
            | _ => Some (None, r5)
            end in
          match port_rest with
          | None => None
          | Some (port, r6) =>
            match Utils.match_ci "/hooks/" r6 with
            | None => None
            | Some (_, r7) =>
              let '(tok, r8) := Utils.until (fun c => negb (token_class c)) r7 in
              if negb (Utils.nonempty tok) then None
              else
                let r9 := match r8 with String "/" r => r | _ => r8 end in
                let found params :=
                  Some {| native_secure := secure; native_host := m +:+ h;
                          native_port := port; native_token := tok;
                          native_params := params |} in
                match r9 with
                | EmptyString => found None
                | String "010" EmptyString => found None
                | String "?" q =>
                  let '(y, r10) := Utils.until (fun c => Ascii.eqb c "010") q in
                  match r10 with
                  | EmptyString | String _ EmptyString =>
                    if Utils.nonempty y then found (Some (String "?" y)) else None
                  | _ => None
                  end
                | _ => None
                end
            end
          end
      end
    end
  end.

(** The URL [parse_native_url] re-assembles from a match. *)
Definition native_url (m : NativeMatch) : string :=
  let default_port :=
    if truthy (native_port m) then int_of_digits 0 (default "" (native_port m))
    else if Utils.nonempty (native_secure m) then 443 else 80 in
  let default_schema :=
    if Utils.nonempty (native_secure m) then secure_protocol else protocol in
  default_schema +:+ "://" +:+ native_host m +:+
  (if negb (truthy (native_port m))
      || (int_of_digits 0 (default "" (native_port m)) =? default_port)
   then "" else ":" +:+ str_of_int default_port) +:+
  "/" +:+ native_token m +:+ "/" +:+
  (if negb (truthy (native_params m)) then ""
   else default "" (native_params m)).

Definition parse_native_url (penv : PluginEnv) (url : string) : option Results :=
  match native_match url with
  | Some result => parse_url penv (native_url result)
  | None => None
  end.

End NotifyMattermost.

(** ** The notifier instantiation path *)

Module Apprise.

Import Py.

Inductive Notifier :=
| Pushjet (n : NotifyPushjet.t)
| Mattermost (n : NotifyMattermost.t).

(** Modelled from the spec: notifier instantiation (section 4.3;
    [apprise/apprise.py] and the notification manager are not part of the
    sources).  The scheme selects the plugin, the plugin's own [parse_url]
    refines the URL, and the constructor is called on its results; an
    unregistered scheme or an unparseable URL gives [None], a constructor
    exception is propagated (the caller did not ask for suppression). *)
Definition instantiate (penv : PluginEnv) (url : string)
    : Outcome (option Notifier) :=
  match Utils.GET_SCHEMA_RE url with
  | None => Return None
  | Some schema =>
    let schema := lower schema in
    if bool_decide (schema = NotifyPushjet.protocol)
       || bool_decide (schema = NotifyPushjet.secure_protocol) then
      match NotifyPushjet.parse_url url with
      | None => Return None
      | Some r =>
        match NotifyPushjet.__init__ (NotifyPushjet.results_secret_key r)
                (NotifyPushjet.results r) with
        | Return n => Return (Some (Pushjet n))
        | Raise e => Raise e
        end
      end
    else if bool_decide (schema = NotifyMattermost.protocol)
       || bool_decide (schema = NotifyMattermost.secure_protocol) then
      match NotifyMattermost.parse_url penv url with
      | None => Return None
      | Some r =>
        match NotifyMattermost.__init__ penv (NotifyMattermost.results_token r)
                (NotifyMattermost.results_fullpath r)
                (NotifyMattermost.results_channels r)
                (NotifyMattermost.results_include_image r)
                (NotifyMattermost.results r) with
        | Return n => Return (Some (Mattermost n))
        | Raise e => Raise e
        end
      end
    else Return None
  end.

(** [url] and [url_identifier] of whichever plugin the notifier is. *)
Definition url (penv : PluginEnv) (n : Notifier) (privacy : bool) : string :=
  match n with
  | Pushjet n => NotifyPushjet.url penv n privacy
  | Mattermost n => NotifyMattermost.url penv n privacy
  end.

Definition url_identifier (n : Notifier)
    : (string * option string * option string * string * option Z * string)
      + (string * string * string * option Z * string) :=
  match n with
  | Pushjet n => inl (NotifyPushjet.url_identifier n)
  | Mattermost n => inr (NotifyMattermost.url_identifier n)
  end.

End Apprise.

(** ** Concrete collaborators

    The tag evaluator, two configuration plugins and an environment built
    from them; the properties of Part II hold for every environment, these
    serve to run the embedding. *)

Module Logic.

Definition entry_matches (data : gset string) (match_all : string)
    (match_always : option string) (e : TagEntry) : bool :=
  match e with
  | EntryStr s =>
    bool_decide (s ∈ data) || bool_decide (s = match_all)
    || match match_always with
       | Some a => bool_decide (a ∈ data)
       | None => false
       end
  | EntryGroup g => forallb (fun s => bool_decide (s ∈ data)) g
  end.

(** Modelled from the spec: [utils.logic.is_exclusive_match]
    ([apprise/utils/logic.py] is not part of the sources), the Tag Logic
    Evaluator of section 4.4.  A string is a comma-delimited list of
    literals (section 6). *)
Definition is_exclusive_match (logic : TagLogic) (data : gset string)
    (match_all : string) (match_always : option string) : bool :=
  match logic with
  | LogicStr s =>
    bool_decide (s = match_all)
    || existsb (entry_matches data match_all match_always)
         (map (fun w => EntryStr (Utils.strip w)) (Utils.split "," s))
  | LogicList l => existsb (entry_matches data match_all match_always) l
  end.

(** Modelled from the spec: [utils.parse.parse_list] on a tag argument
    ([apprise/utils/parse.py] is not part of the sources): a string is a
    comma-delimited list (section 6); empty entries are dropped. *)
Definition parse_list (tag : TagArg) : list string :=
  let words :=
    match tag with
    | TagNone => []
    | TagStr s => Utils.split "," s
    | TagList l => l
    end in
  filter (fun w => Utils.nonempty w = true) (map Utils.strip words).

End Logic.

Module Plugins.

Import Py.

(** Modelled from the spec: the in-memory Config Source
    ([apprise/config/memory.py] and [apprise/config/base.py] are not part
    of the sources; spec, sections 4.5 and 4.6).  The format is the
    explicit override, else the one detected from the content; [detect]
    and [load] stand for format detection and for the parse of the content
    into notifiers. *)
Definition ConfigMemory {N} (detect : string -> option string)
    (load : string -> list N) : ConfigPlugin N :=
  {| plugin_parse_url := fun _ => None;
     plugin_new := fun kwargs =>
       match kwargs !! "content" with
       | Some (VStr content) =>
         let format :=
           match kwargs !! "format" with
           | Some (VStr f) => Some (lower f)
           | _ => detect content
           end in
         let tags : gset string :=
           match kwargs !! "tag" with
           | Some (VStr s) => list_to_set (Logic.parse_list (TagStr s))
           | Some (VList l) => list_to_set (Logic.parse_list (TagList l))
           | Some (VTags t) => t
           | _ => ∅
           end in
         Return (ConfigBase.Make tags format (load content))
       | _ => Raise (TypeError "content")
       end |}.

(** Modelled from the spec: a remote Config Source plugin (the
    configuration plugins are not part of the sources).  Its [parse_url]
    is the URL grammar of section 4.1; it keeps an integer [cache] query
    parameter in its results, which is the entry the guard
    [if cache is not None] of [instantiate] leaves in place.  The
    constructor fetches nothing: the source starts unloaded. *)
Definition ConfigHTTP {N} : ConfigPlugin N :=
  {| plugin_parse_url := fun url =>
       match Utils.parse_url url with
       | None => None
       | Some r =>
         let results : gmap string Val :=
           <["schema" := VStr (Utils.schema r)]>
           (<["host" := VStr (Utils.host r)]>
           (<["fullpath" := VStr (Utils.fullpath r)]> ∅)) in
         Some match Utils.qsd r !! "cache" with
              | Some v =>
                match Utils.parse_port v with
                | Some seconds => <["cache" := VInt seconds]> results
                | None => results
                end
              | None => results
              end
       end;
     plugin_new := fun kwargs =>
       match kwargs !! "host" with
       | Some (VStr (String _ _)) =>
         Return (ConfigBase.Make
                   match kwargs !! "tag" with Some (VTags t) => t | _ => ∅ end
                   None [])
       | _ => Raise (TypeError "host")
       end |}.

(** Modelled from the spec: the local-file Config Source (the
    configuration plugins are not part of the sources): the text after
    [file://] up to the query string is the path.  The constructor reads
    nothing: the source starts unloaded. *)
Definition ConfigFile {N} : ConfigPlugin N :=
  {| plugin_parse_url := fun url =>
       match Utils.get_schema url with
       | None => None
       | Some (schema, rest) =>
         let '(path, _) := Utils.until (Utils.one_of "?") rest in
         if Utils.nonempty path then
           Some (<["schema" := VStr (lower schema)]>
                 (<["path" := VStr (Utils.unquote path)]> ∅))
         else None
       end;
     plugin_new := fun kwargs =>
       match kwargs !! "path" with
       | Some (VStr _) =>
         Return (ConfigBase.Make
                   match kwargs !! "tag" with Some (VTags t) => t | _ => ∅ end
                   None [])
       | _ => Raise (TypeError "path")
       end |}.

(** A plugin whose constructor rejects its arguments however they read,
    to exercise the exception paths of [instantiate]. *)
Definition ConfigRejecting {N} : ConfigPlugin N :=
  {| plugin_parse_url := fun url =>
       match Utils.get_schema url with
       | None => None
       | Some (schema, _) => Some (<["schema" := VStr (lower schema)]> ∅)
       end;
     plugin_new := fun _ => Raise (TypeError "rejected") |}.

(** A plugin whose [parse_url] returns results with no [schema] entry,
    to exercise the lookup of [results["schema"]] in [instantiate]. *)
Definition ConfigKeyless {N} : ConfigPlugin N :=
  {| plugin_parse_url := fun url => Some (<["path" := VStr url]> ∅);
     plugin_new := fun _ => Return (ConfigBase.Make ∅ None []) |}.

(** The lines of a text configuration, blanks dropped. *)
Definition load_lines (content : string) : list string :=
  filter (fun w => Utils.nonempty w = true)
    (map Utils.strip (Utils.split "010" content)).

(** Format detection after section 4.5: a first line shaped like a
    structured document ([urls:], [version:]) or like a URL. *)
Definition detect_config_format (content : string) : option string :=
  match load_lines content with
  | [] => None
  | line :: _ =>
    let '(key, rest) := Utils.until (Utils.one_of ":") line in
    if bool_decide (key = "urls") || bool_decide (key = "version") then Some "yaml"
    else if bool_decide (is_Some (Utils.get_schema line)) then Some "text"
    else None
  end.

End Plugins.

(** An environment over plain strings as notifiers: sources registered
    under [memory], [file], [http] and [https]. *)
Definition sample_env : Env string :=
  {| GET_SCHEMA_RE := Utils.GET_SCHEMA_RE;
     URLBase_quote := Utils.quote "/";
     parse_list := Logic.parse_list;
     is_exclusive_match := Logic.is_exclusive_match;
     MATCH_ALL_TAG := "all";
     MATCH_ALWAYS_TAG := "always";
     CONFIG_FORMATS := ["text"; "yaml"];
     default_asset := {| app_id := "Apprise" |};
     C_MGR :=
       <["memory" := Plugins.ConfigMemory Plugins.detect_config_format
                       Plugins.load_lines]>
       (<["file" := Plugins.ConfigFile]>
       (<["http" := Plugins.ConfigHTTP]>
       (<["https" := Plugins.ConfigHTTP]> ∅))) |}.

(** The same with one more scheme, whose plugin rejects every URL. *)
Definition rejecting_env : Env string :=
  {| GET_SCHEMA_RE := GET_SCHEMA_RE sample_env;
     URLBase_quote := URLBase_quote sample_env;
     parse_list := parse_list sample_env;
     is_exclusive_match := is_exclusive_match sample_env;
     MATCH_ALL_TAG := MATCH_ALL_TAG sample_env;
     MATCH_ALWAYS_TAG := MATCH_ALWAYS_TAG sample_env;
     CONFIG_FORMATS := CONFIG_FORMATS sample_env;
     default_asset := default_asset sample_env;
     C_MGR := <["reject" := Plugins.ConfigRejecting]> (C_MGR sample_env) |}.

(** An environment with nothing registered, and one whose [raw] scheme
    parses to results without [schema] and whose in-memory plugin rejects
    its arguments. *)
Definition bare_env : Env string :=
  {| GET_SCHEMA_RE := GET_SCHEMA_RE sample_env;
     URLBase_quote := URLBase_quote sample_env;
     parse_list := parse_list sample_env;
     is_exclusive_match := is_exclusive_match sample_env;
     MATCH_ALL_TAG := MATCH_ALL_TAG sample_env;
     MATCH_ALWAYS_TAG := MATCH_ALWAYS_TAG sample_env;
     CONFIG_FORMATS := CONFIG_FORMATS sample_env;
     default_asset := default_asset sample_env;
     C_MGR := ∅ |}.

Definition keyless_env : Env string :=
  {| GET_SCHEMA_RE := GET_SCHEMA_RE sample_env;
     URLBase_quote := URLBase_quote sample_env;
     parse_list := parse_list sample_env;
     is_exclusive_match := is_exclusive_match sample_env;
     MATCH_ALL_TAG := MATCH_ALL_TAG sample_env;
     MATCH_ALWAYS_TAG := MATCH_ALWAYS_TAG sample_env;
     CONFIG_FORMATS := CONFIG_FORMATS sample_env;
     default_asset := default_asset sample_env;
     C_MGR := <["raw" := Plugins.ConfigKeyless]>
              (<["memory" := Plugins.ConfigRejecting]> ∅) |}.

(** An aggregator with two sources that expand to three and to two
    notifiers. *)
Definition sample_config : AppriseConfig.t string :=
  AppriseConfig.Make
    [ConfigBase.Make ∅ (Some "text") ["a"; "b"; "c"];
     ConfigBase.Make ∅ (Some "text") ["d"; "e"]]
    {| app_id := "Apprise" |} (CacheBool true) 0 false.

(** A plugin environment: no extra URL parameters, every request answered
    by status 200 except those to a host named [down]. *)
Definition sample_penv : PluginEnv :=
  {| url_parameters := fun _ _ => [];
     pprint_masked := fun _ _ => "****";
     parse_channels := fun l => l;
     URLBase_parse_list := fun s =>
       filter (fun w => Utils.nonempty w = true) (Utils.split "," s);
     parse_bool := fun s => negb (bool_decide (Py.lower s = "no"));
     self_app_id := "Apprise";
     image_url := fun _ => None;
     requests_post := fun _ req =>
       match Utils.get_schema (req_url req) with
       | Some (_, String "d" (String "o" (String "w" (String "n" _)))) =>
         Status 500 ""
       | _ => Status 200 ""
       end |}.

(** A Mattermost notifier with two channels, on a host that answers every
    post with an error; a Pushjet notifier with credentials and a port of
    its own. *)
Definition two_channels : NotifyMattermost.t :=
  {| NotifyMattermost.base :=
       {| NotifyBase.secure := false; NotifyBase.user := None;
          NotifyBase.password := None; NotifyBase.host := "down";
          NotifyBase.port := Some 8065 |};
     NotifyMattermost.schema := "http";
     NotifyMattermost.fullpath := "";
     NotifyMattermost.token := "TOKEN";
     NotifyMattermost.channels := ["general"; "alerts"];
     NotifyMattermost.include_image := false |}.

(** An aggregator whose first source expands to nothing; a Pushjet
    notifier with a user and no password; a Mattermost notifier whose
    second channel was a lone [#]; an HTTP service that answers every
    request with status 200. *)
Definition empty_first_config : AppriseConfig.t string :=
  AppriseConfig.Make
    [ConfigBase.Make ∅ (Some "text") [];
     ConfigBase.Make ∅ (Some "text") ["a"; "b"];
     ConfigBase.Make ∅ (Some "text") ["c"]]
    {| app_id := "Apprise" |} (CacheBool true) 0 false.

Definition pushjet_user_only : NotifyPushjet.t :=
  {| NotifyPushjet.base :=
       {| NotifyBase.secure := false; NotifyBase.user := Some "joe";
          NotifyBase.password := None; NotifyBase.host := "push.example.org";
          NotifyBase.port := None |};
     NotifyPushjet.secret_key := "SECRET" |}.

Definition lone_hash_channel : NotifyMattermost.t :=
  {| NotifyMattermost.base :=
       {| NotifyBase.secure := false; NotifyBase.user := None;
          NotifyBase.password := None; NotifyBase.host := "chat.example.org";
          NotifyBase.port := None |};
     NotifyMattermost.schema := "http";
     NotifyMattermost.fullpath := "";
     NotifyMattermost.token := "TOKEN";
     NotifyMattermost.channels := ["general"; ""];
     NotifyMattermost.include_image := false |}.

(** Stores of source objects: two sources of three and two notifiers,
    and the refetch of a source that always loads [a] and [b]. *)
Definition two_sources : Shared.Store (N := string) :=
  fun r =>
    if Pos.eqb r 1 then ConfigBase.Make ∅ (Some "text") ["a"; "b"; "c"]
    else ConfigBase.Make ∅ (Some "text") ["d"; "e"].

Definition one_source : Shared.Store (N := string) :=
  fun _ => ConfigBase.Make ∅ (Some "text") ["a"; "b"].

Definition cached (_ : ConfigBase.t string) : option (list string) := None.

Definition refetching (_ : ConfigBase.t string) : option (list string) :=
  Some ["a"; "b"].

Definition always_ok (_ : list NotifyPushjet.SendRequest)
    (_ : NotifyPushjet.SendRequest) : Response := Status 200 "".


(** ** Vocabulary of the properties *)

Module Spec.

(** The number of notifiers the sources expose, all sources together. *)
Definition flat_len {N} (cs : list (ConfigBase.t N)) : Z :=
  Py.len (concat (map ConfigBase.servers cs)).

(** A source once its [i]-th notifier is removed. *)
Definition without {N} (i : nat) (e : ConfigBase.t N) : ConfigBase.t N :=
  ConfigBase.Make (ConfigBase.tags e) (ConfigBase.config_format e)
    (delete i (ConfigBase.loaded e)).

(** The spec's wording of [servers]: the sources whose tag set satisfies
    the tag expression, in insertion order, their notifier lists
    concatenated. *)
Definition servers_spec {N} (env : Env N) (cs : list (ConfigBase.t N))
    (tag : TagLogic) (match_always : bool) : list N :=
  concat (map ConfigBase.servers
    (filter (fun e => is_exclusive_match env tag (ConfigBase.tags e)
                        (MATCH_ALL_TAG env)
                        (if match_always then Some (MATCH_ALWAYS_TAG env) else None)
                      = true) cs)).

(** The value [instantiate] hands to the constructor under [key], when
    it gets as far as calling the constructor. *)
Definition kwarg {N} (env : Env N) (url : string) (asset : option AppriseAsset)
    (tag : TagArg) (cache : option Cache) (recursion : Z)
    (insecure_includes : bool) (key : string) : option Val :=
  match (AppriseConfig.instantiate_kwargs env url asset tag cache recursion
           insecure_includes []).1 with
  | Py.Return (Some (_, kwargs)) => kwargs !! key
  | _ => None
  end.

(** What an element of the list given to [add] contributes to
    [self.configs]: an instance itself, the instance a string instantiates
    to, nothing otherwise. *)
Definition accepted {N} (env : Env N) (asset : AppriseAsset) (tag : TagArg)
    (cache : Cache) (recursion : Z) (insecure_includes : bool)
    (elem : AppriseConfig.ConfigElem N) : option (ConfigBase.t N) :=
  match elem with
  | AppriseConfig.ElemInstance c => Some c
  | AppriseConfig.ElemStr s =>
    match (AppriseConfig.instantiate env s (Some asset) tag (Some cache)
             recursion insecure_includes true []).1 with
    | Py.Return (Some c) => Some c
    | _ => None
    end
  | AppriseConfig.ElemOther _ => None
  end.


(** A plain host name: letters, digits, [-], [.] and [_]. *)
Definition host_char (c : ascii) : bool :=
  Utils.is_alnum c || Utils.mem c "-._".

Definition hostname (h : string) : bool :=
  Utils.nonempty h && Utils.all_chars host_char h.


(** A value [validate_regex] returns unchanged, as the constructors leave
    a secret key or a token. *)
Definition validated (s : string) : bool :=
  match Utils.validate_regex (Some s) with
  | Some s' => String.eqb s' s
  | None => false
  end.



(** The two identifiers of a round trip: that of the notifier a URL
    instantiates to, and that of the notifier obtained by instantiating
    what its [url] returns. *)
Definition round_trip (penv : PluginEnv) (url : string) :=
  match Apprise.instantiate penv url with
  | Py.Return (Some n) =>
    match Apprise.instantiate penv (Apprise.url penv n false) with
    | Py.Return (Some n') =>
      Some (Apprise.url_identifier n, Apprise.url_identifier n')
    | _ => None
    end
  | _ => None
  end.







(** A post that succeeded: an answer with status 200. *)
Definition succeeded (r : Response) : bool :=
  match r with
  | Status code _ => code =? 200
  | RequestException _ => false
  end.

(** The notifiers of all the sources, in the order of the sources. *)
Definition flat {N} (cs : list (ConfigBase.t N)) : list N :=
  concat (map ConfigBase.servers cs).

(** The last name that is not empty among [cs], [c0] when there is
    none. *)
Fixpoint carried (c0 : option string) (cs : list string) : option string :=
  match cs with
  | [] => c0
  | c :: cs' => carried (if Utils.nonempty c then Some c else c0) cs'
  end.

(** A port as the pattern of [parse_native_url] takes it: one to six
    digits, the first of them not [0]. *)
Definition port_digits (d : string) : bool :=
  match d with
  | EmptyString => false
  | String c0 _ =>
    Utils.all_chars Utils.is_digit d && negb (Ascii.eqb c0 "0")
    && (String.length d <=? 6)%nat
  end.

(** Two outcomes of a constructor of the aggregator that differ at most
    in the [cache] attribute of the object built. *)
Definition same_but_cache {N} (r1 r2 : Py.Outcome (AppriseConfig.t N) * Py.Log)
    : Prop :=
  r1.2 = r2.2
  /\ match r1.1, r2.1 with
     | Py.Return s1, Py.Return s2 =>
       AppriseConfig.configs s1 = AppriseConfig.configs s2
       /\ AppriseConfig.asset s1 = AppriseConfig.asset s2
       /\ AppriseConfig.recursion s1 = AppriseConfig.recursion s2
       /\ AppriseConfig.insecure_includes s1 = AppriseConfig.insecure_includes s2
     | Py.Raise e1, Py.Raise e2 => e1 = e2
     | _, _ => False
     end.

End Spec.

(* ===================================================================== *)
(** * Part II: the properties                                              *)
(* ===================================================================== *)

(** ** The aggregator: flattened removal *)

(** Decide the integer comparisons of the goal by [lia]. *)
Ltac zcmp :=
  repeat match goal with
  | |- context [?a <? ?b] => destruct (Z.ltb_spec a b); try lia
  | |- context [?a <=? ?b] => destruct (Z.leb_spec a b); try lia
  | |- context [?a >? ?b] => destruct (Z.gtb_spec a b); try lia
  | |- context [?a >=? ?b] => destruct (Z.geb_spec a b); try lia
  | |- context [?a =? ?b] => destruct (Z.eqb_spec a b); try lia
  end.

Section Aggregator.

Context {N : Type}.
Implicit Types (cs pre post : list (ConfigBase.t N)) (e : ConfigBase.t N).

Lemma flat_len_nil : Spec.flat_len (@nil (ConfigBase.t N)) = 0.
Proof. reflexivity. Qed.

Lemma flat_len_cons e cs :
  Spec.flat_len (e :: cs) = Py.len (ConfigBase.servers e) + Spec.flat_len cs.
Proof.
  unfold Spec.flat_len, Py.len. simpl. rewrite length_app. lia.
Qed.

Lemma flat_len_nonneg cs : 0 <= Spec.flat_len cs.
Proof. unfold Spec.flat_len, Py.len. lia. Qed.

Lemma list_pop_in_range (l : list N) (i : nat) (x : N) :
  l !! i = Some x ->
  Py.list_pop l (Z.of_nat i) = Py.Return (x, delete i l).
Proof.
  intros Hx. pose proof (lookup_lt_Some _ _ _ Hx) as Hlt.
  unfold Py.list_pop. destruct l as [|y l']; [discriminate|].
  unfold Py.len. cbv zeta. zcmp. simpl orb. cbv iota.
  rewrite Nat2Z.id, Hx. reflexivity.
Qed.

Lemma server_pop_loop_found pre e post (i : nat) (x : N) :
  forall prev_offset index,
  ConfigBase.servers e !! i = Some x ->
  -1 <= prev_offset ->
  index = prev_offset + 1 + Spec.flat_len pre + Z.of_nat i ->
  AppriseConfig.server_pop_loop (pre ++ e :: post) prev_offset index
  = Py.Return (x, pre ++ Spec.without i e :: post).
Proof.
  intros prev_offset index Hx. revert prev_offset index.
  pose proof (lookup_lt_Some _ _ _ Hx) as Hlt.
  induction pre as [|e0 pre IH]; intros prev_offset index Hp Hi.
  - rewrite flat_len_nil in Hi. simpl.
    assert ((if prev_offset =? -1 then index else index - prev_offset - 1)
            = Z.of_nat i) as -> by (zcmp; lia).
    unfold Py.len. zcmp.
    unfold ConfigBase.pop, ConfigBase.servers in *.
    rewrite (list_pop_in_range _ _ _ Hx). reflexivity.
  - rewrite flat_len_cons in Hi. simpl.
    pose proof (flat_len_nonneg pre) as Hpre.
    destruct (Z.gtb_spec (Py.len (ConfigBase.servers e0)) 0) as [Hpos|Hzero].
    + zcmp.
      rewrite (IH (prev_offset + Py.len (ConfigBase.servers e0)) index)
        by lia.
      reflexivity.
    + assert (Py.len (ConfigBase.servers e0) = 0) as Hz
        by (unfold Py.len in *; lia).
      rewrite (IH prev_offset index) by lia. reflexivity.
Qed.

Lemma server_pop_loop_out_of_range cs :
  forall prev_offset index,
  -1 <= prev_offset ->
  prev_offset + 1 + Spec.flat_len cs <= index ->
  AppriseConfig.server_pop_loop cs prev_offset index
  = Py.Raise (Py.IndexError "list index out of range").
Proof.
  induction cs as [|e cs IH]; intros prev_offset index Hp Hi; [reflexivity|].
  rewrite flat_len_cons in Hi. simpl.
  pose proof (flat_len_nonneg cs) as Hcs.
  destruct (Z.gtb_spec (Py.len (ConfigBase.servers e)) 0) as [Hpos|Hzero].
  - zcmp. rewrite IH by lia. reflexivity.
  - assert (Py.len (ConfigBase.servers e) = 0) as Hz
      by (unfold Py.len in *; lia).
    rewrite IH by lia. reflexivity.
Qed.

(** C2: flattened-index removal.  With [self.configs = pre ++ e :: post]
    and [x] the [i]-th notifier of [e], [server_pop] at the flattened index
    [n1 + ... + nk + i] (the sizes of the sources of [pre] summed, plus
    [i]) returns [x] and removes it from [e], leaving every other source
    as it was; at every index from the total number of notifiers on it
    raises [IndexError] and changes nothing. *)
Theorem server_pop_flattened (self : AppriseConfig.t N) (log : Py.Log) :
  (forall pre e post (i : nat) (x : N),
     AppriseConfig.configs self = pre ++ e :: post ->
     ConfigBase.servers e !! i = Some x ->
     AppriseConfig.server_pop (Spec.flat_len pre + Z.of_nat i) (self, log)
     = (Py.Return x,
        (AppriseConfig.set_configs self (pre ++ Spec.without i e :: post), log)))
  /\ (forall index,
        Spec.flat_len (AppriseConfig.configs self) <= index ->
        AppriseConfig.server_pop index (self, log)
        = (Py.Raise (Py.IndexError "list index out of range"), (self, log))).
Proof.
  split.
  - intros pre e post i x Hcs Hx. unfold AppriseConfig.server_pop. simpl.
    rewrite Hcs.
    rewrite (server_pop_loop_found pre e post i x (-1) _ Hx) by lia.
    reflexivity.
  - intros index Hi. unfold AppriseConfig.server_pop. simpl.
    rewrite server_pop_loop_out_of_range by lia. reflexivity.
Qed.

End Aggregator.

(** ** [instantiate] *)

Section Instantiate.

Context {N : Type}.
Variable env : Env N.
Implicit Types (url : string) (asset : option AppriseAsset) (tag : TagArg)
  (cache : option Cache) (recursion : Z) (insecure_includes : bool)
  (log : Py.Log).

(** The logger is only appended to. *)
Lemma instantiate_results_log schema url asset tag cache recursion
    insecure_includes log :
  AppriseConfig.instantiate_results env schema url asset tag cache recursion
    insecure_includes log
  = let r := AppriseConfig.instantiate_results env schema url asset tag cache
               recursion insecure_includes [] in
    (r.1, log ++ r.2).
Proof.
  unfold AppriseConfig.instantiate_results, Py.bind, Py.lift, Py.ret, Py.log_to.
  destruct (AppriseConfig.C_MGR_getitem env schema) as [plugin|e]; simpl.
  - destruct (AppriseConfig.not_results _); simpl; [reflexivity|].
    by rewrite app_nil_r.
  - by rewrite app_nil_r.
Qed.

Lemma instantiate_kwargs_log url asset tag cache recursion insecure_includes log :
  AppriseConfig.instantiate_kwargs env url asset tag cache recursion
    insecure_includes log
  = let r := AppriseConfig.instantiate_kwargs env url asset tag cache
               recursion insecure_includes [] in
    (r.1, log ++ r.2).
Proof.
  unfold AppriseConfig.instantiate_kwargs.
  destruct (GET_SCHEMA_RE env url) as [schema|].
  - destruct (negb _).
    + reflexivity.
    + apply instantiate_results_log.
  - apply instantiate_results_log.
Qed.

Lemma instantiate_log url asset tag cache recursion insecure_includes
    suppress log :
  AppriseConfig.instantiate env url asset tag cache recursion
    insecure_includes suppress log
  = let r := AppriseConfig.instantiate env url asset tag cache recursion
               insecure_includes suppress [] in
    (r.1, log ++ r.2).
Proof.
  unfold AppriseConfig.instantiate, Py.bind.
  rewrite instantiate_kwargs_log. cbv zeta.
  destruct (AppriseConfig.instantiate_kwargs env url asset tag cache recursion
              insecure_includes []) as [[[[url' results]|]|e] log'];
    simpl; try reflexivity.
  unfold Py.try_except, Py.bind, Py.lift, Py.ret, Py.log_to.
  destruct suppress; destruct (AppriseConfig.construct env results);
    simpl; try reflexivity.
  by rewrite app_assoc.
Qed.

(** With the [file] scheme registered, nothing escapes [instantiate] when
    exceptions are suppressed. *)
Lemma instantiate_results_returns schema url asset tag cache recursion
    insecure_includes log :
  is_Some (C_MGR env !! schema) ->
  exists r, (AppriseConfig.instantiate_results env schema url asset tag cache
               recursion insecure_includes log).1 = Py.Return r.
Proof.
  intros [plugin Hp].
  unfold AppriseConfig.instantiate_results, Py.bind, Py.lift, Py.ret, Py.log_to,
    AppriseConfig.C_MGR_getitem.
  rewrite Hp. destruct (AppriseConfig.not_results _); simpl; eauto.
Qed.

Lemma instantiate_kwargs_returns url asset tag cache recursion
    insecure_includes log :
  is_Some (C_MGR env !! "file") ->
  exists r, (AppriseConfig.instantiate_kwargs env url asset tag cache
               recursion insecure_includes log).1 = Py.Return r.
Proof.
  intros Hfile. unfold AppriseConfig.instantiate_kwargs.
  destruct (GET_SCHEMA_RE env url) as [schema|].
  - destruct (bool_decide_reflect (Py.lower schema ∈ dom (C_MGR env)))
      as [Hin|Hout]; simpl.
    + apply instantiate_results_returns. by apply elem_of_dom.
    + eauto.
  - by apply instantiate_results_returns.
Qed.

Lemma instantiate_suppressed_returns url asset tag cache recursion
    insecure_includes log :
  is_Some (C_MGR env !! "file") ->
  exists r, (AppriseConfig.instantiate env url asset tag cache recursion
               insecure_includes true log).1 = Py.Return r.
Proof.
  intros Hfile.
  destruct (instantiate_kwargs_returns url asset tag cache recursion
              insecure_includes log Hfile) as [r Hr].
  unfold AppriseConfig.instantiate, Py.bind.
  destruct (AppriseConfig.instantiate_kwargs env url asset tag cache recursion
              insecure_includes log) as [o log'].
  simpl in Hr. subst o. destruct r as [[url' results]|]; simpl; eauto.
  unfold Py.try_except, Py.bind, Py.lift, Py.ret, Py.log_to.
  destruct (AppriseConfig.construct env results); simpl; eauto.
Qed.

(** C4: for a URL whose scheme, in lower case, is not in the
    configuration manager's registry, [instantiate] logs one warning and
    returns [None], whether exceptions are suppressed or not: nothing is
    raised. *)
Theorem instantiate_unregistered_schema url asset tag cache recursion
    insecure_includes suppress log schema :
  GET_SCHEMA_RE env url = Some schema ->
  Py.lower schema ∉ dom (C_MGR env) ->
  AppriseConfig.instantiate env url asset tag cache recursion
    insecure_includes suppress log
  = (Py.Return None,
     log ++ [(Py.WARNING, "Unsupported schema " +:+ Py.lower schema +:+ ".")]).
Proof.
  intros Hs Hout.
  unfold AppriseConfig.instantiate, AppriseConfig.instantiate_kwargs, Py.bind.
  rewrite Hs. rewrite bool_decide_eq_false_2 by exact Hout. reflexivity.
Qed.

(** C7: when [instantiate] gets as far as the constructor and the
    constructor of the registered plugin raises [e], the call with
    [suppress_exceptions=True] logs a warning and returns [None], and the
    call with [suppress_exceptions=False] raises that same [e]. *)
Theorem instantiate_constructor_exception url asset tag cache recursion
    insecure_includes log url' results log' schema plugin e :
  AppriseConfig.instantiate_kwargs env url asset tag cache recursion
    insecure_includes log = (Py.Return (Some (url', results)), log') ->
  results !! "schema" = Some (VStr schema) ->
  C_MGR env !! schema = Some plugin ->
  plugin_new plugin results = Py.Raise e ->
  AppriseConfig.instantiate env url asset tag cache recursion
    insecure_includes true log
  = (Py.Return None, log' ++ [(Py.WARNING, "Could not load URL: " +:+ url')])
  /\ AppriseConfig.instantiate env url asset tag cache recursion
       insecure_includes false log
     = (Py.Raise e, log').
Proof.
  intros Hkw Hschema Hplugin Hnew.
  assert (AppriseConfig.construct env results = Py.Raise e) as Hc.
  { unfold AppriseConfig.construct, AppriseConfig.C_MGR_getitem.
    by rewrite Hschema, Hplugin. }
  unfold AppriseConfig.instantiate, Py.bind. rewrite Hkw.
  unfold Py.try_except, Py.bind, Py.lift, Py.ret, Py.log_to.
  rewrite Hc. split; reflexivity.
Qed.

(** C3, amended: in the keyword arguments [instantiate] hands to the
    constructor, [recursion] and [insecure_includes] are always the
    override arguments, and [cache] is the override argument whenever
    that is not [None]; with [cache=None] the [cache] entry is whatever
    the plugin's [parse_url] returned for the URL. *)
Theorem instantiate_overrides url asset tag cache recursion insecure_includes
    log url' kwargs log' :
  AppriseConfig.instantiate_kwargs env url asset tag cache recursion
    insecure_includes log = (Py.Return (Some (url', kwargs)), log') ->
  kwargs !! "recursion" = Some (VInt recursion)
  /\ kwargs !! "insecure_includes" = Some (VBool insecure_includes)
  /\ match cache with
     | Some c => kwargs !! "cache" = Some (cache_val c)
     | None =>
       exists schema plugin results,
         C_MGR env !! schema = Some plugin
         /\ plugin_parse_url plugin url' = Some results
         /\ kwargs !! "cache" = results !! "cache"
     end.
Proof.
  assert (forall schema u,
    AppriseConfig.instantiate_results env schema u asset tag cache recursion
      insecure_includes log = (Py.Return (Some (url', kwargs)), log') ->
    kwargs !! "recursion" = Some (VInt recursion)
    /\ kwargs !! "insecure_includes" = Some (VBool insecure_includes)
    /\ match cache with
       | Some c => kwargs !! "cache" = Some (cache_val c)
       | None =>
         exists schema plugin results,
           C_MGR env !! schema = Some plugin
           /\ plugin_parse_url plugin url' = Some results
           /\ kwargs !! "cache" = results !! "cache"
       end) as Hres.
  { intros schema u.
    unfold AppriseConfig.instantiate_results, Py.bind, Py.lift, Py.ret,
      Py.log_to, AppriseConfig.C_MGR_getitem.
    destruct (C_MGR env !! schema) as [plugin|] eqn:Hp; [|discriminate].
    destruct (plugin_parse_url plugin u) as [results|] eqn:Hr;
      [|discriminate].
    simpl. destruct (bool_decide _); simpl; [discriminate|].
    intros [= -> <- <-]. repeat split.
    - by simplify_map_eq.
    - by simplify_map_eq.
    - destruct cache as [c|].
      + by simplify_map_eq.
      + exists schema, plugin, results. by simplify_map_eq. }
  unfold AppriseConfig.instantiate_kwargs.
  destruct (GET_SCHEMA_RE env url) as [schema|].
  - destruct (negb _); [discriminate|]. apply Hres.
  - apply Hres.
Qed.

End Instantiate.

(** ** [add], [add_config], [servers] *)

Section Add.

Context {N : Type}.
Variable env : Env N.
Implicit Types (self : AppriseConfig.t N) (log : Py.Log)
  (c : ConfigBase.t N).

Lemma set_configs_configs self (cs : list (ConfigBase.t N)) :
  AppriseConfig.configs (AppriseConfig.set_configs self cs) = cs.
Proof. reflexivity. Qed.

Lemma set_configs_twice self (cs cs' : list (ConfigBase.t N)) :
  AppriseConfig.set_configs (AppriseConfig.set_configs self cs) cs'
  = AppriseConfig.set_configs self cs'.
Proof. reflexivity. Qed.

Lemma set_configs_same self :
  AppriseConfig.set_configs self (AppriseConfig.configs self) = self.
Proof. by destruct self. Qed.

Lemma add_loop_spec (l : list (AppriseConfig.ConfigElem N)) asset tag cache
    recursion insecure_includes :
  is_Some (C_MGR env !! "file") ->
  forall return_status self log,
  exists msgs,
    AppriseConfig.add_loop env l asset tag cache recursion insecure_includes
      return_status (self, log)
    = (Py.Return
         (return_status
          && forallb (fun elem =>
               bool_decide (is_Some (Spec.accepted env asset tag cache
                                       recursion insecure_includes elem))) l),
       (AppriseConfig.set_configs self
          (AppriseConfig.configs self
           ++ omap (Spec.accepted env asset tag cache recursion
                      insecure_includes) l),
        log ++ msgs)).
Proof.
  intros Hfile. induction l as [|elem l IH]; intros return_status self log.
  - exists []. simpl. unfold Py.ret.
    by rewrite !app_nil_r, andb_true_r, set_configs_same.
  - destruct elem as [c|s|ty]; simpl.
    + unfold Py.bind, AppriseConfig.append. simpl.
      edestruct (IH return_status) as [msgs Hmsgs]. rewrite Hmsgs.
      exists msgs.
      rewrite set_configs_configs, set_configs_twice.
      by rewrite <- app_assoc.
    + unfold Py.bind, AppriseConfig.logger, AppriseConfig.static. simpl.
      rewrite instantiate_log. cbv zeta.
      destruct (instantiate_suppressed_returns env s (Some asset) tag
                  (Some cache) recursion insecure_includes [] Hfile)
        as [r Hr].
      destruct (AppriseConfig.instantiate env s (Some asset) tag (Some cache)
                  recursion insecure_includes true []) as [o msgs0].
      simpl in Hr. subst o. simpl.
      destruct r as [c|].
      * unfold AppriseConfig.append. simpl.
        edestruct (IH return_status) as [msgs Hmsgs]. rewrite Hmsgs.
        eexists (_ :: msgs0 ++ msgs).
        rewrite set_configs_configs, set_configs_twice.
        rewrite <- !app_assoc. reflexivity.
      * edestruct (IH false) as [msgs Hmsgs]. rewrite Hmsgs.
        eexists (_ :: msgs0 ++ msgs).
        rewrite andb_false_r. simpl.
        rewrite <- !app_assoc. reflexivity.
    + unfold Py.bind, AppriseConfig.logger. simpl.
      edestruct (IH false) as [msgs Hmsgs]. rewrite Hmsgs.
      eexists (_ :: msgs).
      rewrite andb_false_r. simpl.
      rewrite <- app_assoc. reflexivity.
Qed.

(** C5: partial success of [add].  Given a list, [add] appends to
    [self.configs], in order, every element that is an instance or a
    string that instantiates, whatever the other elements are; it returns
    true exactly when every element contributed.  (The [file] scheme, to
    which a string without scheme falls back, is registered.) *)
Theorem add_partial_success (l : list (AppriseConfig.ConfigElem N))
    (asset : option AppriseAsset) (tag : TagArg) (cache : option Cache)
    (recursion : option Z) (insecure_includes : option bool) self log :
  is_Some (C_MGR env !! "file") ->
  let contributes :=
    Spec.accepted env
      (default (AppriseConfig.asset self) asset) tag
      (default (AppriseConfig.cache self) cache)
      (default (AppriseConfig.recursion self) recursion)
      (default (AppriseConfig.insecure_includes self) insecure_includes) in
  exists msgs,
    AppriseConfig.add env (AppriseConfig.ArgSeq l) asset tag cache recursion
      insecure_includes (self, log)
    = (Py.Return (forallb (fun elem => bool_decide (is_Some (contributes elem))) l),
       (AppriseConfig.set_configs self
          (AppriseConfig.configs self ++ omap contributes l),
        log ++ msgs)).
Proof.
  intros Hfile contributes. unfold AppriseConfig.add. simpl.
  apply (add_loop_spec l _ tag _ _ _ Hfile true self log).
Qed.

Lemma memory_kwargs_content content format asset tag recursion
    insecure_includes :
  AppriseConfig.memory_kwargs content format asset tag recursion
    insecure_includes !! "content" = Some (VStr content).
Proof. unfold AppriseConfig.memory_kwargs. by simplify_map_eq. Qed.

Lemma memory_kwargs_format content format asset tag recursion
    insecure_includes :
  AppriseConfig.memory_kwargs content format asset tag recursion
    insecure_includes !! "format" = Some (from_option VStr VNone format).
Proof. unfold AppriseConfig.memory_kwargs. by simplify_map_eq. Qed.

(** C6: [add_config] with no format given and content whose format is
    not detected as a supported one returns false and leaves
    [self.configs] as it was; whenever it returns false the object is
    unchanged; when it returns true exactly one source, the in-memory
    one built from the content, with a supported format, was appended;
    and it does return true, appending that one source and logging the
    debug record only, whenever the format given (in lower case) or, with
    none given, the format detected is a supported one. *)
Theorem add_config_format_detection (detect : string -> option string)
    (load : string -> list N) (content : string) (asset : option AppriseAsset)
    (tag : TagArg) (format : option string) (recursion : option Z)
    (insecure_includes : option bool) self log :
  C_MGR env !! "memory" = Some (Plugins.ConfigMemory detect load) ->
  let result :=
    AppriseConfig.add_config env (AppriseConfig.ContentStr content) asset tag
      format recursion insecure_includes (self, log) in
  (format = None ->
   (forall f, detect content = Some f -> f ∉ CONFIG_FORMATS env) ->
   result
   = (Py.Return false,
      (self,
       log ++ [(Py.DEBUG, "Loading raw configuration: " +:+ content);
               (Py.WARNING,
                "The format of the configuration could not be deteced.")])))
  /\ (forall s', result = (Py.Return false, s') -> s'.1 = self)
  /\ (forall s', result = (Py.Return true, s') ->
      exists instance f,
        s'.1 = AppriseConfig.set_configs self
                 (AppriseConfig.configs self ++ [instance])
        /\ ConfigBase.config_format instance = Some f
        /\ f ∈ CONFIG_FORMATS env
        /\ ConfigBase.servers instance = load content)
  /\ (forall f,
        match format with
        | Some given => Py.lower given = f
        | None => detect content = Some f
        end ->
        f ∈ CONFIG_FORMATS env ->
        exists instance,
          result
          = (Py.Return true,
             (AppriseConfig.set_configs self
                (AppriseConfig.configs self ++ [instance]),
              log ++ [(Py.DEBUG, "Loading raw configuration: " +:+ content)]))
          /\ ConfigBase.config_format instance = Some f
          /\ ConfigBase.servers instance = load content).
Proof.
  intros Hmem result. subst result.
  unfold AppriseConfig.add_config, Py.bind, Py.lift, Py.ret,
    AppriseConfig.logger, AppriseConfig.append, AppriseConfig.C_MGR_getitem.
  simpl. rewrite Hmem. simpl.
  rewrite memory_kwargs_content, memory_kwargs_format.
  unfold AppriseConfig.format_supported. simpl.
  repeat split.
  - intros -> Hdet. simpl.
    destruct (detect content) as [f|] eqn:Hf; simpl.
    + rewrite bool_decide_eq_false_2 by (by apply Hdet). simpl.
      by rewrite <- app_assoc.
    + by rewrite <- app_assoc.
  - intros s'.
    match goal with
    | |- context [negb ?b] => destruct b; simpl
    end; [discriminate|]. by intros [= <-].
  - intros s'.
    match goal with
    | |- context [match ?o with Some _ => _ | None => false end] =>
      destruct o as [f|] eqn:Hf; simpl
    end; [|discriminate].
    destruct (bool_decide_reflect (f ∈ CONFIG_FORMATS env)) as [Hin|Hout];
      simpl; [|discriminate].
    intros [= <-]. eexists _, f. simpl. repeat split; eauto.
  - intros f Hformat Hin.
    assert (match from_option VStr VNone format with
            | VStr g => Some (Py.lower g)
            | _ => detect content
            end = Some f) as ->.
    { destruct format as [given|]; simpl; [by rewrite Hformat|done]. }
    simpl. rewrite bool_decide_eq_true_2 by done. simpl.
    eexists. repeat split.
Qed.

(** [servers] *)
Lemma servers_loop_spec (cs : list (ConfigBase.t N)) tag match_always :
  forall response,
  AppriseConfig.servers_loop env cs tag match_always response
  = response ++
    concat (map ConfigBase.servers
      (filter (fun e => is_exclusive_match env tag (ConfigBase.tags e)
                          (MATCH_ALL_TAG env) match_always = true) cs)).
Proof.
  induction cs as [|e cs IH]; intros response; simpl.
  - by rewrite app_nil_r.
  - rewrite filter_cons.
    destruct (is_exclusive_match env tag (ConfigBase.tags e) (MATCH_ALL_TAG env)
                match_always) eqn:Hm.
    + rewrite decide_True by done. simpl. rewrite IH. by rewrite app_assoc.
    + rewrite decide_False by (by intros [=]). apply IH.
Qed.

(** C8: [servers(tag)] is the concatenation, in insertion order, of
    [entry.servers()] over exactly the sources whose tag set satisfies the
    tag expression; it is a function of the current [self.configs] alone,
    so that a source appended since the last call shows in the next
    one. *)
Theorem servers_recomputed self (tag : TagLogic) (match_always : bool) :
  AppriseConfig.servers env self tag match_always
  = Spec.servers_spec env (AppriseConfig.configs self) tag match_always
  /\ forall c,
       AppriseConfig.servers env
         (AppriseConfig.set_configs self (AppriseConfig.configs self ++ [c]))
         tag match_always
       = AppriseConfig.servers env self tag match_always
         ++ (if is_exclusive_match env tag (ConfigBase.tags c)
                  (MATCH_ALL_TAG env)
                  (if match_always then Some (MATCH_ALWAYS_TAG env) else None)
             then ConfigBase.servers c else []).
Proof.
  unfold AppriseConfig.servers, Spec.servers_spec. split.
  - by rewrite servers_loop_spec.
  - intros c. rewrite !servers_loop_spec. simpl.
    rewrite filter_app, map_app, concat_app, filter_cons, filter_nil.
    destruct (is_exclusive_match env tag (ConfigBase.tags c) _ _) eqn:Hm.
    + rewrite decide_True by done. simpl. by rewrite app_nil_r.
    + rewrite decide_False by (by intros [=]). reflexivity.
Qed.

End Add.

(** ** The plugins: secret key, posts per channel *)

Section Pushjet.

(** C9: in [NotifyPushjet.parse_url] a non-empty [secret] query
    parameter overrides the key taken from the first path segment; with no
    path segment and no (or an empty) [secret] parameter the secret key is
    [None], and the constructor then raises [TypeError]. *)
Theorem pushjet_secret_precedence (url : string) (results : Utils.ParsedURL) :
  NotifyBase.parse_url url = Some results ->
  exists r,
    NotifyPushjet.parse_url url = Some r
    /\ NotifyPushjet.results r = results
    /\ (forall v, Utils.qsd results !! "secret" = Some v -> v <> "" ->
        NotifyPushjet.results_secret_key r = Some (Utils.unquote v))
    /\ (Utils.split_path (Utils.fullpath results) = [] ->
        Utils.qsd results !! "secret" = None
        \/ Utils.qsd results !! "secret" = Some "" ->
        NotifyPushjet.results_secret_key r = None
        /\ NotifyPushjet.__init__ (NotifyPushjet.results_secret_key r) results
           = Py.Raise (Py.TypeError
               "An invalid Pushjet Secret Key (None) was specified.")).
Proof.
  intros Hbase. unfold NotifyPushjet.parse_url. rewrite Hbase.
  eexists. split; [reflexivity|]. split; [reflexivity|]. simpl. split.
  - intros v Hv Hne. rewrite Hv. destruct v; [done|]. reflexivity.
  - intros Hpath Hqsd. rewrite Hpath.
    assert (match Utils.qsd results !! "secret" with
            | Some v => if Utils.nonempty v then Some (Utils.unquote v) else None
            | None => None
            end = @None string) as ->.
    { destruct Hqsd as [->| ->]; reflexivity. }
    split; reflexivity.
Qed.

End Pushjet.

Section Mattermost.

Variable penv : PluginEnv.
Variable self : NotifyMattermost.t.

Lemma send_loop_spec (headers : list (string * string)) :
  forall (channels : list (option string)) (payload : Payload)
         (has_error : bool) (trace : list (Request * Response)),
  exists posts,
    NotifyMattermost.send_loop penv self channels headers payload has_error trace
    = (Py.Return (negb has_error && forallb (fun p => Spec.succeeded p.2) posts),
       trace ++ posts)
    /\ length posts = length channels
    /\ (forall (i : nat) c, channels !! i = Some (Some c) -> c <> "" ->
        exists req resp,
          posts !! i = Some (req, resp) /\ channel (req_data req) = Some c)
    /\ (forall c, channels = [c] -> Py.truthy c = false ->
        exists req resp,
          posts = [(req, resp)] /\ channel (req_data req) = channel payload)
    /\ Forall (fun p => req_url p.1 = NotifyMattermost.hook_url self) posts.
Proof.
  induction channels as [|ch channels IH]; intros payload has_error trace.
  - exists []. simpl. unfold Py.ret. rewrite app_nil_r, andb_true_r.
    repeat split; try done.
  - simpl. unfold Py.bind, NotifyMattermost.post. simpl.
    set (payload' := if Py.truthy ch
                     then NotifyMattermost.set_channel payload (default "" ch)
                     else payload).
    set (req := {| req_url := NotifyMattermost.hook_url self;
                   req_data := payload'; req_headers := headers |}).
    set (resp := requests_post penv (map fst trace) req).
    assert (exists posts,
      match resp with
      | Status status_code _ =>
        if negb (status_code =? 200)
        then NotifyMattermost.send_loop penv self channels headers payload' true
        else NotifyMattermost.send_loop penv self channels headers payload'
               has_error
      | RequestException _ =>
        NotifyMattermost.send_loop penv self channels headers payload' true
      end (trace ++ [(req, resp)])
      = (Py.Return (negb has_error && Spec.succeeded resp
                    && forallb (fun p => Spec.succeeded p.2) posts),
         (trace ++ [(req, resp)]) ++ posts)
      /\ length posts = length channels
      /\ (forall (i : nat) c, channels !! i = Some (Some c) -> c <> "" ->
          exists req resp,
            posts !! i = Some (req, resp) /\ channel (req_data req) = Some c)
      /\ Forall (fun p => req_url p.1 = NotifyMattermost.hook_url self) posts)
      as (posts & Hrun & Hlen & Hch & Hurl).
    { destruct resp as [code content|msg]; simpl.
      - destruct (code =? 200); simpl.
        + destruct (IH payload' has_error (trace ++ [(req, Status code content)]))
            as (posts & Hrun & Hlen & Hch & _ & Hurl).
          exists posts. rewrite Hrun, andb_true_r. done.
        + destruct (IH payload' true (trace ++ [(req, Status code content)]))
            as (posts & Hrun & Hlen & Hch & _ & Hurl).
          exists posts. rewrite Hrun, andb_false_r. done.
      - destruct (IH payload' true (trace ++ [(req, RequestException msg)]))
          as (posts & Hrun & Hlen & Hch & _ & Hurl).
        exists posts. rewrite Hrun, andb_false_r. done. }
    exists ((req, resp) :: posts). rewrite Hrun. simpl.
    rewrite <- app_assoc, andb_assoc. simpl.
    repeat split.
    + by rewrite Hlen.
    + intros [|i] c Hi Hc.
      * simpl in Hi. injection Hi as ->. exists req, resp. split; [done|].
        subst req payload'. simpl. destruct c; [done|]. reflexivity.
      * simpl in Hi. apply (Hch i c Hi Hc).
    + intros c [= -> ->] Hc. destruct posts; [|discriminate].
      exists req, resp. split; [done|]. subst req payload'. simpl.
      by rewrite Hc.
    + constructor; [reflexivity|exact Hurl].
Qed.

(** One pass of the loop of [send]: the channel is set in the payload
    when it is not empty, the request is made, and a failure raises the
    error flag. *)
Lemma send_loop_step (headers : list (string * string))
    (ch : option string) (channels : list (option string)) (payload : Payload)
    (has_error : bool) (trace : list (Request * Response)) :
  NotifyMattermost.send_loop penv self (ch :: channels) headers payload
    has_error trace
  = let payload' :=
      if Py.truthy ch
      then NotifyMattermost.set_channel payload (default "" ch) else payload in
    let req := {| req_url := NotifyMattermost.hook_url self;
                  req_data := payload'; req_headers := headers |} in
    let r := requests_post penv (map fst trace) req in
    NotifyMattermost.send_loop penv self channels headers payload'
      (has_error || negb (Spec.succeeded r)) (trace ++ [(req, r)]).
Proof.
  cbn [NotifyMattermost.send_loop]. unfold Py.bind, NotifyMattermost.post.
  cbv zeta.
  destruct (requests_post penv _ _) as [code content|msg]; simpl.
  - destruct (code =? 200); simpl; by rewrite ?orb_false_r, ?orb_true_r.
  - by rewrite orb_true_r.
Qed.

(** Every answer on record is the answer of [requests.post] to the request
    it stands with, made after the requests on record before it. *)
Lemma send_loop_answers (headers : list (string * string)) :
  forall (channels : list (option string)) (payload : Payload)
         (has_error : bool) (trace : list (Request * Response)),
  exists posts,
    (NotifyMattermost.send_loop penv self channels headers payload has_error
       trace).2 = trace ++ posts
    /\ forall (i : nat) req resp,
         posts !! i = Some (req, resp) ->
         resp = requests_post penv (map fst (trace ++ take i posts)) req.
Proof.
  induction channels as [|ch channels IH]; intros payload has_error trace.
  - exists []. simpl. rewrite app_nil_r. split; [done|].
    intros i req resp Hi. by rewrite lookup_nil in Hi.
  - rewrite send_loop_step. cbv zeta.
    match goal with
    | |- context [NotifyMattermost.send_loop penv self _ headers ?p ?e
                    (trace ++ [?q])] =>
      destruct (IH p e (trace ++ [q])) as (posts & Hrun & Hposts);
      exists (q :: posts)
    end.
    rewrite Hrun, <- app_assoc. split; [done|].
    intros [|i] req resp Hi.
    + simpl in Hi. injection Hi as <- <-. simpl. by rewrite app_nil_r.
    + simpl in Hi. rewrite (Hposts i req resp Hi). simpl.
      by rewrite <- app_assoc.
Qed.

(** C10: [NotifyMattermost.send] posts once per configured channel, once
    with no channel field when no channel is configured, each time to the
    hook URL; a failed post does not stop the ones after it; and the
    result is true exactly when every post made was answered with status
    200.  [posts] is what the call adds to the trace of requests and
    answers, and every answer in it is the one [requests.post] gave to the
    request beside it. *)
Theorem mattermost_send_per_channel (body title : string)
    (notify_type : NotifyType) (trace : list (Request * Response)) :
  exists posts,
    NotifyMattermost.send penv self body title notify_type trace
    = (Py.Return (forallb (fun p => Spec.succeeded p.2) posts), trace ++ posts)
    /\ length posts = Nat.max 1 (length (NotifyMattermost.channels self))
    /\ (NotifyMattermost.channels self = [] ->
        exists req resp,
          posts = [(req, resp)] /\ channel (req_data req) = None)
    /\ (forall (i : nat) c,
          NotifyMattermost.channels self !! i = Some c -> c <> "" ->
          exists req resp,
            posts !! i = Some (req, resp) /\ channel (req_data req) = Some c)
    /\ Forall (fun p => req_url p.1 = NotifyMattermost.hook_url self) posts
    /\ (forall (i : nat) req resp,
          posts !! i = Some (req, resp) ->
          resp = requests_post penv (map fst (trace ++ take i posts)) req).
Proof.
  unfold NotifyMattermost.send.
  match goal with
  | |- context [NotifyMattermost.send_loop penv self ?cs ?h ?p false trace] =>
    destruct (send_loop_spec h cs p false trace)
      as (posts & Hrun & Hlen & Hch & Hone & Hurl);
    destruct (send_loop_answers h cs p false trace)
      as (posts' & Hrun' & Hanswers)
  end.
  rewrite Hrun in Hrun'. simpl in Hrun'. apply app_inv_head in Hrun'.
  subst posts'.
  exists posts. rewrite Hrun. simpl. repeat split; [| | | |exact Hanswers].
  - rewrite Hlen. destruct (NotifyMattermost.channels self); simpl.
    + reflexivity.
    + rewrite length_map. lia.
  - intros Hnil. rewrite Hnil in Hone.
    destruct (Hone None eq_refl eq_refl) as (req & resp & -> & Hc).
    exists req, resp. done.
  - intros i c Hi Hc. apply Hch; [|done].
    destruct (NotifyMattermost.channels self) as [|c0 cs] eqn:Hcs; [done|].
    rewrite list_lookup_fmap. change (c0 :: cs) with (c0 :: cs) in Hi.
    by rewrite Hi.
  - exact Hurl.
Qed.

End Mattermost.

(** ** Texts: splitting, percent-encoding, ports *)

Section Strings.

Import Utils.

Implicit Types (s a b : string) (c d : ascii) (p q stop : ascii -> bool).

Lemma str_app_nil_l s : "" +:+ s = s.
Proof. reflexivity. Qed.

Lemma str_app_cons c a s : String c a +:+ s = String c (a +:+ s).
Proof. reflexivity. Qed.

Lemma str_app_nil_r s : s +:+ "" = s.
Proof.
  induction s as [|c s IH]; [done|]. by rewrite str_app_cons, IH.
Qed.


Lemma all_chars_app p a b :
  all_chars p (a +:+ b) = all_chars p a && all_chars p b.
Proof.
  induction a as [|c a IH]; [done|].
  rewrite str_app_cons. simpl. by rewrite IH, andb_assoc.
Qed.

Lemma all_chars_impl p q s :
  (forall c, p c = true -> q c = true) ->
  all_chars p s = true -> all_chars q s = true.
Proof.
  intros Hpq. induction s as [|c s IH]; simpl; [done|].
  intros [Hc Hs]%andb_true_iff. rewrite (Hpq c Hc). by apply IH.
Qed.

(** A class of characters that contains none of [ds] stays clear of the
    stop test [one_of ds]. *)
Lemma class_avoids p ds s :
  all_chars p s = true ->
  all_chars (fun d => negb (p d)) ds = true ->
  all_chars (fun c => negb (one_of ds c)) s = true.
Proof.
  intros Hs Hds. revert Hs. apply all_chars_impl. intros c Hc. unfold one_of.
  induction ds as [|d ds IH]; simpl in *; [done|].
  apply andb_true_iff in Hds as [Hd Hds].
  destruct (Ascii.eqb_spec c d) as [->|_]; simpl.
  - by rewrite Hc in Hd.
  - by apply IH.
Qed.

Lemma until_skip stop a s :
  all_chars (fun c => negb (stop c)) a = true ->
  until stop (a +:+ s) = (a +:+ (until stop s).1, (until stop s).2).
Proof.
  induction a as [|c a IH].
  - intros _. rewrite !str_app_nil_l. by destruct (until stop s).
  - rewrite !str_app_cons. simpl.
    intros [Hc Ha]%andb_true_iff. apply negb_true_iff in Hc. rewrite Hc.
    by rewrite (IH Ha).
Qed.

Lemma until_all stop a :
  all_chars (fun c => negb (stop c)) a = true -> until stop a = (a, "").
Proof.
  intros Ha. rewrite <- (str_app_nil_r a) at 1.
  rewrite (until_skip _ _ _ Ha). simpl. by rewrite str_app_nil_r.
Qed.

Lemma until_stop stop c s : stop c = true -> until stop (String c s) = ("", String c s).
Proof. intros H. simpl. by rewrite H. Qed.

(** [split] *)
Lemma split_nonnil d s : split d s <> [].
Proof.
  destruct s as [|c s]; simpl; [done|].
  destruct (Ascii.eqb c d); [done|]. by destruct (split d s).
Qed.





Lemma split_segments_clear d s :
  Forall (fun w => all_chars (fun c => negb (one_of (String d "") c)) w = true)
    (split d s).
Proof.
  induction s as [|c s IH]; cbn [split]; [by repeat constructor|].
  destruct (Ascii.eqb c d) eqn:Hc.
  - by constructor.
  - pose proof (split_nonnil d s).
    destruct (split d s) as [|w ws]; [done|].
    inversion IH as [|? ? Hw Hws]; subst. constructor; [|done].
    cbn [all_chars]. rewrite Hw, andb_true_r.
    unfold one_of. cbn [mem]. by rewrite Hc.
Qed.

(** Percent-encoding *)
Lemma nat_of_ascii_bound c : (nat_of_ascii c < 256)%nat.
Proof.
  destruct c as [[] [] [] [] [] [] [] []]; vm_compute; lia.
Qed.



Lemma hex_hi c : (nat_of_ascii c / 16 < 16)%nat.
Proof.
  pose proof (nat_of_ascii_bound c).
  apply Nat.Div0.div_lt_upper_bound. lia.
Qed.

Lemma hex_lo c : (nat_of_ascii c mod 16 < 16)%nat.
Proof. apply Nat.mod_upper_bound. lia. Qed.

Lemma quote_plain safe c s :
  unreserved c || mem c safe = true ->
  quote safe (String c s) = String c (quote safe s).
Proof. intros H. simpl. by rewrite H. Qed.

Lemma quote_encoded safe c s :
  unreserved c || mem c safe = false ->
  quote safe (String c s)
  = String "%" (String (hex_digit (nat_of_ascii c / 16))
      (String (hex_digit (nat_of_ascii c mod 16)) (quote safe s))).
Proof. intros H. cbn [quote]. by rewrite H. Qed.

Lemma unquote_plain c s :
  Ascii.eqb c "%" = false -> unquote (String c s) = String c (unquote s).
Proof. intros H. cbn [unquote]. by rewrite H. Qed.






Lemma quote_app safe a b : quote safe (a +:+ b) = quote safe a +:+ quote safe b.
Proof.
  induction a as [|c a IH]; [done|].
  change (String c a +:+ b) with (String c (a +:+ b)).
  destruct (unreserved c || mem c safe) eqn:Hc.
  - rewrite !quote_plain by done. by rewrite str_app_cons, IH.
  - rewrite !quote_encoded by done. by rewrite !str_app_cons, IH.
Qed.

(** Splitting at slashes commutes with encoding that keeps slashes. *)
Lemma split_cons_ne c d s w ws :
  Ascii.eqb c d = false -> split d s = w :: ws ->
  split d (String c s) = String c w :: ws.
Proof. intros Hc Hs. cbn [split]. by rewrite Hc, Hs. Qed.

Lemma hex_digit_not_slash (k : nat) :
  (k < 16)%nat -> Ascii.eqb (hex_digit k) "/" = false.
Proof.
  intros Hk. do 16 (destruct k as [|k]; [reflexivity|]). lia.
Qed.

Lemma quote_slash_split s :
  split "/" (quote "/" s) = map (quote "/") (split "/" s).
Proof.
  induction s as [|c s IH]; [done|].
  pose proof (split_nonnil "/" s) as Hnn.
  destruct (split "/" s) as [|w ws] eqn:Hs; [done|]. simpl in IH.
  destruct (Ascii.eqb_spec c "/") as [->|Hne].
  - rewrite quote_plain by done. cbn [split]. rewrite Ascii.eqb_refl.
    by rewrite IH, Hs.
  - assert (Ascii.eqb c "/" = false) as Hc by by apply Ascii.eqb_neq.
    rewrite (split_cons_ne _ _ _ _ _ Hc Hs). cbn [map].
    destruct (unreserved c || mem c "/") eqn:Hq.
    + rewrite !quote_plain by done. by apply split_cons_ne.
    + rewrite !quote_encoded by done.
      apply split_cons_ne; [done|].
      apply split_cons_ne; [apply hex_digit_not_slash, hex_hi|].
      apply split_cons_ne; [apply hex_digit_not_slash, hex_lo|]. done.
Qed.






End Strings.

(** ** The URL grammar on written URLs *)

Section Grammar.

Import Utils.




Lemma unquote_clear s :
  all_chars (fun c => negb (Ascii.eqb c "%")) s = true -> unquote s = s.
Proof.
  induction s as [|c s IH]; [done|]. cbn [all_chars].
  intros [Hc Hs]%andb_true_iff. apply negb_true_iff in Hc.
  by rewrite unquote_plain, IH.
Qed.

Lemma unquote_hostname h : Spec.hostname h = true -> unquote h = h.
Proof.
  intros [_ Hh]%andb_true_iff. apply unquote_clear.
  revert Hh. apply all_chars_impl. intros c Hc.
  destruct (Ascii.eqb_spec c "%") as [->|]; [discriminate|done].
Qed.






Lemma until_pass stop c s :
  stop c = false ->
  until stop (String c s) = (String c (until stop s).1, (until stop s).2).
Proof. intros H. cbn [until]. rewrite H. by destruct (until stop s). Qed.



Lemma hostname_clear ds h :
  Spec.hostname h = true ->
  all_chars (fun d => negb (Spec.host_char d)) ds = true ->
  all_chars (fun c => negb (one_of ds c)) h = true.
Proof.
  intros [_ Hh]%andb_true_iff Hds. by eapply class_avoids.
Qed.


End Grammar.

(** ** The round trip of [url] *)


Section RoundTrip.

Import Utils.

Variable penv : PluginEnv.








Lemma get_schema_pjet rest :
  get_schema ("pjet" +:+ "://" +:+ rest) = Some ("pjet", rest).
Proof. reflexivity. Qed.

Lemma get_schema_pjets rest :
  get_schema ("pjets" +:+ "://" +:+ rest) = Some ("pjets", rest).
Proof. reflexivity. Qed.

Lemma get_schema_mmost rest :
  get_schema ("mmost" +:+ "://" +:+ rest) = Some ("mmost", rest).
Proof. reflexivity. Qed.

Lemma get_schema_mmosts rest :
  get_schema ("mmosts" +:+ "://" +:+ rest) = Some ("mmosts", rest).
Proof. reflexivity. Qed.









End RoundTrip.

(** ** What the constructors build *)

Section Constructed.

Import Utils.

Lemma rstrip_idem s : rstrip (rstrip s) = rstrip s.
Proof.
  induction s as [|c s IH]; [done|]. cbn [rstrip].
  destruct (is_space c && negb (nonempty (rstrip s))) eqn:Hc; [done|].
  cbn [rstrip]. by rewrite IH, Hc.
Qed.

Lemma lstrip_idem s : lstrip (lstrip s) = lstrip s.
Proof.
  induction s as [|c s IH]; [done|]. cbn [lstrip].
  destruct (is_space c) eqn:Hc; [done|]. cbn [lstrip]. by rewrite Hc.
Qed.

Lemma lstrip_rstrip s : lstrip (rstrip s) = rstrip (lstrip s).
Proof.
  induction s as [|c s IH]; [done|]. cbn [lstrip rstrip].
  destruct (is_space c) eqn:Hc; cbn [andb].
  - destruct (nonempty (rstrip s)) eqn:Hr; cbn [negb].
    + cbn [lstrip]. by rewrite Hc.
    + rewrite <- IH. by destruct (rstrip s).
  - cbn [lstrip rstrip]. by rewrite Hc.
Qed.

Lemma strip_idem s : strip (strip s) = strip s.
Proof.
  unfold strip. by rewrite lstrip_rstrip, rstrip_idem, lstrip_idem.
Qed.

Lemma strip_head c s :
  is_space c = false -> strip (String c s) = String c (rstrip s).
Proof. intros Hc. unfold strip. cbn [lstrip]. rewrite Hc. cbn [rstrip]. by rewrite Hc. Qed.

Lemma validate_regex_idem (v : option string) (s : string) :
  validate_regex v = Some s -> Spec.validated s = true.
Proof.
  unfold Spec.validated.
  destruct v as [[|c v]|]; try discriminate. cbn [validate_regex].
  destruct (is_space c) eqn:Hc; [discriminate|].
  intros [= <-]. rewrite strip_head by done. cbn [validate_regex].
  rewrite Hc, strip_head, rstrip_idem by done.
  apply String.eqb_refl.
Qed.

(** What the constructors build has a validated secret key or token, and
    a path without blanks at its ends. *)
Lemma pushjet_constructed_validated secret_key kwargs n :
  NotifyPushjet.__init__ secret_key kwargs = Py.Return n ->
  Spec.validated (NotifyPushjet.secret_key n) = true.
Proof.
  unfold NotifyPushjet.__init__.
  destruct (validate_regex secret_key) as [s|] eqn:Hv; [|discriminate].
  destruct (negb (Py.truthy (Some s))); [discriminate|].
  intros [= <-]. simpl. by apply (validate_regex_idem secret_key).
Qed.

Lemma mattermost_constructed_validated penv token fullpath channels
    include_image kwargs n :
  NotifyMattermost.__init__ penv token fullpath channels include_image kwargs
  = Py.Return n ->
  Spec.validated (NotifyMattermost.token n) = true
  /\ strip (NotifyMattermost.fullpath n) = NotifyMattermost.fullpath n.
Proof.
  unfold NotifyMattermost.__init__.
  destruct (validate_regex token) as [s|] eqn:Hv; [|discriminate].
  destruct (negb (Py.truthy (Some s))); [discriminate|].
  intros [= <-]. simpl. split.
  - by apply (validate_regex_idem token).
  - destruct fullpath as [f|]; [apply strip_idem|done].
Qed.

End Constructed.


(** ** Scenarios, witnesses and counterexamples *)

(** The scenario of the spec: two sources with three and two notifiers. *)
Example server_pop_three_two :
  let pop index := (AppriseConfig.server_pop index (sample_config, [])).1 in
  pop 0 = Py.Return "a" /\ pop 1 = Py.Return "b" /\ pop 2 = Py.Return "c"
  /\ pop 3 = Py.Return "d" /\ pop 4 = Py.Return "e"
  /\ pop 5 = Py.Raise (Py.IndexError "list index out of range").
Proof. repeat split; vm_compute; reflexivity. Qed.

Lemma server_pop_flattened_witness :
  AppriseConfig.server_pop 4 (sample_config, [])
  = (Py.Return "e",
     (AppriseConfig.set_configs sample_config
        [ConfigBase.Make ∅ (Some "text") ["a"; "b"; "c"];
         ConfigBase.Make ∅ (Some "text") ["d"]], []))
  /\ AppriseConfig.server_pop 5 (sample_config, [])
     = (Py.Raise (Py.IndexError "list index out of range"),
        (sample_config, [])).
Proof.
  destruct (server_pop_flattened sample_config []) as [Hin Hout]. split.
  - apply (Hin [ConfigBase.Make ∅ (Some "text") ["a"; "b"; "c"]]
               (ConfigBase.Make ∅ (Some "text") ["d"; "e"]) [] 1%nat "e");
      vm_compute; reflexivity.
  - apply Hout. vm_compute. discriminate.
Defined.

Lemma instantiate_unregistered_schema_witness :
  GET_SCHEMA_RE sample_env "foo://x" = Some "foo"
  /\ (Py.lower "foo" ∉ dom (C_MGR sample_env))
  /\ AppriseConfig.instantiate sample_env "foo://x" None TagNone None 0 false
       true []
     = (Py.Return None, [(Py.WARNING, "Unsupported schema foo.")]).
Proof.
  assert (Py.lower "foo" ∉ dom (C_MGR sample_env)) as Hout
    by (apply not_elem_of_dom; vm_compute; reflexivity).
  split; [vm_compute; reflexivity|]. split; [exact Hout|].
  exact (instantiate_unregistered_schema sample_env "foo://x" None TagNone
           None 0 false true [] "foo" eq_refl Hout).
Defined.

Lemma instantiate_constructor_exception_witness :
  AppriseConfig.instantiate rejecting_env "reject://x" None TagNone None 0
    false true []
  = (Py.Return None, [(Py.WARNING, "Could not load URL: reject://x")])
  /\ AppriseConfig.instantiate rejecting_env "reject://x" None TagNone None 0
       false false []
     = (Py.Raise (Py.TypeError "rejected"), []).
Proof.
  pose (results :=
    match (AppriseConfig.instantiate_kwargs rejecting_env "reject://x" None
             TagNone None 0 false []).1 with
    | Py.Return (Some (_, kwargs)) => kwargs
    | _ => ∅
    end).
  assert (AppriseConfig.instantiate_kwargs rejecting_env "reject://x" None
            TagNone None 0 false []
          = (Py.Return (Some ("reject://x", results)), [])) as Hkw
    by (vm_compute; reflexivity).
  apply (instantiate_constructor_exception rejecting_env "reject://x" None
           TagNone None 0 false [] "reject://x" results [] "reject"
           Plugins.ConfigRejecting (Py.TypeError "rejected") Hkw);
    vm_compute; reflexivity.
Defined.

(** C3, as stated, fails: with no cache override the [cache] argument is
    read from the URL. *)
Lemma instantiate_cache_from_url :
  Spec.kwarg sample_env "http://host/cfg?cache=30" None TagNone None 0 false
    "cache" = Some (VInt 30)
  /\ Spec.kwarg sample_env "http://host/cfg?cache=60" None TagNone None 0 false
       "cache" = Some (VInt 60).
Proof. split; vm_compute; reflexivity. Qed.

Lemma instantiate_overrides_witness :
  Spec.kwarg sample_env "http://host/cfg?cache=30" None TagNone
    (Some (CacheInt 5)) 2 true "recursion" = Some (VInt 2)
  /\ Spec.kwarg sample_env "http://host/cfg?cache=30" None TagNone
       (Some (CacheInt 5)) 2 true "insecure_includes" = Some (VBool true)
  /\ Spec.kwarg sample_env "http://host/cfg?cache=30" None TagNone
       (Some (CacheInt 5)) 2 true "cache" = Some (VInt 5).
Proof.
  pose (kwargs :=
    match (AppriseConfig.instantiate_kwargs sample_env
             "http://host/cfg?cache=30" None TagNone (Some (CacheInt 5)) 2
             true []).1 with
    | Py.Return (Some (_, kwargs)) => kwargs
    | _ => ∅
    end).
  assert (AppriseConfig.instantiate_kwargs sample_env
            "http://host/cfg?cache=30" None TagNone (Some (CacheInt 5)) 2
            true []
          = (Py.Return (Some ("http://host/cfg?cache=30", kwargs)), []))
    as Hkw by (vm_compute; reflexivity).
  unfold Spec.kwarg. rewrite Hkw.
  exact (instantiate_overrides sample_env _ _ _ _ _ _ _ _ _ _ Hkw).
Defined.

Lemma add_partial_success_witness :
  is_Some (C_MGR sample_env !! "file")
  /\ exists msgs,
       AppriseConfig.add sample_env
         (AppriseConfig.ArgSeq
            [AppriseConfig.ElemStr "foo://x"; AppriseConfig.ElemOther "int";
             AppriseConfig.ElemStr "http://host/cfg"])
         None TagNone None None None (sample_config, [])
       = (Py.Return false,
          (AppriseConfig.set_configs sample_config
             (AppriseConfig.configs sample_config
              ++ [ConfigBase.Make ∅ None []]),
           [] ++ msgs)).
Proof.
  assert (is_Some (C_MGR sample_env !! "file")) as Hfile.
  { unfold sample_env. cbn [C_MGR].
    rewrite lookup_insert_ne by done. rewrite lookup_insert_eq. by eexists. }
  split; [exact Hfile|].
  exact (add_partial_success sample_env
           [AppriseConfig.ElemStr "foo://x"; AppriseConfig.ElemOther "int";
            AppriseConfig.ElemStr "http://host/cfg"]
           None TagNone None None None sample_config [] Hfile).
Defined.

Lemma add_config_format_detection_witness :
  C_MGR sample_env !! "memory"
  = Some (Plugins.ConfigMemory Plugins.detect_config_format Plugins.load_lines)
  /\ AppriseConfig.add_config sample_env (AppriseConfig.ContentStr "garbage")
       None TagNone None None None (sample_config, [])
     = (Py.Return false,
        (sample_config,
         [] ++ [(Py.DEBUG, "Loading raw configuration: " +:+ "garbage");
                (Py.WARNING,
                 "The format of the configuration could not be deteced.")]))
  /\ exists instance,
       AppriseConfig.add_config sample_env
         (AppriseConfig.ContentStr "pjet://host/SECRET")
         None TagNone None None None (sample_config, [])
       = (Py.Return true,
          (AppriseConfig.set_configs sample_config
             (AppriseConfig.configs sample_config ++ [instance]),
           [] ++ [(Py.DEBUG,
                   "Loading raw configuration: " +:+ "pjet://host/SECRET")]))
       /\ ConfigBase.config_format instance = Some "text"
       /\ ConfigBase.servers instance = Plugins.load_lines "pjet://host/SECRET".
Proof.
  assert (C_MGR sample_env !! "memory"
          = Some (Plugins.ConfigMemory Plugins.detect_config_format
                    Plugins.load_lines)) as Hmemory
    by (unfold sample_env; cbn [C_MGR]; apply lookup_insert_eq).
  split; [exact Hmemory|]. split.
  - apply (add_config_format_detection sample_env Plugins.detect_config_format
             Plugins.load_lines "garbage" None TagNone None None None
             sample_config [] Hmemory).
    + reflexivity.
    + intros f Hf. vm_compute in Hf. discriminate.
  - apply (add_config_format_detection sample_env Plugins.detect_config_format
             Plugins.load_lines "pjet://host/SECRET" None TagNone None None
             None sample_config [] Hmemory).
    + vm_compute. reflexivity.
    + unfold sample_env; cbn [CONFIG_FORMATS]; set_solver.
Defined.

(** A format given in upper case is read in lower case, and the content
    is then loaded whatever it looks like. *)
Example add_config_format_given :
  match AppriseConfig.add_config sample_env (AppriseConfig.ContentStr "garbage")
          None TagNone (Some "TEXT") None None
          (AppriseConfig.set_configs sample_config [], []) with
  | (Py.Return true, (self, _)) =>
    map ConfigBase.config_format (AppriseConfig.configs self) = [Some "text"]
  | _ => False
  end.
Proof. vm_compute. reflexivity. Qed.

(** The scenario of the spec: a line-format text added in memory. *)
Example add_config_two_lines :
  let content := "mmost://host/TOKEN" +:+ String "010" ("pjet://host/SECRET"
                 +:+ String "010" "") in
  match AppriseConfig.add_config sample_env (AppriseConfig.ContentStr content)
          None TagNone None None None
          (AppriseConfig.set_configs sample_config [], []) with
  | (Py.Return true, (self, _)) =>
    AppriseConfig.servers sample_env self (LogicStr "all") true
    = ["mmost://host/TOKEN"; "pjet://host/SECRET"]
  | _ => False
  end.
Proof. vm_compute. reflexivity. Qed.

Lemma pushjet_secret_precedence_witness :
  exists results r,
    NotifyBase.parse_url "pjet://host/key?secret=abc" = Some results
    /\ NotifyPushjet.parse_url "pjet://host/key?secret=abc" = Some r
    /\ NotifyPushjet.results_secret_key r = Some "abc".
Proof.
  destruct (NotifyBase.parse_url "pjet://host/key?secret=abc")
    as [results|] eqn:Hbase; [|vm_compute in Hbase; discriminate].
  destruct (pushjet_secret_precedence _ _ Hbase)
    as (r & Hr & _ & Hsecret & _).
  exists results, r. split; [reflexivity|]. split; [exact Hr|].
  apply (Hsecret "abc"); [|done].
  vm_compute in Hbase. injection Hbase as <-. vm_compute. reflexivity.
Defined.

Example pushjet_no_secret :
  Apprise.instantiate sample_penv "pjet://host/"
  = Py.Raise (Py.TypeError "An invalid Pushjet Secret Key (None) was specified.").
Proof. vm_compute. reflexivity. Qed.

Lemma mattermost_send_per_channel_witness :
  exists posts,
    NotifyMattermost.send sample_penv two_channels "body" "" NT_INFO []
    = (Py.Return (forallb (fun p => Spec.succeeded p.2) posts), [] ++ posts)
    /\ length posts = 2%nat
    /\ (forall (i : nat) req resp,
          posts !! i = Some (req, resp) ->
          resp = requests_post sample_penv (map fst ([] ++ take i posts)) req).
Proof.
  destruct (mattermost_send_per_channel sample_penv two_channels "body" ""
              NT_INFO []) as (posts & Hrun & Hlen & _ & _ & _ & Hanswers).
  exists posts. split; [exact Hrun|]. split; [exact Hlen|exact Hanswers].
Defined.

(** Both posts are made although the first one fails. *)
Example mattermost_send_continues :
  match NotifyMattermost.send sample_penv two_channels "body" "" NT_INFO [] with
  | (result, trace) =>
    result = Py.Return false
    /\ map (fun p => (channel (req_data p.1), p.2)) trace
       = [(Some "general", Status 500 ""); (Some "alerts", Status 500 "")]
  end.
Proof. split; vm_compute; reflexivity. Qed.


(** The same with a user and no password: [url] writes the credentials
    only when both are there. *)
Example url_round_trip_user_alone :
  Spec.round_trip sample_penv "pjet://user@host/SECRET"
  = Some (inl ("pjet", Some "user", None, "host", None, "SECRET"),
          inl ("pjet", None, None, "host", None, "SECRET")).
Proof. vm_compute. reflexivity. Qed.

(** Nor does a key holding a slash come back: [url] writes it as [%2F],
    the path is decoded before it is split, and the key read back is the
    part before the slash. *)
Example url_round_trip_slash_in_key :
  Spec.round_trip sample_penv "pjet://host/x?secret=a%2Fb"
  = Some (inl ("pjet", None, None, "host", None, "a/b"),
          inl ("pjet", None, None, "host", None, "a")).
Proof. vm_compute. reflexivity. Qed.


Example url_round_trip_mattermost :
  Spec.round_trip sample_penv "mmosts://bot@chat.example.org:8443/a/b/tok%20en?channel=x"
  = Some (inr ("mmosts", "tok en", "chat.example.org", Some 8443, "/a/b"),
          inr ("mmosts", "tok en", "chat.example.org", Some 8443, "/a/b")).
Proof. vm_compute. reflexivity. Qed.

(** The tag expressions of the spec's examples (section 8). *)
Example tag_matching :
  Logic.is_exclusive_match (LogicStr "all") ∅ "all" (Some "always") = true
  /\ Logic.is_exclusive_match (LogicList [EntryGroup ["a"; "b"]]) {["a"]}
       "all" (Some "always") = false
  /\ Logic.is_exclusive_match (LogicList [EntryGroup ["a"; "b"]])
       ({["a"]} ∪ {["b"]}) "all" (Some "always") = true
  /\ Logic.is_exclusive_match (LogicList [EntryStr "a"; EntryStr "b"]) {["b"]}
       "all" (Some "always") = true.
Proof. repeat split; vm_compute; reflexivity. Qed.

(* ===================================================================== *)
(** * Part III: further properties of the three files                      *)
(* ===================================================================== *)

(** ** The aggregator as a container *)

Section Container.

Context {N : Type}.
Variable env : Env N.
Implicit Types (self : AppriseConfig.t N) (log : Py.Log) (c : ConfigBase.t N)
  (cs : list (ConfigBase.t N)).

(** Python's two ways of reading an index, on any list. *)
Lemma list_getitem_nonneg {A} (l : list A) (i : nat) (x : A) :
  l !! i = Some x -> Py.list_getitem l (Z.of_nat i) = Py.Return x.
Proof.
  intros Hx. pose proof (lookup_lt_Some _ _ _ Hx) as Hlt.
  unfold Py.list_getitem, Py.len. cbv zeta. zcmp. simpl orb. cbv iota.
  by rewrite Nat2Z.id, Hx.
Qed.

Lemma list_getitem_negative {A} (l : list A) (i : nat) (x : A) :
  l !! i = Some x -> Py.list_getitem l (Z.of_nat i - Py.len l) = Py.Return x.
Proof.
  intros Hx. pose proof (lookup_lt_Some _ _ _ Hx) as Hlt.
  unfold Py.list_getitem, Py.len. cbv zeta. zcmp. simpl orb. cbv iota.
  replace (Z.of_nat i - Z.of_nat (length l) + Z.of_nat (length l))
    with (Z.of_nat i) by lia.
  by rewrite Nat2Z.id, Hx.
Qed.

Lemma list_getitem_outside {A} (l : list A) (index : Z) :
  index < - Py.len l \/ Py.len l <= index ->
  Py.list_getitem l index = Py.Raise (Py.IndexError "list index out of range").
Proof.
  intros Hout. unfold Py.list_getitem, Py.len in *. cbv zeta.
  zcmp; simpl orb; cbv iota; try reflexivity; lia.
Qed.

Lemma list_pop_negative {A} (l : list A) (i : nat) (x : A) :
  l !! i = Some x ->
  Py.list_pop l (Z.of_nat i - Py.len l) = Py.Return (x, delete i l).
Proof.
  intros Hx. pose proof (lookup_lt_Some _ _ _ Hx) as Hlt.
  unfold Py.list_pop, Py.len. destruct l as [|y l']; [discriminate|].
  cbv zeta. zcmp. simpl orb. cbv iota.
  replace (Z.of_nat i - Z.of_nat (length (y :: l')) + Z.of_nat (length (y :: l')))
    with (Z.of_nat i) by lia.
  by rewrite Nat2Z.id, Hx.
Qed.

Lemma list_pop_outside {A} (l : list A) (index : Z) :
  index < - Py.len l \/ Py.len l <= index ->
  exists msg, Py.list_pop l index = Py.Raise (Py.IndexError msg).
Proof.
  intros Hout. unfold Py.list_pop, Py.len in *.
  destruct l as [|y l']; [by eexists|]. cbv zeta.
  zcmp; simpl orb; cbv iota; try (by eexists); lia.
Qed.

(** What an index stands for: the position it reads, if any. *)
Lemma index_cases {A} (l : list A) (index : Z) :
  (exists i x, l !! i = Some x
     /\ (index = Z.of_nat i \/ index = Z.of_nat i - Py.len l))
  \/ (index < - Py.len l \/ Py.len l <= index).
Proof.
  unfold Py.len.
  destruct (Z.ltb_spec index (- Z.of_nat (length l))); [right; lia|].
  destruct (Z.leb_spec (Z.of_nat (length l)) index); [right; lia|].
  left. destruct (Z.ltb_spec index 0).
  - destruct (lookup_lt_is_Some_2 l (Z.to_nat (index + Z.of_nat (length l))))
      as [x Hx]; [lia|].
    exists (Z.to_nat (index + Z.of_nat (length l))), x. split; [done|]. lia.
  - destruct (lookup_lt_is_Some_2 l (Z.to_nat index)) as [x Hx]; [lia|].
    exists (Z.to_nat index), x. split; [done|]. lia.
Qed.

(** X4: [self[index]] reads position [i] both at index [i] and at index
    [i - len(self)]; every index below [-len(self)] or from [len(self)] on
    raises [IndexError]. *)
Theorem getitem_bounds self :
  (forall (i : nat) c,
     AppriseConfig.configs self !! i = Some c ->
     AppriseConfig.__getitem__ self (Z.of_nat i) = Py.Return c
     /\ AppriseConfig.__getitem__ self (Z.of_nat i - AppriseConfig.__len__ self)
        = Py.Return c)
  /\ (forall index,
        index < - AppriseConfig.__len__ self
        \/ AppriseConfig.__len__ self <= index ->
        AppriseConfig.__getitem__ self index
        = Py.Raise (Py.IndexError "list index out of range")).
Proof.
  unfold AppriseConfig.__getitem__, AppriseConfig.__len__. split.
  - intros i c Hc. split.
    + by apply list_getitem_nonneg.
    + by apply list_getitem_negative.
  - intros index Hout. by apply list_getitem_outside.
Qed.

(** X3: [pop(index)] returns what [self[index]] returns and removes
    exactly the source at that position; when [self[index]] raises,
    [pop(index)] raises [IndexError] and changes nothing. *)
Theorem pop_getitem self log (index : Z) :
  match AppriseConfig.__getitem__ self index with
  | Py.Return c =>
    exists i : nat,
      AppriseConfig.configs self !! i = Some c
      /\ (index = Z.of_nat i
          \/ index = Z.of_nat i - AppriseConfig.__len__ self)
      /\ AppriseConfig.pop index (self, log)
         = (Py.Return c,
            (AppriseConfig.set_configs self
               (delete i (AppriseConfig.configs self)), log))
  | Py.Raise _ =>
    exists msg,
      AppriseConfig.pop index (self, log)
      = (Py.Raise (Py.IndexError msg), (self, log))
  end.
Proof.
  unfold AppriseConfig.__getitem__, AppriseConfig.pop. simpl.
  destruct (index_cases (AppriseConfig.configs self) index)
    as [(i & x & Hx & [-> | ->])|Hout].
  - rewrite (list_getitem_nonneg _ _ _ Hx), (list_pop_in_range _ _ _ Hx).
    exists i. split; [done|]. split; [by left|done].
  - rewrite (list_getitem_negative _ _ _ Hx), (list_pop_negative _ _ _ Hx).
    exists i. split; [done|]. split; [by right|done].
  - rewrite (list_getitem_outside _ _ Hout).
    destruct (list_pop_outside _ _ Hout) as [msg ->]. by exists msg.
Qed.

Lemma list_pop_last {A} (l : list A) (x : A) :
  Py.list_pop (l ++ [x]) (-1) = Py.Return (x, l).
Proof.
  assert ((l ++ [x]) !! length l = Some x) as Hx
    by (rewrite lookup_app_r by lia; by rewrite Nat.sub_diag).
  pose proof (list_pop_negative _ _ _ Hx) as Hpop.
  replace (Z.of_nat (length l) - Py.len (l ++ [x])) with (-1) in Hpop
    by (unfold Py.len; rewrite length_app; simpl; lia).
  rewrite Hpop. f_equal. f_equal.
  rewrite delete_middle. by rewrite app_nil_r.
Qed.

(** X2: [add] of a source instance followed by [pop()] (index [-1])
    returns that very instance and leaves the object and the logger as
    they were before the [add]. *)
Theorem add_then_pop self log c (asset : option AppriseAsset) (tag : TagArg)
    (cache : option Cache) (recursion : option Z)
    (insecure_includes : option bool) :
  (run AppriseConfig.add env (AppriseConfig.ArgInstance c) asset tag cache
         recursion insecure_includes;
   AppriseConfig.pop (-1)) (self, log)
  = (Py.Return c, (self, log)).
Proof.
  unfold Py.bind, AppriseConfig.add, AppriseConfig.append, AppriseConfig.pop,
    Py.ret. simpl.
  rewrite list_pop_last. by destruct self.
Qed.

(** X5: after [clear] the aggregator has length [0] and is false,
    [servers] is empty for every tag expression, [server_pop], [pop] and
    indexing raise [IndexError] at every index; the asset, cache, recursion
    and insecure-includes attributes are kept and nothing is logged. *)
Theorem clear_empties self log :
  exists self',
    AppriseConfig.clear (self, log) = (Py.Return tt, (self', log))
    /\ AppriseConfig.__len__ self' = 0
    /\ AppriseConfig.__bool__ self' = false
    /\ AppriseConfig.defaults self' = AppriseConfig.defaults self
    /\ (forall tag match_always,
          AppriseConfig.servers env self' tag match_always = [])
    /\ (forall index,
          AppriseConfig.server_pop index (self', log)
          = (Py.Raise (Py.IndexError "list index out of range"), (self', log)))
    /\ (forall index,
          AppriseConfig.pop index (self', log)
          = (Py.Raise (Py.IndexError "pop from empty list"), (self', log)))
    /\ (forall index,
          AppriseConfig.__getitem__ self' index
          = Py.Raise (Py.IndexError "list index out of range")).
Proof.
  eexists. split; [reflexivity|]. repeat split.
  intros index. apply list_getitem_outside. unfold Py.len. simpl. lia.
Qed.

(** X6: the truth value counts sources, not notifiers: adding a source
    that expands to no notifier makes the aggregator true and one longer
    while [servers] returns what it returned before. *)
Theorem bool_counts_sources self log c (asset : option AppriseAsset)
    (tag : TagArg) (cache : option Cache) (recursion : option Z)
    (insecure_includes : option bool) :
  ConfigBase.servers c = [] ->
  exists self',
    AppriseConfig.add env (AppriseConfig.ArgInstance c) asset tag cache
      recursion insecure_includes (self, log)
    = (Py.Return true, (self', log))
    /\ AppriseConfig.__bool__ self' = true
    /\ AppriseConfig.__len__ self' = AppriseConfig.__len__ self + 1
    /\ (forall t match_always,
          AppriseConfig.servers env self' t match_always
          = AppriseConfig.servers env self t match_always).
Proof.
  intros Hempty. eexists. split; [reflexivity|]. simpl. repeat split.
  - unfold AppriseConfig.__bool__. simpl.
    by destruct (AppriseConfig.configs self).
  - unfold AppriseConfig.__len__, Py.len. simpl. rewrite length_app. simpl. lia.
  - intros t match_always. unfold AppriseConfig.servers. simpl.
    rewrite !servers_loop_spec. simpl.
    rewrite filter_app, map_app, concat_app, filter_cons, filter_nil.
    destruct (decide _); simpl; by rewrite ?Hempty, ?app_nil_r.
Qed.


(** [server_pop] *)
Lemma list_pop_returns {A} (l l' : list A) (index : Z) (x : A) :
  Py.list_pop l index = Py.Return (x, l') ->
  exists i : nat, l !! i = Some x /\ l' = delete i l
    /\ (index = Z.of_nat i \/ index = Z.of_nat i - Py.len l).
Proof.
  destruct (index_cases l index) as [(i & y & Hy & Hi)|Hout].
  - intros Hpop. exists i.
    destruct Hi as [-> | ->].
    + rewrite (list_pop_in_range _ _ _ Hy) in Hpop.
      injection Hpop as <- <-. auto.
    + rewrite (list_pop_negative _ _ _ Hy) in Hpop.
      injection Hpop as <- <-. auto.
  - destruct (list_pop_outside _ _ Hout) as [msg ->]. discriminate.
Qed.

Lemma flat_cons c cs : Spec.flat (c :: cs) = ConfigBase.servers c ++ Spec.flat cs.
Proof. reflexivity. Qed.


Lemma pop_returns c c' (index : Z) (x : N) :
  ConfigBase.pop c index = Py.Return (x, c') ->
  exists i : nat, ConfigBase.servers c !! i = Some x /\ c' = Spec.without i c
    /\ (index = Z.of_nat i \/ index = Z.of_nat i - Py.len (ConfigBase.servers c)).
Proof.
  unfold ConfigBase.pop, ConfigBase.servers.
  destruct (Py.list_pop (ConfigBase.loaded c) index) as [[y l']|e] eqn:Hpop;
    [|discriminate].
  intros [= -> <-].
  destruct (list_pop_returns _ _ _ _ Hpop) as (i & Hi & -> & Hindex).
  by exists i.
Qed.


(** The store of source objects *)
Lemma update_same (store : Shared.Store (N := N)) r e :
  Shared.update store r e r = e.
Proof. unfold Shared.update. by rewrite Pos.eqb_refl. Qed.

Lemma update_other (store : Shared.Store (N := N)) r r' e :
  r' <> r -> Shared.update store r e r' = store r'.
Proof. unfold Shared.update. intros Hne. by destruct (Pos.eqb_spec r' r). Qed.

Lemma map_update_outside (store : Shared.Store (N := N)) r e
    (l : list Shared.Ref) :
  r ∉ l -> map (Shared.update store r e) l = map store l.
Proof.
  induction l as [|r' l IH]; intros Hout; [done|]. simpl.
  rewrite update_other, IH; [done| |]; set_solver.
Qed.

(** A [server_pop] that returns has changed one object, one that
    [self.configs] holds, into the object without the notifier
    returned. *)
Lemma shared_pop_loop_returns (ids : list Shared.Ref)
    (store : Shared.Store (N := N)) :
  forall prev_offset index x store',
  Shared.server_pop_loop ids store prev_offset index = Py.Return (x, store') ->
  exists r (i : nat),
    r ∈ ids
    /\ ConfigBase.servers (store r) !! i = Some x
    /\ store' = Shared.update store r (Spec.without i (store r)).
Proof.
  induction ids as [|e ids IH]; intros prev_offset index x store';
    [discriminate|].
  simpl.
  destruct (Py.len (ConfigBase.servers (store e)) >? 0).
  - destruct (prev_offset + Py.len (ConfigBase.servers (store e)) >=? index).
    + destruct (ConfigBase.pop (store e) _) as [[y e']|err] eqn:Hpop;
        [|discriminate].
      intros [= -> <-].
      destruct (pop_returns _ _ _ _ Hpop) as (i & Hi & -> & _).
      exists e, i. split; [set_solver|done].
    + intros Hrest.
      destruct (IH _ _ _ _ Hrest) as (r & i & Hr & Hi & ->).
      exists r, i. split; [set_solver|done].
  - intros Hrest.
    destruct (IH _ _ _ _ Hrest) as (r & i & Hr & Hi & ->).
    exists r, i. split; [set_solver|done].
Qed.

(** With no object held twice, [server_pop] over the store does to the
    objects, position by position, what [AppriseConfig.server_pop_loop]
    does to the values at the positions. *)
Lemma shared_pop_loop_positions (ids : list Shared.Ref)
    (store : Shared.Store (N := N)) :
  forall prev_offset index,
  match AppriseConfig.server_pop_loop (map store ids) prev_offset index with
  | Py.Return (x, cs') =>
    exists store',
      Shared.server_pop_loop ids store prev_offset index = Py.Return (x, store')
      /\ (NoDup ids -> map store' ids = cs')
  | Py.Raise e =>
    Shared.server_pop_loop ids store prev_offset index = Py.Raise e
  end.
Proof.
  assert (forall e ids' prev_offset index,
    (forall prev_offset index,
       match AppriseConfig.server_pop_loop (map store ids') prev_offset index with
       | Py.Return (x, cs') =>
         exists store',
           Shared.server_pop_loop ids' store prev_offset index
           = Py.Return (x, store')
           /\ (NoDup ids' -> map store' ids' = cs')
       | Py.Raise e =>
         Shared.server_pop_loop ids' store prev_offset index = Py.Raise e
       end) ->
    match
      match AppriseConfig.server_pop_loop (map store ids') prev_offset index with
      | Py.Return (x, rest') => Py.Return (x, store e :: rest')
      | Py.Raise err => Py.Raise err
      end
    with
    | Py.Return (x, cs') =>
      exists store',
        Shared.server_pop_loop ids' store prev_offset index
        = Py.Return (x, store')
        /\ (NoDup (e :: ids') -> map store' (e :: ids') = cs')
    | Py.Raise err =>
      Shared.server_pop_loop ids' store prev_offset index = Py.Raise err
    end) as Hrest.
  { intros e ids' prev_offset index IH. specialize (IH prev_offset index).
    destruct (AppriseConfig.server_pop_loop (map store ids') prev_offset index)
      as [[y rest']|err]; [|done].
    destruct IH as (store' & Hrun & Hmap). exists store'. split; [done|].
    intros Hnd. apply NoDup_cons in Hnd as [Hout Hnd]. simpl.
    rewrite (Hmap Hnd).
    destruct (shared_pop_loop_returns _ _ _ _ _ _ Hrun) as (r & i & Hr & _ & ->).
    rewrite update_other; [done|]. by intros ->. }
  induction ids as [|e ids IH]; intros prev_offset index; [done|].
  simpl.
  destruct (Py.len (ConfigBase.servers (store e)) >? 0).
  - destruct (prev_offset + Py.len (ConfigBase.servers (store e)) >=? index).
    + destruct (ConfigBase.pop (store e) _) as [[y e']|err]; [|done].
      eexists. split; [done|]. intros Hnd.
      apply NoDup_cons in Hnd as [Hout _]. simpl.
      by rewrite update_same, map_update_outside.
    + by apply Hrest.
  - by apply Hrest.
Qed.

(** A source that serves from its cache leaves the store as it is, and
    [servers] reads the lists the objects hold. *)
Lemma shared_servers_loop_cached (refetch : ConfigBase.t N -> option (list N))
    (ids : list Shared.Ref) tag match_always :
  (forall e, refetch e = None) ->
  forall response (store : Shared.Store (N := N)),
  Shared.servers_loop env refetch ids tag match_always response store
  = (AppriseConfig.servers_loop env (map store ids) tag match_always response,
     store).
Proof.
  intros Hcached.
  induction ids as [|e ids IH]; intros response store; [done|]. simpl.
  rewrite Hcached.
  destruct (is_exclusive_match env tag _ _ _); apply IH.
Qed.


Lemma server_pop_loop_skip pre cs (index : Z) :
  Forall (fun e0 => ConfigBase.servers e0 = []) pre ->
  forall prev_offset,
  AppriseConfig.server_pop_loop (pre ++ cs) prev_offset index
  = match AppriseConfig.server_pop_loop cs prev_offset index with
    | Py.Return (x, cs') => Py.Return (x, pre ++ cs')
    | Py.Raise e => Py.Raise e
    end.
Proof.
  induction 1 as [|e0 pre He0 Hpre IH]; intros prev_offset; simpl.
  - by destruct (AppriseConfig.server_pop_loop cs prev_offset index) as [[]|].
  - rewrite He0. simpl. rewrite IH.
    by destruct (AppriseConfig.server_pop_loop cs prev_offset index) as [[]|].
Qed.

(** X8: a negative index does not count from the end of the flattened
    sequence: with only empty sources before [e], [server_pop] at
    [i - len(e.servers())] removes the [i]-th notifier of [e], the first
    source that is not empty, and an index below [-len(e.servers())]
    raises the [IndexError] of [list.pop] and changes nothing. *)
Theorem server_pop_negative self log pre e post :
  AppriseConfig.configs self = pre ++ e :: post ->
  Forall (fun e0 => ConfigBase.servers e0 = []) pre ->
  (forall (i : nat) (x : N),
     ConfigBase.servers e !! i = Some x ->
     AppriseConfig.server_pop (Z.of_nat i - Py.len (ConfigBase.servers e))
       (self, log)
     = (Py.Return x,
        (AppriseConfig.set_configs self (pre ++ Spec.without i e :: post), log)))
  /\ (forall index,
        ConfigBase.servers e <> [] ->
        index < - Py.len (ConfigBase.servers e) ->
        AppriseConfig.server_pop index (self, log)
        = (Py.Raise (Py.IndexError "pop index out of range"), (self, log))).
Proof.
  intros Hcs Hpre. unfold AppriseConfig.server_pop. simpl. rewrite Hcs. split.
  - intros i x Hx. pose proof (lookup_lt_Some _ _ _ Hx) as Hlt.
    rewrite (server_pop_loop_skip _ _ _ Hpre).
    simpl. unfold Py.len. zcmp. simpl.
    unfold ConfigBase.pop, ConfigBase.servers in *.
    pose proof (list_pop_negative _ _ _ Hx) as Hpop.
    unfold Py.len in Hpop. rewrite Hpop. reflexivity.
  - intros index Hne Hindex.
    rewrite (server_pop_loop_skip _ _ _ Hpre). simpl.
    assert (0 < Py.len (ConfigBase.servers e)) as Hpos.
    { unfold Py.len. destruct (ConfigBase.servers e); [done|]. simpl. lia. }
    zcmp. simpl.
    unfold ConfigBase.pop, ConfigBase.servers in *.
    unfold Py.list_pop. destruct (ConfigBase.loaded e) as [|y l]; [done|].
    cbv zeta. zcmp; simpl orb; cbv iota; try reflexivity; lia.
Qed.

Lemma filter_all {A} (P : A -> Prop) `{forall x, Decision (P x)} (l : list A) :
  Forall P l -> filter P l = l.
Proof.
  induction 1 as [|x l Hx Hl IH]; [done|]. by rewrite filter_cons_True, IH.
Qed.

Lemma delete_app_r {A} (l1 l2 : list A) (i : nat) :
  delete (length l1 + i)%nat (l1 ++ l2) = l1 ++ delete i l2.
Proof. induction l1 as [|x l1 IH]; simpl; [done|]. by rewrite IH. Qed.

Lemma delete_app_l {A} (l1 l2 : list A) (i : nat) :
  (i < length l1)%nat -> delete i (l1 ++ l2) = delete i l1 ++ l2.
Proof.
  revert i. induction l1 as [|x l1 IH]; intros i Hi; simpl in *; [lia|].
  destruct i as [|i]; [done|]. simpl. rewrite IH by lia. done.
Qed.

Lemma server_pop_loop_flat cs :
  forall prev_offset index (k : nat) (x : N),
  -1 <= prev_offset ->
  index = prev_offset + 1 + Z.of_nat k ->
  Spec.flat cs !! k = Some x ->
  exists cs',
    AppriseConfig.server_pop_loop cs prev_offset index = Py.Return (x, cs')
    /\ Spec.flat cs' = delete k (Spec.flat cs)
    /\ map ConfigBase.tags cs' = map ConfigBase.tags cs.
Proof.
  induction cs as [|e cs IH]; intros prev_offset index k x Hp Hindex Hx;
    [discriminate|].
  rewrite flat_cons in Hx. simpl.
  destruct (decide (k < length (ConfigBase.servers e))%nat) as [Hin|Hout].
  - rewrite lookup_app_l in Hx by done.
    assert ((if prev_offset =? -1 then index else index - prev_offset - 1)
            = Z.of_nat k) as -> by (zcmp; lia).
    unfold Py.len. zcmp.
    unfold ConfigBase.pop, ConfigBase.servers in *.
    rewrite (list_pop_in_range _ _ _ Hx).
    eexists. split; [reflexivity|]. split; [|done].
    rewrite !flat_cons. unfold ConfigBase.servers. simpl.
    by rewrite delete_app_l.
  - rewrite lookup_app_r in Hx by lia.
    destruct (Z.gtb_spec (Py.len (ConfigBase.servers e)) 0) as [Hpos|Hzero].
    + unfold Py.len in *. zcmp.
      destruct (IH (prev_offset + Z.of_nat (length (ConfigBase.servers e)))
                  index (k - length (ConfigBase.servers e))%nat x)
        as (cs' & -> & Hflat & Htags); [lia|lia|done|].
      eexists. split; [reflexivity|]. split.
      * rewrite !flat_cons, Hflat.
        replace k with (length (ConfigBase.servers e)
                        + (k - length (ConfigBase.servers e)))%nat at 2 by lia.
        by rewrite delete_app_r.
      * simpl. by rewrite Htags.
    + assert (ConfigBase.servers e = []) as He.
      { unfold Py.len in Hzero. destruct (ConfigBase.servers e); [done|].
        simpl in Hzero. lia. }
      rewrite He in *. simpl in Hx. rewrite Nat.sub_0_r in Hx.
      destruct (IH prev_offset index k x) as (cs' & -> & Hflat & Htags);
        [lia|lia|done|].
      eexists. split; [reflexivity|]. split.
      * rewrite !flat_cons, Hflat, He. done.
      * simpl. by rewrite Htags.
Qed.

(** X9: when no source object is held at two positions of
    [self.configs], every source serves [servers()] from its cache and
    every source satisfies the tag expression, [server_pop] at an index
    within [servers(tag)] returns the notifier [servers(tag)] has at that
    index, and [servers(tag)] afterwards is the list before with that
    position deleted. *)
Theorem server_pop_servers (refetch : ConfigBase.t N -> option (list N))
    (configs : list Shared.Ref) (store : Shared.Store (N := N))
    (tag : TagLogic) (match_always : bool) (index : Z) :
  NoDup configs ->
  (forall e, refetch e = None) ->
  Forall (fun r => is_exclusive_match env tag (ConfigBase.tags (store r))
                     (MATCH_ALL_TAG env)
                     (if match_always then Some (MATCH_ALWAYS_TAG env) else None)
                   = true) configs ->
  let before := (Shared.servers env refetch configs tag match_always store).1 in
  0 <= index < Py.len before ->
  exists x store',
    Shared.servers env refetch configs tag match_always store = (before, store)
    /\ Shared.server_pop configs index store = (Py.Return x, store')
    /\ before !! Z.to_nat index = Some x
    /\ Shared.servers env refetch configs tag match_always store'
       = (delete (Z.to_nat index) before, store').
Proof.
  intros Hnd Hcached Hall.
  assert (forall cs,
    Forall (fun t => is_exclusive_match env tag t (MATCH_ALL_TAG env)
                       (if match_always then Some (MATCH_ALWAYS_TAG env) else None)
                     = true) (map ConfigBase.tags cs) ->
    AppriseConfig.servers_loop env cs tag
      (if match_always then Some (MATCH_ALWAYS_TAG env) else None) []
    = Spec.flat cs) as Hflat.
  { intros cs Hcs. rewrite servers_loop_spec. simpl. rewrite filter_all; [done|].
    by apply Forall_fmap in Hcs. }
  assert (Forall (fun t => is_exclusive_match env tag t (MATCH_ALL_TAG env)
                       (if match_always then Some (MATCH_ALWAYS_TAG env) else None)
                     = true) (map ConfigBase.tags (map store configs)))
    as Hall'.
  { apply Forall_fmap, Forall_fmap. exact Hall. }
  unfold Shared.servers. cbv zeta.
  rewrite !(shared_servers_loop_cached refetch) by done.
  rewrite (Hflat _ Hall'). cbn [fst]. intros Hindex.
  destruct (lookup_lt_is_Some_2 (Spec.flat (map store configs))
              (Z.to_nat index)) as [x Hx]; [unfold Py.len in Hindex; lia|].
  destruct (server_pop_loop_flat (map store configs) (-1) index
              (Z.to_nat index) x)
    as (cs' & Hloop & Hdel & Htags); [lia|lia|done|].
  pose proof (shared_pop_loop_positions configs store (-1) index) as Hshared.
  rewrite Hloop in Hshared. destruct Hshared as (store' & Hrun & Hmap).
  exists x, store'. unfold Shared.server_pop. rewrite Hrun.
  split; [done|]. split; [done|]. split; [done|].
  rewrite (shared_servers_loop_cached refetch) by done.
  rewrite (Hmap Hnd), Hflat; [by rewrite Hdel|]. by rewrite Htags.
Qed.

End Container.

(** ** Loading sources: [__init__], [add], [add_config], [instantiate] *)

Section Loading.

Context {N : Type}.
Variable env : Env N.
Implicit Types (self : AppriseConfig.t N) (log : Py.Log) (c : ConfigBase.t N)
  (url : string) (tag : TagArg).

(** The loop of [add] reads nothing of the object: what it appends, what
    it logs and what it returns are the same whatever the object is. *)
Lemma add_loop_uniform (l : list (AppriseConfig.ConfigElem N))
    (asset : AppriseAsset) tag (cache : Cache) (recursion : Z)
    (insecure_includes : bool) :
  forall return_status log,
  exists o extra msgs,
    forall self,
    AppriseConfig.add_loop env l asset tag cache recursion insecure_includes
      return_status (self, log)
    = (o, (AppriseConfig.set_configs self (AppriseConfig.configs self ++ extra),
           log ++ msgs)).
Proof.
  induction l as [|elem l IH]; intros return_status log.
  - exists (Py.Return return_status), [], []. intros self. simpl. unfold Py.ret.
    by rewrite !app_nil_r, set_configs_same.
  - destruct elem as [c|s|ty]; simpl.
    + destruct (IH return_status log) as (o & extra & msgs & Hrun).
      exists o, (c :: extra), msgs. intros self.
      unfold Py.bind, AppriseConfig.append. simpl. rewrite Hrun.
      rewrite set_configs_configs, set_configs_twice.
      by rewrite <- app_assoc.
    + unfold Py.bind, AppriseConfig.logger, AppriseConfig.static. simpl.
      rewrite instantiate_log. cbv zeta.
      destruct (AppriseConfig.instantiate env s (Some asset) tag (Some cache)
                  recursion insecure_includes true []) as [[[c|]|e] msgs0];
        simpl.
      * destruct (IH return_status
                    ((log ++ [(Py.DEBUG, "Loading configuration: " +:+ s)])
                     ++ msgs0)) as (o & extra & msgs & Hrun).
        exists o, (c :: extra),
          ((Py.DEBUG, "Loading configuration: " +:+ s) :: msgs0 ++ msgs). intros self.
        unfold AppriseConfig.append. simpl. rewrite Hrun.
        rewrite set_configs_configs, set_configs_twice.
        by rewrite <- !app_assoc.
      * destruct (IH false
                    ((log ++ [(Py.DEBUG, "Loading configuration: " +:+ s)])
                     ++ msgs0)) as (o & extra & msgs & Hrun).
        exists o, extra,
          ((Py.DEBUG, "Loading configuration: " +:+ s) :: msgs0 ++ msgs). intros self.
        rewrite Hrun. by rewrite <- !app_assoc.
      * exists (Py.Raise e), [],
          ((Py.DEBUG, "Loading configuration: " +:+ s) :: msgs0). intros self.
        rewrite app_nil_r, set_configs_same. by rewrite <- !app_assoc.
    + destruct (IH false
                  (log ++ [(Py.WARNING, "An invalid configuration (type="
                                        +:+ ty +:+ ") was specified.")]))
        as (o & extra & msgs & Hrun).
      exists o, extra,
        ((Py.WARNING, "An invalid configuration (type="
                      +:+ ty +:+ ") was specified.") :: msgs). intros self.
      unfold Py.bind, AppriseConfig.logger. simpl. rewrite Hrun.
      by rewrite <- !app_assoc.
Qed.

(** X10: whatever its argument is and whether it returns or raises,
    [add] only appends: the sources held before are a prefix of those held
    after, the other attributes are unchanged and the logger is only
    appended to. *)
Theorem add_extends_configs (configs : AppriseConfig.ConfigsArg N)
    (asset : option AppriseAsset) tag (cache : option Cache)
    (recursion : option Z) (insecure_includes : option bool) self log :
  exists o extra msgs,
    AppriseConfig.add env configs asset tag cache recursion insecure_includes
      (self, log)
    = (o, (AppriseConfig.set_configs self (AppriseConfig.configs self ++ extra),
           log ++ msgs)).
Proof.
  unfold AppriseConfig.add. simpl.
  destruct configs as [c|s|l|ty].
  - exists (Py.Return true), [c], []. by rewrite app_nil_r.
  - destruct (add_loop_uniform [AppriseConfig.ElemStr s]
                (default (AppriseConfig.asset self) asset) tag
                (default (AppriseConfig.cache self) cache)
                (default (AppriseConfig.recursion self) recursion)
                (default (AppriseConfig.insecure_includes self) insecure_includes)
                true log) as (o & extra & msgs & Hrun).
    exists o, extra, msgs. apply Hrun.
  - destruct (add_loop_uniform l
                (default (AppriseConfig.asset self) asset) tag
                (default (AppriseConfig.cache self) cache)
                (default (AppriseConfig.recursion self) recursion)
                (default (AppriseConfig.insecure_includes self) insecure_includes)
                true log) as (o & extra & msgs & Hrun).
    exists o, extra, msgs. apply Hrun.
  - exists (Py.Return false), [],
      [(Py.ERROR, "An invalid configuration path (type=" +:+ ty
                  +:+ ") was specified.")].
    unfold Py.bind, AppriseConfig.logger, Py.ret. simpl.
    by rewrite app_nil_r, set_configs_same.
Qed.

(** X1: [__init__] stores its [cache] argument but does not hand it to the
    [add] that loads [paths]: that call runs with the default [cache=True]
    of [add].  Two constructions that differ only in [cache] load the same
    sources, log the same records and raise the same exception if any; the
    objects differ in the stored [cache] alone. *)
Theorem init_cache_not_applied (paths : option (AppriseConfig.ConfigsArg N))
    (asset : option AppriseAsset) (cache cache' : Cache) (recursion : Z)
    (insecure_includes : bool) log :
  Spec.same_but_cache
    (AppriseConfig.__init__ env paths asset cache recursion insecure_includes log)
    (AppriseConfig.__init__ env paths asset cache' recursion insecure_includes log)
  /\ match (AppriseConfig.__init__ env paths asset cache recursion
              insecure_includes log).1 with
     | Py.Return self => AppriseConfig.cache self = cache
     | Py.Raise _ => True
     end.
Proof.
  unfold AppriseConfig.__init__, Spec.same_but_cache.
  destruct paths as [paths|]; [|done].
  destruct paths as [c|s|l|ty]; [done| | |done];
    cbv beta iota zeta delta [AppriseConfig.add AppriseConfig.defaults fst snd];
    cbn [AppriseConfig.asset AppriseConfig.cache AppriseConfig.recursion
         AppriseConfig.insecure_includes default from_option].
  - destruct (add_loop_uniform [AppriseConfig.ElemStr s]
                (default (default_asset env) asset) TagNone (CacheBool true)
                recursion insecure_includes true log)
      as (o & extra & msgs & Hrun).
    rewrite !Hrun. by destruct o.
  - destruct (add_loop_uniform l
                (default (default_asset env) asset) TagNone (CacheBool true)
                recursion insecure_includes true log)
      as (o & extra & msgs & Hrun).
    rewrite !Hrun. by destruct o.
Qed.

(** X13: with [suppress_exceptions=True], [instantiate] raises
    exactly when the URL carries no scheme and no plugin is registered
    under [file], and what it raises then is [KeyError] for [file]: the
    lookup of the fall-back scheme stands outside the [try]. *)
Theorem instantiate_suppressed_raises url (asset : option AppriseAsset) tag
    (cache : option Cache) (recursion : Z) (insecure_includes : bool) log
    (e : Py.Exc) :
  (AppriseConfig.instantiate env url asset tag cache recursion
     insecure_includes true log).1 = Py.Raise e
  <-> GET_SCHEMA_RE env url = None /\ C_MGR env !! "file" = None
      /\ e = Py.KeyError "file".
Proof.
  unfold AppriseConfig.instantiate, AppriseConfig.instantiate_kwargs,
    AppriseConfig.instantiate_results, AppriseConfig.C_MGR_getitem,
    Py.bind, Py.lift, Py.ret, Py.log_to, Py.try_except.
  destruct (GET_SCHEMA_RE env url) as [schema|].
  - split; [|by intros [? _]].
    destruct (bool_decide_reflect (Py.lower schema ∈ dom (C_MGR env)))
      as [Hin|Hout]; simpl; [|done].
    apply elem_of_dom in Hin as [plugin ->]. simpl.
    destruct (AppriseConfig.not_results _); simpl; [done|].
    by destruct (AppriseConfig.construct env _).
  - destruct (C_MGR env !! "file") as [plugin|]; simpl.
    + split; [|by intros (_ & ? & _)].
      destruct (AppriseConfig.not_results _); simpl; [done|].
      by destruct (AppriseConfig.construct env _).
    + split.
      * by intros [= <-].
      * by intros (_ & _ & ->).
Qed.

(** X14: when the results of the plugin's [parse_url] hold no
    [schema] entry, the lookup of [results["schema"]] fails: suppressed,
    [instantiate] logs that the URL could not be loaded and returns [None];
    unsuppressed, it raises [KeyError]. *)
Theorem instantiate_without_schema_key url (asset : option AppriseAsset) tag
    (cache : option Cache) (recursion : Z) (insecure_includes : bool) log
    (schema : string) (plugin : ConfigPlugin N) (results : gmap string Val) :
  GET_SCHEMA_RE env url = Some schema ->
  C_MGR env !! Py.lower schema = Some plugin ->
  plugin_parse_url plugin url = Some results ->
  results <> ∅ ->
  results !! "schema" = None ->
  AppriseConfig.instantiate env url asset tag cache recursion
    insecure_includes true log
  = (Py.Return None, log ++ [(Py.WARNING, "Could not load URL: " +:+ url)])
  /\ AppriseConfig.instantiate env url asset tag cache recursion
       insecure_includes false log
     = (Py.Raise (Py.KeyError "schema"), log).
Proof.
  intros Hschema Hplugin Hparse Hne Hkey.
  unfold AppriseConfig.instantiate, AppriseConfig.instantiate_kwargs,
    AppriseConfig.instantiate_results, AppriseConfig.C_MGR_getitem,
    Py.bind, Py.lift, Py.ret, Py.log_to, Py.try_except.
  rewrite Hschema.
  rewrite bool_decide_eq_true_2 by (apply elem_of_dom; by eexists).
  simpl. rewrite Hplugin. simpl. rewrite Hparse. simpl.
  rewrite bool_decide_eq_false_2
    by (intros Hsize; by apply map_size_empty_iff in Hsize).
  simpl.
  assert (forall kwargs : gmap string Val,
    kwargs !! "schema" = None ->
    AppriseConfig.construct env kwargs = Py.Raise (Py.KeyError "schema"))
    as Hcons by (intros kwargs Hk; unfold AppriseConfig.construct; by rewrite Hk).
  rewrite Hcons; [done|].
  destruct cache; by simplify_map_eq.
Qed.

(** X12: [add_config] suppresses nothing: with no plugin registered
    under [memory] it raises [KeyError], and an exception of the in-memory
    constructor leaves it as raised; in both cases the sources are
    unchanged and only the debug record was logged. *)
Theorem add_config_raises (content : string) (asset : option AppriseAsset) tag
    (format : option string) (recursion : option Z)
    (insecure_includes : option bool) self log :
  let logged := log ++ [(Py.DEBUG, "Loading raw configuration: " +:+ content)] in
  (C_MGR env !! "memory" = None ->
   AppriseConfig.add_config env (AppriseConfig.ContentStr content) asset tag
     format recursion insecure_includes (self, log)
   = (Py.Raise (Py.KeyError "memory"), (self, logged)))
  /\ (forall memory e,
        C_MGR env !! "memory" = Some memory ->
        plugin_new memory
          (AppriseConfig.memory_kwargs content format
             (default (AppriseConfig.asset self) asset) tag
             (default (AppriseConfig.recursion self) recursion)
             (default (AppriseConfig.insecure_includes self) insecure_includes))
        = Py.Raise e ->
        AppriseConfig.add_config env (AppriseConfig.ContentStr content) asset
          tag format recursion insecure_includes (self, log)
        = (Py.Raise e, (self, logged))).
Proof.
  intros logged. subst logged.
  unfold AppriseConfig.add_config, AppriseConfig.C_MGR_getitem,
    Py.bind, Py.lift, Py.ret, AppriseConfig.logger. simpl. split.
  - intros ->. by destruct self.
  - intros memory e -> Hnew. simpl. rewrite Hnew. by destruct self.
Qed.

(** X15: when the plugin's [parse_url] returns [None] or an empty
    dictionary, [instantiate] logs one warning and returns [None] whether
    exceptions are suppressed or not; for a URL without scheme the URL
    parsed and named in the warning is [file://] followed by the quoted
    text. *)
Theorem instantiate_unparseable url (asset : option AppriseAsset) tag
    (cache : option Cache) (recursion : Z) (insecure_includes suppress : bool)
    log (plugin : ConfigPlugin N) :
  (forall schema,
     GET_SCHEMA_RE env url = Some schema ->
     C_MGR env !! Py.lower schema = Some plugin ->
     plugin_parse_url plugin url = None \/ plugin_parse_url plugin url = Some ∅ ->
     AppriseConfig.instantiate env url asset tag cache recursion
       insecure_includes suppress log
     = (Py.Return None,
        log ++ [(Py.WARNING, "Unparseable URL " +:+ url +:+ ".")]))
  /\ (GET_SCHEMA_RE env url = None ->
      C_MGR env !! "file" = Some plugin ->
      let file_url := "file" +:+ "://" +:+ URLBase_quote env url in
      plugin_parse_url plugin file_url = None
      \/ plugin_parse_url plugin file_url = Some ∅ ->
      AppriseConfig.instantiate env url asset tag cache recursion
        insecure_includes suppress log
      = (Py.Return None,
         log ++ [(Py.WARNING, "Unparseable URL " +:+ file_url +:+ ".")])).
Proof.
  assert (forall schema u,
    C_MGR env !! schema = Some plugin ->
    plugin_parse_url plugin u = None \/ plugin_parse_url plugin u = Some ∅ ->
    AppriseConfig.instantiate_results env schema u asset tag cache recursion
      insecure_includes log
    = (Py.Return None, log ++ [(Py.WARNING, "Unparseable URL " +:+ u +:+ ".")]))
    as Hres.
  { intros schema u Hp Hparse.
    unfold AppriseConfig.instantiate_results, AppriseConfig.C_MGR_getitem,
      Py.bind, Py.lift, Py.ret, Py.log_to.
    rewrite Hp. simpl. by destruct Hparse as [-> | ->]. }
  unfold AppriseConfig.instantiate, AppriseConfig.instantiate_kwargs, Py.bind.
  split.
  - intros schema Hs Hp Hparse. rewrite Hs.
    rewrite bool_decide_eq_true_2 by (apply elem_of_dom; by eexists).
    simpl. by rewrite (Hres _ _ Hp Hparse).
  - intros Hs Hp. cbv zeta. intros Hparse. rewrite Hs.
    by rewrite (Hres _ _ Hp Hparse).
Qed.

(** X16: whenever [instantiate] reaches the constructor, nothing was
    logged, the [tag] argument is the set of the tags parsed from the [tag]
    parameter (a tag entry of the URL is replaced), [asset] is the asset
    given or the default one, and every entry of the parsed results other
    than [tag], [asset], [cache], [recursion] and [insecure_includes] is
    handed over as parsed. *)
Theorem instantiate_keeps_parsed url (asset : option AppriseAsset) tag
    (cache : option Cache) (recursion : Z) (insecure_includes : bool) log
    (url' : string) (kwargs : gmap string Val) (log' : Py.Log) :
  AppriseConfig.instantiate_kwargs env url asset tag cache recursion
    insecure_includes log = (Py.Return (Some (url', kwargs)), log') ->
  log' = log
  /\ kwargs !! "tag" = Some (VTags (list_to_set (parse_list env tag)))
  /\ kwargs !! "asset" = Some (VAsset (default (default_asset env) asset))
  /\ exists schema plugin results,
       C_MGR env !! schema = Some plugin
       /\ plugin_parse_url plugin url' = Some results
       /\ forall key,
            key ∉ ["tag"; "asset"; "cache"; "recursion"; "insecure_includes"] ->
            kwargs !! key = results !! key.
Proof.
  assert (forall schema u,
    AppriseConfig.instantiate_results env schema u asset tag cache recursion
      insecure_includes log = (Py.Return (Some (url', kwargs)), log') ->
    log' = log
    /\ kwargs !! "tag" = Some (VTags (list_to_set (parse_list env tag)))
    /\ kwargs !! "asset" = Some (VAsset (default (default_asset env) asset))
    /\ exists schema plugin results,
         C_MGR env !! schema = Some plugin
         /\ plugin_parse_url plugin url' = Some results
         /\ forall key,
              key ∉ ["tag"; "asset"; "cache"; "recursion"; "insecure_includes"] ->
              kwargs !! key = results !! key) as Hres.
  { intros schema u.
    unfold AppriseConfig.instantiate_results, Py.bind, Py.lift, Py.ret,
      Py.log_to, AppriseConfig.C_MGR_getitem.
    destruct (C_MGR env !! schema) as [plugin|] eqn:Hp; [|discriminate].
    destruct (plugin_parse_url plugin u) as [results|] eqn:Hr;
      [|discriminate].
    simpl. destruct (bool_decide _); simpl; [discriminate|].
    intros [= -> <- <-]. split; [done|]. split; [|split].
    - destruct cache; by simplify_map_eq.
    - destruct cache; by simplify_map_eq.
    - exists schema, plugin, results. split; [done|]. split; [done|].
      intros key Hkey.
      rewrite !not_elem_of_cons in Hkey.
      destruct Hkey as (? & ? & ? & ? & ? & _).
      destruct cache; by simplify_map_eq. }
  unfold AppriseConfig.instantiate_kwargs.
  destruct (GET_SCHEMA_RE env url) as [schema|].
  - destruct (negb _); [discriminate|]. apply Hres.
  - apply Hres.
Qed.

(** X11: a URL string given to [add] never keeps a [cache] value of
    its own: the constructor receives the [cache] argument of [add], or
    [self.cache] when that is [None], while every entry parsed from the URL
    other than the five overridden ones reaches it unchanged.  The source
    is appended when the constructor returns; when it raises, [add] returns
    false after a warning. *)
Theorem add_overrides_url_cache url (asset : option AppriseAsset) tag
    (cache : option Cache) (recursion : option Z)
    (insecure_includes : option bool) self log (schema : string)
    (plugin : ConfigPlugin N) (results : gmap string Val) :
  GET_SCHEMA_RE env url = Some schema ->
  C_MGR env !! Py.lower schema = Some plugin ->
  plugin_parse_url plugin url = Some results ->
  results <> ∅ ->
  exists kwargs,
    kwargs !! "cache"
    = Some (cache_val (default (AppriseConfig.cache self) cache))
    /\ (forall key,
          key ∉ ["tag"; "asset"; "cache"; "recursion"; "insecure_includes"] ->
          kwargs !! key = results !! key)
    /\ AppriseConfig.add env (AppriseConfig.ArgStr url) asset tag cache
         recursion insecure_includes (self, log)
       = match AppriseConfig.construct env kwargs with
         | Py.Return c =>
           (Py.Return true,
            (AppriseConfig.set_configs self (AppriseConfig.configs self ++ [c]),
             log ++ [(Py.DEBUG, "Loading configuration: " +:+ url)]))
         | Py.Raise _ =>
           (Py.Return false,
            (self,
             log ++ [(Py.DEBUG, "Loading configuration: " +:+ url);
                     (Py.WARNING, "Could not load URL: " +:+ url)]))
         end.
Proof.
  intros Hschema Hplugin Hparse Hne.
  exists (<["insecure_includes" :=
             VBool (default (AppriseConfig.insecure_includes self)
                      insecure_includes)]>
          (<["recursion" :=
               VInt (default (AppriseConfig.recursion self) recursion)]>
          (<["cache" := cache_val (default (AppriseConfig.cache self) cache)]>
          (<["asset" := VAsset (default (AppriseConfig.asset self) asset)]>
          (<["tag" := VTags (list_to_set (parse_list env tag))]> results))))).
  split; [|split]; cycle 2.
  - unfold AppriseConfig.add.
    cbv beta iota zeta delta [AppriseConfig.defaults fst snd].
    cbn [AppriseConfig.add_loop].
    unfold Py.bind, AppriseConfig.logger, AppriseConfig.static,
      AppriseConfig.instantiate, AppriseConfig.instantiate_kwargs,
      AppriseConfig.instantiate_results, AppriseConfig.C_MGR_getitem,
      Py.bind, Py.lift, Py.ret, Py.log_to, Py.try_except, AppriseConfig.append.
    cbn [fst snd]. rewrite Hschema.
    rewrite bool_decide_eq_true_2 by (apply elem_of_dom; by eexists).
    cbn [negb]. rewrite Hplugin. cbn [fst snd]. rewrite Hparse.
    cbn [AppriseConfig.not_results].
    rewrite bool_decide_eq_false_2
      by (intros Hsize; by apply map_size_empty_iff in Hsize).
    cbn [default from_option id].
    match goal with
    | |- context [AppriseConfig.construct env ?k] =>
      destruct (AppriseConfig.construct env k) as [c|e]
    end.
    + cbn. reflexivity.
    + cbn. rewrite <- app_assoc. by destruct self.
  - by simplify_map_eq.
  - intros key Hkey. rewrite !not_elem_of_cons in Hkey.
    destruct Hkey as (? & ? & ? & ? & ? & _). by simplify_map_eq.
Qed.

End Loading.

(** ** Pushjet: [send] *)

Section PushjetSend.

Variable penv : PluginEnv.
Variable requests_post :
  list NotifyPushjet.SendRequest -> NotifyPushjet.SendRequest -> Response.
Variable self : NotifyPushjet.t.

(** X17: [NotifyPushjet.send] makes exactly one request, to
    [notify_url], with the secret key as the [secret] query parameter and
    the body and title in the payload; it returns true exactly when the
    answer has status 200, and a [RequestException] gives false instead of
    being raised. *)
Theorem pushjet_send_once (body title : string) (notify_type : NotifyType)
    (trace : list (NotifyPushjet.SendRequest * Response)) :
  exists req r,
    NotifyPushjet.send penv requests_post self body title notify_type trace
    = (Py.Return (Spec.succeeded r), trace ++ [(req, r)])
    /\ r = requests_post (map fst trace) req
    /\ NotifyPushjet.send_url req = NotifyPushjet.notify_url self
    /\ NotifyPushjet.send_params req
       = [("secret", NotifyPushjet.secret_key self)]
    /\ NotifyPushjet.message (NotifyPushjet.send_data req) = body
    /\ NotifyPushjet.title (NotifyPushjet.send_data req) = title.
Proof.
  unfold NotifyPushjet.send. cbv zeta.
  match goal with
  | |- context [requests_post (map fst trace) ?q] =>
    exists q, (requests_post (map fst trace) q);
    destruct (requests_post (map fst trace) q) as [code content|msg]
  end.
  - simpl. destruct (code =? 200); simpl; repeat split.
  - simpl. repeat split.
Qed.

(** X18: for a Pushjet notifier with a user and no password
    (or an empty one), [send] still authenticates with that user, while
    [url] writes no credentials at all. *)
Theorem pushjet_user_without_password (body title : string)
    (notify_type : NotifyType)
    (trace : list (NotifyPushjet.SendRequest * Response)) (privacy : bool)
    (u : string) :
  NotifyBase.user (NotifyPushjet.base self) = Some u ->
  u <> "" ->
  Py.truthy (NotifyBase.password (NotifyPushjet.base self)) = false ->
  (exists req r,
     (NotifyPushjet.send penv requests_post self body title notify_type trace).2
     = trace ++ [(req, r)]
     /\ NotifyPushjet.send_auth req
        = Some (u, NotifyBase.password (NotifyPushjet.base self)))
  /\ NotifyPushjet.url penv self privacy
     = (if NotifyBase.secure (NotifyPushjet.base self) then "pjets" else "pjet")
       +:+ "://" +:+ NotifyBase.host (NotifyPushjet.base self) +:+
       (match NotifyBase.port (NotifyPushjet.base self) with
        | None => ""
        | Some p =>
          if p =? (if NotifyBase.secure (NotifyPushjet.base self)
                   then 443 else 80)
          then "" else ":" +:+ Py.str_of_int p
        end) +:+
       "/" +:+ pprint penv (NotifyPushjet.secret_key self) privacy Secret ""
       +:+ "/?" +:+ Utils.urlencode
                      (url_parameters penv (NotifyPushjet.base self) privacy).
Proof.
  intros Hu Hne Hp. split.
  - unfold NotifyPushjet.send. cbv zeta. rewrite Hu.
    destruct u as [|cu u']; [done|]. cbn [Py.truthy default].
    match goal with
    | |- context [requests_post (map fst trace) ?q] =>
      exists q, (requests_post (map fst trace) q);
      destruct (requests_post (map fst trace) q) as [code content|msg]
    end.
    + simpl. by destruct (code =? 200).
    + done.
  - unfold NotifyPushjet.url. cbv zeta. rewrite Hp, andb_false_r.
    reflexivity.
Qed.

End PushjetSend.

(** ** Mattermost: channels *)

Section MattermostChannels.

Variable penv : PluginEnv.

Lemma lstrip_char_head (d : ascii) (s r : string) :
  Utils.lstrip_char d s <> String d r.
Proof.
  induction s as [|c s IH]; simpl; [done|].
  destruct (Ascii.eqb_spec c d) as [->|Hne]; [done|].
  intros [= -> _]. done.
Qed.

(** X19: a Mattermost notifier that was constructed holds
    the channels of [parse_list] with their leading [#] characters
    stripped: no channel it holds starts with [#]. *)
Theorem mattermost_channels_without_hash (token fullpath : option string)
    (channels : list string) (include_image : bool)
    (kwargs : Utils.ParsedURL) (n : NotifyMattermost.t) :
  NotifyMattermost.__init__ penv token fullpath channels include_image kwargs
  = Py.Return n ->
  NotifyMattermost.channels n
  = map (Utils.lstrip_char "#") (parse_channels penv channels)
  /\ Forall (fun c => forall r, c <> String "#" r) (NotifyMattermost.channels n).
Proof.
  unfold NotifyMattermost.__init__. cbv zeta.
  destruct (negb _); [discriminate|]. intros [= <-]. simpl. split; [done|].
  apply Forall_fmap, Forall_forall. intros c _ r. simpl.
  apply lstrip_char_head.
Qed.

Variable self : NotifyMattermost.t.

Lemma send_loop_carried (headers : list (string * string)) :
  forall (channels : list string) (payload : Payload) (has_error : bool)
         (trace : list (Request * Response)),
  exists posts,
    (NotifyMattermost.send_loop penv self (map Some channels) headers payload
       has_error trace).2 = trace ++ posts
    /\ forall (i : nat) c, channels !! i = Some c ->
       exists req resp,
         posts !! i = Some (req, resp)
         /\ channel (req_data req)
            = Spec.carried (channel payload) (take (S i) channels).
Proof.
  induction channels as [|ch channels IH]; intros payload has_error trace.
  - exists []. simpl. by rewrite app_nil_r.
  - cbn [map]. rewrite send_loop_step. cbv zeta.
    match goal with
    | |- context [NotifyMattermost.send_loop penv self _ headers ?p ?e
                    (trace ++ [?q])] =>
      destruct (IH p e (trace ++ [q])) as (posts & Hrun & Hposts);
      exists (q :: posts)
    end.
    rewrite Hrun, <- app_assoc. split; [done|]. intros [|i] c Hi.
    + eexists _, _. split; [reflexivity|]. simpl in Hi. injection Hi as ->.
      simpl. by destruct c.
    + simpl in Hi. destruct (Hposts i c Hi) as (req' & resp' & Hp & Hc).
      exists req', resp'. split; [done|]. rewrite Hc. simpl. by destruct ch.
Qed.

(** X20: the payload of [NotifyMattermost.send] is shared by
    the passes of its loop: the post made for the [i]-th channel carries
    the last channel name that is not empty among the first [i+1], so an
    empty name posts to the channel before it once more. *)
Theorem mattermost_channel_carried (body title : string)
    (notify_type : NotifyType) (trace : list (Request * Response)) :
  exists posts,
    (NotifyMattermost.send penv self body title notify_type trace).2
    = trace ++ posts
    /\ forall (i : nat) c,
         NotifyMattermost.channels self !! i = Some c ->
         exists req resp,
           posts !! i = Some (req, resp)
           /\ channel (req_data req)
              = Spec.carried None (take (S i) (NotifyMattermost.channels self)).
Proof.
  unfold NotifyMattermost.send.
  destruct (NotifyMattermost.channels self) as [|c0 cs] eqn:Hcs.
  - match goal with
    | |- context [NotifyMattermost.send_loop penv self ?l ?h ?p false trace] =>
      destruct (send_loop_spec penv self h l p false trace)
        as (posts & Hrun & _)
    end.
    exists posts. rewrite Hrun. split; [done|]. intros i c Hi. done.
  - match goal with
    | |- context [NotifyMattermost.send_loop penv self _ ?h ?p false trace] =>
      destruct (send_loop_carried h (c0 :: cs) p false trace)
        as (posts & Hrun & Hposts)
    end.
    exists posts. split; [exact Hrun|]. exact Hposts.
Qed.

Lemma send_loop_payload (headers : list (string * string)) :
  forall (channels : list (option string)) (payload : Payload)
         (has_error : bool) (trace : list (Request * Response)),
  exists posts,
    (NotifyMattermost.send_loop penv self channels headers payload has_error
       trace).2 = trace ++ posts
    /\ Forall (fun p => text (req_data p.1) = text payload
                        /\ icon_url (req_data p.1) = icon_url payload
                        /\ username (req_data p.1) = username payload
                        /\ req_headers p.1 = headers) posts.
Proof.
  induction channels as [|ch channels IH]; intros payload has_error trace.
  - exists []. simpl. by rewrite app_nil_r.
  - rewrite send_loop_step. cbv zeta.
    match goal with
    | |- context [NotifyMattermost.send_loop penv self _ headers ?p ?e
                    (trace ++ [?q])] =>
      destruct (IH p e (trace ++ [q])) as (posts & Hrun & Hposts);
      exists (q :: posts)
    end.
    rewrite Hrun, <- app_assoc. split; [done|].
    assert (forall p : Payload,
      text (if Py.truthy ch
            then NotifyMattermost.set_channel p (default "" ch) else p) = text p
      /\ icon_url (if Py.truthy ch
                   then NotifyMattermost.set_channel p (default "" ch) else p)
         = icon_url p
      /\ username (if Py.truthy ch
                   then NotifyMattermost.set_channel p (default "" ch) else p)
         = username p) as Hkeep by (intros p; by destruct (Py.truthy ch)).
    destruct (Hkeep payload) as (Ht & Hi & Hu).
    constructor.
    + simpl. by rewrite Ht, Hi, Hu.
    + eapply Forall_impl; [exact Hposts|]. intros p. simpl.
      by rewrite Ht, Hi, Hu.
Qed.

(** X21: every post of [NotifyMattermost.send] carries the
    body as its text, the same headers, the bot name (the application id
    when no user is set) and the icon URL, which is set only when images
    are included and [image_url] returns a non-empty text. *)
Theorem mattermost_send_payload_fixed (body title : string)
    (notify_type : NotifyType) (trace : list (Request * Response)) :
  exists posts,
    (NotifyMattermost.send penv self body title notify_type trace).2
    = trace ++ posts
    /\ Forall
         (fun p =>
            text (req_data p.1) = body
            /\ icon_url (req_data p.1)
               = (if NotifyMattermost.include_image self
                  then match image_url penv notify_type with
                       | Some (String c u) => Some (String c u)
                       | _ => None
                       end
                  else None)
            /\ username (req_data p.1)
               = match NotifyBase.user (NotifyMattermost.base self) with
                 | Some (String c u) => String c u
                 | _ => self_app_id penv
                 end
            /\ req_headers p.1
               = [("User-Agent", self_app_id penv);
                  ("Content-Type", "application/json")]) posts.
Proof.
  unfold NotifyMattermost.send.
  match goal with
  | |- context [NotifyMattermost.send_loop penv self ?l ?h ?p false trace] =>
    destruct (send_loop_payload h l p false trace) as (posts & Hrun & Hposts)
  end.
  exists posts. split; [exact Hrun|].
  eapply Forall_impl; [exact Hposts|]. intros p (Ht & Hi & Hu & Hh).
  cbn [text icon_url username] in *. rewrite Ht, Hi, Hu, Hh.
  repeat split.
  - destruct (NotifyMattermost.include_image self); [|done]. simpl.
    by destruct (image_url penv notify_type) as [[|c u]|].
  - by destruct (NotifyBase.user (NotifyMattermost.base self)) as [[|c u]|].
Qed.

(** X22: [NotifyMattermost.parse_url] takes the last path
    segment as the token and the segments before it, joined by [/] and led
    by one, as the path; with no segment the token is [None], the path is
    empty and the constructor raises [TypeError]. *)
Theorem mattermost_token_last_segment (url : string)
    (results : Utils.ParsedURL) :
  NotifyBase.parse_url url = Some results ->
  exists r,
    NotifyMattermost.parse_url penv url = Some r
    /\ NotifyMattermost.results r = results
    /\ (forall segments t,
          Utils.split_path (Utils.fullpath results) = segments ++ [t] ->
          NotifyMattermost.results_token r = Some t
          /\ NotifyMattermost.results_fullpath r
             = Some match segments with
                    | [] => ""
                    | _ => "/" +:+ Utils.join "/" segments
                    end)
    /\ (Utils.split_path (Utils.fullpath results) = [] ->
        NotifyMattermost.results_token r = None
        /\ NotifyMattermost.results_fullpath r = Some ""
        /\ forall channels include_image,
             NotifyMattermost.__init__ penv (NotifyMattermost.results_token r)
               (NotifyMattermost.results_fullpath r) channels include_image
               results
             = Py.Raise (Py.TypeError
                 "An invalid Mattermost Authorization Token (None) was specified.")).
Proof.
  intros Hbase. unfold NotifyMattermost.parse_url. rewrite Hbase.
  eexists. split; [reflexivity|]. split; [reflexivity|]. cbn. split.
  - intros segments t ->. rewrite last_snoc, removelast_last. done.
  - intros ->. done.
Qed.

End MattermostChannels.

(** ** Mattermost: native hook URLs *)

Section NativeURL.

Import Utils.

Variable penv : PluginEnv.

Lemma until_class (stop : ascii -> bool) (s : string) :
  all_chars (fun c => negb (stop c)) (until stop s).1 = true.
Proof.
  induction s as [|c s IH]; simpl; [done|].
  destruct (stop c) eqn:Hc; [done|].
  destruct (until stop s) as [a b]. simpl in *. by rewrite Hc, IH.
Qed.

(** The literals of the pattern, matched without regard to case, only
    take characters of the host class. *)
Lemma match_ci_class (p : ascii -> bool) (lit : string) :
  (forall a c, mem a lit = true ->
     Ascii.eqb (Py.lower_ascii a) (Py.lower_ascii c) = true -> p c = true) ->
  forall s m rest,
  match_ci lit s = Some (m, rest) -> all_chars p m = true.
Proof.
  induction lit as [|a lit IH]; intros Hp s m rest; simpl.
  - by intros [= <- _].
  - destruct s as [|b s]; [done|].
    destruct (Ascii.eqb (Py.lower_ascii a) (Py.lower_ascii b)) eqn:Hab; [|done].
    destruct (match_ci lit s) as [[m' rest']|] eqn:Hm; [|done].
    intros [= <- _]. simpl.
    rewrite (Hp a b); [|simpl; by rewrite Ascii.eqb_refl|done]. simpl.
    eapply IH; [|exact Hm].
    intros a' c Ha'. apply Hp. simpl. by rewrite Ha', orb_true_r.
Qed.

Lemma match_ci_self (lit s : string) : match_ci lit (lit +:+ s) = Some (lit, s).
Proof.
  induction lit as [|a lit IH]; [done|].
  rewrite str_app_cons. simpl. by rewrite Ascii.eqb_refl, IH.
Qed.

Lemma host_class_char (c : ascii) :
  NotifyMattermost.host_class c = Spec.host_char c.
Proof.
  unfold NotifyMattermost.host_class, Spec.host_char. f_equal. simpl.
  repeat match goal with
  | |- context [Ascii.eqb c ?d] => destruct (Ascii.eqb c d)
  end; reflexivity.
Qed.

Lemma mattermost_literal_class (a c : ascii) :
  mem a "mattermost." = true ->
  Ascii.eqb (Py.lower_ascii a) (Py.lower_ascii c) = true ->
  NotifyMattermost.host_class c = true.
Proof.
  intros Ha Hc. apply Ascii.eqb_eq in Hc.
  simpl in Ha.
  repeat match type of Ha with
  | (Ascii.eqb a ?d || _)%bool = true =>
    apply orb_true_iff in Ha as [->%Ascii.eqb_eq|Ha]
  end; try discriminate;
  destruct c as [[] [] [] [] [] [] [] []]; vm_compute in Hc;
    try discriminate; reflexivity.
Qed.

(** What the pattern lets through. *)
Lemma native_match_shape (url : string) (m : NotifyMattermost.NativeMatch) :
  NotifyMattermost.native_match url = Some m ->
  Spec.hostname (NotifyMattermost.native_host m) = true
  /\ all_chars NotifyMattermost.token_class (NotifyMattermost.native_token m) = true
  /\ nonempty (NotifyMattermost.native_token m) = true
  /\ match NotifyMattermost.native_params m with
     | None => True
     | Some q => exists y, q = String "?" y
     end.
Proof.
  unfold NotifyMattermost.native_match.
  destruct (match_ci "http" url) as [[m0 r1]|]; [|done].
  destruct (match r1 with
            | "" => ("", r1)
            | String c r =>
              if Ascii.eqb (Py.lower_ascii c) "s" then (String c "", r)
              else ("", r1)
            end) as [secure r2].
  destruct (match_ci "://" r2) as [[m1 r3]|]; [|done].
  destruct (match_ci "mattermost." r3) as [[lit r4]|] eqn:Hlit; [|done].
  pose proof (until_class (fun c => negb (NotifyMattermost.host_class c)) r4)
    as Hh.
  destruct (until (fun c => negb (NotifyMattermost.host_class c)) r4)
    as [h r5].
  destruct (nonempty h) eqn:Hne; [|done]. cbn [negb].
  match goal with
  | |- match ?pr with Some _ => _ | None => _ end = _ -> _ =>
    destruct pr as [[port r6]|]; [|done]
  end.
  destruct (match_ci "/hooks/" r6) as [[m2 r7]|]; [|done].
  pose proof (until_class (fun c => negb (NotifyMattermost.token_class c)) r7)
    as Ht.
  destruct (until (fun c => negb (NotifyMattermost.token_class c)) r7)
    as [tok r8].
  destruct (nonempty tok) eqn:Htok; [|done]. cbn [negb].
  assert (Spec.hostname (lit +:+ h) = true) as Hhost.
  { unfold Spec.hostname. apply andb_true_iff. split.
    - destruct lit; [|done]. by rewrite str_app_nil_l.
    - rewrite all_chars_app. apply andb_true_iff. split.
      + eapply all_chars_impl;
          [|exact (match_ci_class NotifyMattermost.host_class "mattermost."
                     mattermost_literal_class _ _ _ Hlit)].
        intros c. by rewrite host_class_char.
      + revert Hh. cbn [fst]. apply all_chars_impl. intros c.
        rewrite negb_involutive. by rewrite host_class_char. }
  assert (all_chars NotifyMattermost.token_class tok = true) as Htoken.
  { revert Ht. cbn [fst]. apply all_chars_impl. intros c.
    by rewrite negb_involutive. }
  destruct (match r8 with String "/" r => r | _ => r8 end) as [|c9 r9].
  - intros [= <-]. done.
  - destruct (Ascii.eqb_spec c9 "010") as [->|Hnl].
    + destruct r9; [|done]. intros [= <-]. done.
    + destruct (Ascii.eqb_spec c9 "?") as [->|Hq].
      * destruct (until (fun c => Ascii.eqb c "010") r9) as [y r10].
        destruct r10 as [|c10 [|c11 r11]]; [| |done];
          (destruct (nonempty y); [|done]); intros [= <-];
          cbn; eauto 6.
      * intros Hm. exfalso.
        destruct c9 as [[] [] [] [] [] [] [] []]; try discriminate; done.
Qed.


Lemma native_url_without_port (m : NotifyMattermost.NativeMatch) :
  NotifyMattermost.native_url m
  = (if nonempty (NotifyMattermost.native_secure m) then "mmosts" else "mmost")
    +:+ "://" +:+ NotifyMattermost.native_host m +:+ "/"
    +:+ NotifyMattermost.native_token m +:+ "/"
    +:+ (if negb (Py.truthy (NotifyMattermost.native_params m)) then ""
         else default "" (NotifyMattermost.native_params m)).
Proof.
  unfold NotifyMattermost.native_url. cbv zeta.
  assert ((if negb (Py.truthy (NotifyMattermost.native_port m))
              || (Py.int_of_digits 0 (default "" (NotifyMattermost.native_port m))
                  =? (if Py.truthy (NotifyMattermost.native_port m)
                      then Py.int_of_digits 0
                             (default "" (NotifyMattermost.native_port m))
                      else if nonempty (NotifyMattermost.native_secure m)
                           then 443 else 80))
           then ""
           else ":" +:+ Py.str_of_int
                  (if Py.truthy (NotifyMattermost.native_port m)
                   then Py.int_of_digits 0
                          (default "" (NotifyMattermost.native_port m))
                   else if nonempty (NotifyMattermost.native_secure m)
                        then 443 else 80)) = "") as ->.
  { destruct (Py.truthy (NotifyMattermost.native_port m)); [|done].
    by rewrite Z.eqb_refl. }
  rewrite str_app_nil_l.
  unfold NotifyMattermost.secure_protocol, NotifyMattermost.protocol.
  reflexivity.
Qed.

Lemma token_class_clear (ds tok : string) :
  all_chars NotifyMattermost.token_class tok = true ->
  all_chars (fun d => negb (NotifyMattermost.token_class d)) ds = true ->
  all_chars (fun c => negb (one_of ds c)) tok = true.
Proof. intros Ht Hds. by eapply class_avoids. Qed.

(** The URL grammar on a URL of the shape [parse_native_url] builds. *)
Lemma parse_url_rebuilt (sch host tok params : string) :
  (forall rest, get_schema (sch +:+ "://" +:+ rest) = Some (sch, rest)) ->
  Spec.hostname host = true ->
  all_chars NotifyMattermost.token_class tok = true ->
  params = "" \/ (exists y, params = String "?" y) ->
  exists query frag,
    parse_url (sch +:+ "://" +:+ host +:+ "/" +:+ tok +:+ "/" +:+ params)
    = Some {| schema := Py.lower sch; user := None; password := None;
              host := host; port := None;
              fullpath := unquote (String "/" (tok +:+ "/"));
              qsd := parse_qsd query; fragment := frag |}.
Proof.
  intros Hsch Hhost Htok Hparams. unfold parse_url. rewrite Hsch.
  rewrite !(str_app_cons "/"), !str_app_nil_l.
  assert (exists query frag after,
    until (one_of "?#") params = ("", after)
    /\ match after with
       | String "?" q => let '(q', f) := until (one_of "#") q in (q', tail f)
       | _ => ("", tail after)
       end = (query, frag)) as (query & frag & after & Hafter & Hquery).
  { destruct Hparams as [->|[y ->]].
    - by exists "", "", "".
    - destruct (until (one_of "#") y) as [q' f] eqn:Hy.
      exists q', (tail f), (String "?" y). split; [done|]. by rewrite Hy. }
  exists query, (unquote frag).
  rewrite (until_skip _ host) by by apply hostname_clear.
  rewrite until_pass by done.
  rewrite (until_skip _ tok) by by apply token_class_clear.
  rewrite until_pass by done. rewrite Hafter. cbn [fst snd].
  rewrite Hquery.
  rewrite ?str_app_nil_r.
  rewrite (until_skip _ host) by by apply hostname_clear.
  rewrite until_stop by done. cbn [fst snd]. rewrite str_app_nil_r.
  rewrite (until_all _ host) by by apply hostname_clear.
  rewrite (until_all _ host) by by apply hostname_clear.
  assert (nonempty host = true) as ->
    by by apply andb_true_iff in Hhost as [? _].
  by rewrite unquote_hostname.
Qed.

(** X23: [parse_native_url] never carries a port over: whatever
    native URL it accepts, the results have no port (and no user or
    password).  The port it compares against the default is that default
    itself. *)
Theorem native_url_port_dropped (url : string) (r : NotifyMattermost.Results) :
  NotifyMattermost.parse_native_url penv url = Some r ->
  Utils.port (NotifyMattermost.results r) = None
  /\ Utils.user (NotifyMattermost.results r) = None
  /\ Utils.password (NotifyMattermost.results r) = None.
Proof.
  unfold NotifyMattermost.parse_native_url.
  destruct (NotifyMattermost.native_match url) as [m|] eqn:Hm; [|done].
  destruct (native_match_shape _ _ Hm) as (Hhost & Htok & _ & Hparams).
  rewrite native_url_without_port.
  destruct (parse_url_rebuilt
              (if nonempty (NotifyMattermost.native_secure m)
               then "mmosts" else "mmost")
              (NotifyMattermost.native_host m)
              (NotifyMattermost.native_token m)
              (if negb (Py.truthy (NotifyMattermost.native_params m)) then ""
               else default "" (NotifyMattermost.native_params m)))
    as (query & frag & Hparse); [|done|done| |].
  - intros rest. by destruct (nonempty _).
  - destruct (NotifyMattermost.native_params m) as [q|]; [|by left].
    destruct Hparams as [y ->]. right. by exists y.
  - unfold NotifyMattermost.parse_url, NotifyBase.parse_url.
    rewrite Hparse. by intros [= <-].
Qed.

Lemma all_chars_negb_negb (p : ascii -> bool) (s : string) :
  all_chars p s = true -> all_chars (fun c => negb (negb (p c))) s = true.
Proof. apply all_chars_impl. intros c. by rewrite negb_involutive. Qed.

(** X24: a native hook URL
    [http(s)://mattermost.H[:P]/hooks/T] matches the pattern of
    [parse_native_url] and is re-assembled as [mmost(s)://mattermost.H/T/],
    the same for every port [P] and for none. *)
Theorem native_url_rewritten (secure : bool) (h : string)
    (port : option string) (tok : string) :
  nonempty h = true ->
  all_chars NotifyMattermost.host_class h = true ->
  match port with Some d => Spec.port_digits d = true | None => True end ->
  nonempty tok = true ->
  all_chars NotifyMattermost.token_class tok = true ->
  NotifyMattermost.native_url
    <$> NotifyMattermost.native_match
          ("http" +:+ (if secure then "s" else "") +:+ "://" +:+ "mattermost."
           +:+ h +:+ match port with Some d => ":" +:+ d | None => "" end
           +:+ "/hooks/" +:+ tok)
  = Some ((if secure then "mmosts" else "mmost") +:+ "://" +:+ "mattermost."
          +:+ h +:+ "/" +:+ tok +:+ "/").
Proof.
  intros Hne Hh Hport Htokne Htok.
  unfold NotifyMattermost.native_match.
  rewrite match_ci_self.
  assert (match (if secure then "s" else "") +:+ "://" +:+ "mattermost." +:+ h
                +:+ match port with Some d => ":" +:+ d | None => "" end
                +:+ "/hooks/" +:+ tok with
          | "" => ("", (if secure then "s" else "") +:+ "://" +:+ "mattermost."
                       +:+ h
                       +:+ match port with Some d => ":" +:+ d | None => "" end
                       +:+ "/hooks/" +:+ tok)
          | String c r =>
            if Ascii.eqb (Py.lower_ascii c) "s" then (String c "", r)
            else ("", (if secure then "s" else "") +:+ "://" +:+ "mattermost."
                      +:+ h
                      +:+ match port with Some d => ":" +:+ d | None => "" end
                      +:+ "/hooks/" +:+ tok)
          end
          = (if secure then "s" else "",
             "://" +:+ "mattermost." +:+ h
             +:+ match port with Some d => ":" +:+ d | None => "" end
             +:+ "/hooks/" +:+ tok)) as -> by by destruct secure.
  rewrite match_ci_self, match_ci_self.
  rewrite (until_skip _ h) by by apply all_chars_negb_negb.
  assert (until (fun c => negb (NotifyMattermost.host_class c))
            (match port with Some d => ":" +:+ d | None => "" end
             +:+ "/hooks/" +:+ tok)
          = ("", match port with Some d => ":" +:+ d | None => "" end
                 +:+ "/hooks/" +:+ tok)) as ->
    by by destruct port.
  cbn [fst snd]. rewrite str_app_nil_r, Hne. cbn [negb].
  assert (match
            match port with Some d => ":" +:+ d | None => "" end
            +:+ "/hooks/" +:+ tok
          with
          | String ":" r =>
            let '(d, r6) := until (fun c => negb (is_digit c)) r in
            match d with
            | "" => None
            | String c0 _ =>
              if negb (Ascii.eqb c0 "0") && (String.length d <=? 6)%nat
              then Some (Some d, r6) else None
            end
          | _ => Some (None, match port with Some d => ":" +:+ d | None => "" end
                             +:+ "/hooks/" +:+ tok)
          end = Some (port, "/hooks/" +:+ tok)) as ->.
  { destruct port as [d|]; [|done].
    rewrite !str_app_cons, !str_app_nil_l. cbv beta iota.
    unfold Spec.port_digits in Hport. destruct d as [|c0 d']; [done|].
    apply andb_true_iff in Hport as [[Hdigits Hc0]%andb_true_iff Hlen].
    rewrite (until_skip _ (String c0 d')) by by apply all_chars_negb_negb.
    rewrite until_stop by done. cbn [fst snd]. rewrite str_app_nil_r.
    by rewrite Hc0, Hlen. }
  rewrite match_ci_self.
  rewrite (until_all _ tok) by by apply all_chars_negb_negb.
  rewrite Htokne. cbn [negb fmap option_fmap option_map].
  rewrite native_url_without_port. cbn.
  f_equal. destruct secure; cbn; by rewrite !str_app_nil_r.
Qed.

End NativeURL.

(** ** Scenarios and witnesses of the further properties *)

Lemma getitem_bounds_witness :
  AppriseConfig.__getitem__ sample_config (-1)
  = Py.Return (ConfigBase.Make ∅ (Some "text") ["d"; "e"])
  /\ AppriseConfig.__getitem__ sample_config 2
     = Py.Raise (Py.IndexError "list index out of range").
Proof.
  destruct (getitem_bounds sample_config) as [Hin Hout]. split.
  - exact (proj2 (Hin 1%nat _ eq_refl)).
  - apply Hout. right. vm_compute. discriminate.
Defined.

Lemma bool_counts_sources_witness :
  exists self',
    AppriseConfig.add sample_env
      (AppriseConfig.ArgInstance (ConfigBase.Make ∅ None [])) None TagNone
      None None None (sample_config, [])
    = (Py.Return true, (self', []))
    /\ AppriseConfig.__bool__ self' = true
    /\ AppriseConfig.servers sample_env self' (LogicStr "all") true
       = AppriseConfig.servers sample_env sample_config (LogicStr "all") true.
Proof.
  destruct (bool_counts_sources sample_env sample_config []
              (ConfigBase.Make ∅ None []) None TagNone None None None eq_refl)
    as (self' & Hadd & Hbool & _ & Hservers).
  exists self'. split; [exact Hadd|]. split; [exact Hbool|]. apply Hservers.
Defined.


(** One source object held at two positions: the notifier popped through
    the first position is gone from the second as well, two notifiers
    fewer are exposed. *)
Example server_pop_source_held_twice :
  match Shared.server_pop [1; 1]%positive 0 one_source with
  | (Py.Return x, store') =>
    x = "a"
    /\ (Shared.servers sample_env cached [1; 1]%positive (LogicStr "all") true
          one_source).1 = ["a"; "b"; "a"; "b"]
    /\ (Shared.servers sample_env cached [1; 1]%positive (LogicStr "all") true
          store').1 = ["b"; "b"]
  | _ => False
  end.
Proof. vm_compute. done. Qed.

(** A source that refetches at every [servers()] exposes the notifier
    popped again. *)
Example server_pop_source_refetched :
  match Shared.server_pop [1]%positive 0 one_source with
  | (Py.Return x, store') =>
    x = "a"
    /\ (Shared.servers sample_env refetching [1]%positive (LogicStr "all") true
          store').1 = ["a"; "b"]
  | _ => False
  end.
Proof. vm_compute. done. Qed.

Lemma server_pop_negative_witness :
  AppriseConfig.server_pop (-1) (empty_first_config, [])
  = (Py.Return "b",
     (AppriseConfig.set_configs empty_first_config
        [ConfigBase.Make ∅ (Some "text") [];
         ConfigBase.Make ∅ (Some "text") ["a"];
         ConfigBase.Make ∅ (Some "text") ["c"]], []))
  /\ AppriseConfig.server_pop (-3) (empty_first_config, [])
     = (Py.Raise (Py.IndexError "pop index out of range"),
        (empty_first_config, [])).
Proof.
  assert (Forall (fun e0 : ConfigBase.t string => ConfigBase.servers e0 = [])
            [ConfigBase.Make ∅ (Some "text") []]) as Hpre
    by (repeat constructor).
  destruct (server_pop_negative empty_first_config []
              [ConfigBase.Make ∅ (Some "text") []]
              (ConfigBase.Make ∅ (Some "text") ["a"; "b"])
              [ConfigBase.Make ∅ (Some "text") ["c"]] eq_refl Hpre)
    as [Hin Hout].
  split.
  - exact (Hin 1%nat "b" eq_refl).
  - apply Hout; [discriminate|vm_compute; reflexivity].
Defined.

Lemma server_pop_servers_witness :
  exists x store',
    Shared.servers sample_env cached [1; 2]%positive (LogicStr "all") true
      two_sources
    = (["a"; "b"; "c"; "d"; "e"], two_sources)
    /\ Shared.server_pop [1; 2]%positive 3 two_sources = (Py.Return x, store')
    /\ x = "d"
    /\ Shared.servers sample_env cached [1; 2]%positive (LogicStr "all") true
         store'
       = (["a"; "b"; "c"; "e"], store').
Proof.
  assert (NoDup [1; 2]%positive) as Hnd.
  { apply NoDup_cons. split; [|apply NoDup_singleton].
    intros Hin. by apply list_elem_of_singleton in Hin. }
  assert (Forall
            (fun r =>
               is_exclusive_match sample_env (LogicStr "all")
                 (ConfigBase.tags (two_sources r)) (MATCH_ALL_TAG sample_env)
                 (Some (MATCH_ALWAYS_TAG sample_env)) = true)
            [1; 2]%positive) as Hall
    by (repeat constructor; vm_compute; reflexivity).
  assert ((Shared.servers sample_env cached [1; 2]%positive (LogicStr "all")
             true two_sources).1 = ["a"; "b"; "c"; "d"; "e"]) as Hbefore
    by (vm_compute; reflexivity).
  destruct (server_pop_servers sample_env cached [1; 2]%positive two_sources
              (LogicStr "all") true 3 Hnd (fun _ => eq_refl) Hall)
    as (x & store' & Hservers & Hpop & Hx & Hafter).
  { rewrite Hbefore. split; vm_compute; [discriminate|reflexivity]. }
  rewrite Hbefore in Hservers, Hx, Hafter.
  exists x, store'. split; [exact Hservers|]. split; [exact Hpop|].
  split; [|exact Hafter]. simpl in Hx. by injection Hx.
Defined.

Lemma sample_env_http :
  C_MGR sample_env !! "http" = Some Plugins.ConfigHTTP.
Proof.
  unfold sample_env. cbn [C_MGR].
  rewrite !lookup_insert_ne by done. apply lookup_insert_eq.
Qed.

Lemma add_overrides_url_cache_witness :
  exists kwargs,
    kwargs !! "cache" = Some (VBool true)
    /\ AppriseConfig.add sample_env (AppriseConfig.ArgStr "http://host/cfg?cache=30")
         None TagNone None None None (sample_config, [])
       = match AppriseConfig.construct sample_env kwargs with
         | Py.Return c =>
           (Py.Return true,
            (AppriseConfig.set_configs sample_config
               (AppriseConfig.configs sample_config ++ [c]),
             [] ++ [(Py.DEBUG, "Loading configuration: "
                               +:+ "http://host/cfg?cache=30")]))
         | Py.Raise _ =>
           (Py.Return false,
            (sample_config,
             [] ++ [(Py.DEBUG, "Loading configuration: "
                               +:+ "http://host/cfg?cache=30");
                    (Py.WARNING, "Could not load URL: "
                                 +:+ "http://host/cfg?cache=30")]))
         end.
Proof.
  pose (results := default ∅ (plugin_parse_url (@Plugins.ConfigHTTP string)
                                "http://host/cfg?cache=30")).
  assert (plugin_parse_url (@Plugins.ConfigHTTP string)
            "http://host/cfg?cache=30" = Some results) as Hparse
    by (vm_compute; reflexivity).
  assert (results <> ∅) as Hne.
  { intros Hempty.
    assert (results !! "schema" = Some (VStr "http")) as Hs
      by (vm_compute; reflexivity).
    rewrite Hempty in Hs. discriminate. }
  destruct (add_overrides_url_cache sample_env "http://host/cfg?cache=30" None
              TagNone None None None sample_config [] "http" Plugins.ConfigHTTP
              results eq_refl sample_env_http Hparse Hne)
    as (kwargs & Hcache & _ & Hadd).
  exists kwargs. split; [exact Hcache|exact Hadd].
Defined.

Lemma add_config_raises_witness :
  AppriseConfig.add_config bare_env (AppriseConfig.ContentStr "x") None TagNone
    None None None (sample_config, [])
  = (Py.Raise (Py.KeyError "memory"),
     (sample_config, [(Py.DEBUG, "Loading raw configuration: x")]))
  /\ AppriseConfig.add_config keyless_env (AppriseConfig.ContentStr "x") None
       TagNone None None None (sample_config, [])
     = (Py.Raise (Py.TypeError "rejected"),
        (sample_config, [(Py.DEBUG, "Loading raw configuration: x")])).
Proof.
  split.
  - exact (proj1 (add_config_raises bare_env "x" None TagNone None None None
                    sample_config []) (lookup_empty _)).
  - apply (proj2 (add_config_raises keyless_env "x" None TagNone None None None
                    sample_config []) Plugins.ConfigRejecting).
    + unfold keyless_env. cbn [C_MGR].
      rewrite lookup_insert_ne by done. apply lookup_insert_eq.
    + reflexivity.
Defined.

Lemma instantiate_suppressed_raises_witness :
  (AppriseConfig.instantiate bare_env "/etc/apprise.conf" None TagNone None 0
     false true []).1 = Py.Raise (Py.KeyError "file").
Proof.
  apply instantiate_suppressed_raises. split; [vm_compute; reflexivity|].
  split; [apply lookup_empty|reflexivity].
Defined.

Lemma instantiate_without_schema_key_witness :
  AppriseConfig.instantiate keyless_env "raw://x" None TagNone None 0 false
    true []
  = (Py.Return None, [(Py.WARNING, "Could not load URL: raw://x")])
  /\ AppriseConfig.instantiate keyless_env "raw://x" None TagNone None 0 false
       false []
     = (Py.Raise (Py.KeyError "schema"), []).
Proof.
  apply (instantiate_without_schema_key keyless_env "raw://x" None TagNone None
           0 false [] "raw" Plugins.ConfigKeyless (<["path" := VStr "raw://x"]> ∅)).
  - vm_compute. reflexivity.
  - unfold keyless_env. cbn [C_MGR]. apply lookup_insert_eq.
  - reflexivity.
  - intros Hempty.
    assert ((<["path" := VStr "raw://x"]> (∅ : gmap string Val)) !! "path"
            = Some (VStr "raw://x")) as Hp by apply lookup_insert_eq.
    rewrite Hempty in Hp. discriminate.
  - apply lookup_insert_None. split; [apply lookup_empty|done].
Defined.

Lemma sample_env_file :
  C_MGR sample_env !! "file" = Some Plugins.ConfigFile.
Proof.
  unfold sample_env. cbn [C_MGR].
  rewrite !lookup_insert_ne by done. apply lookup_insert_eq.
Qed.

Lemma instantiate_unparseable_witness :
  AppriseConfig.instantiate sample_env "http://" None TagNone None 0 false
    true []
  = (Py.Return None, [(Py.WARNING, "Unparseable URL http://.")])
  /\ AppriseConfig.instantiate sample_env "" None TagNone None 0 false true []
     = (Py.Return None, [(Py.WARNING, "Unparseable URL file://.")]).
Proof.
  split.
  - apply (proj1 (instantiate_unparseable sample_env "http://" None TagNone
                    None 0 false true [] Plugins.ConfigHTTP) "http").
    + vm_compute. reflexivity.
    + exact sample_env_http.
    + left. vm_compute. reflexivity.
  - apply (proj2 (instantiate_unparseable sample_env "" None TagNone None 0
                    false true [] Plugins.ConfigFile)).
    + vm_compute. reflexivity.
    + exact sample_env_file.
    + left. vm_compute. reflexivity.
Defined.

Lemma instantiate_keeps_parsed_witness :
  Spec.kwarg sample_env "http://host/cfg?cache=30" None (TagStr "a, b") None 0
    false "tag" = Some (VTags (list_to_set ["a"; "b"]))
  /\ Spec.kwarg sample_env "http://host/cfg?cache=30" None (TagStr "a, b") None
       0 false "asset" = Some (VAsset {| app_id := "Apprise" |}).
Proof.
  pose (kwargs :=
    match (AppriseConfig.instantiate_kwargs sample_env
             "http://host/cfg?cache=30" None (TagStr "a, b") None 0 false []).1
    with
    | Py.Return (Some (_, kwargs)) => kwargs
    | _ => ∅
    end).
  assert (AppriseConfig.instantiate_kwargs sample_env
            "http://host/cfg?cache=30" None (TagStr "a, b") None 0 false []
          = (Py.Return (Some ("http://host/cfg?cache=30", kwargs)), []))
    as Hkw by (vm_compute; reflexivity).
  unfold Spec.kwarg. rewrite Hkw.
  destruct (instantiate_keeps_parsed sample_env _ _ _ _ _ _ _ _ _ _ Hkw)
    as (_ & Htag & Hasset & _).
  split; [exact Htag|exact Hasset].
Defined.

Lemma pushjet_user_without_password_witness :
  (exists req r,
     (NotifyPushjet.send sample_penv always_ok pushjet_user_only "body" "title"
        NT_INFO []).2 = [] ++ [(req, r)]
     /\ NotifyPushjet.send_auth req = Some ("joe", None))
  /\ NotifyPushjet.url sample_penv pushjet_user_only false
     = "pjet://push.example.org/SECRET/?".
Proof.
  exact (pushjet_user_without_password sample_penv always_ok pushjet_user_only
           "body" "title" NT_INFO [] false "joe" eq_refl
           ltac:(discriminate) eq_refl).
Defined.

Lemma mattermost_channels_without_hash_witness :
  exists n,
    NotifyMattermost.__init__ sample_penv (Some "TOKEN") None ["#general"; "#"]
      false
      {| Utils.schema := "mmost"; Utils.user := None; Utils.password := None;
         Utils.host := "chat.example.org"; Utils.port := None;
         Utils.fullpath := "/TOKEN"; Utils.qsd := ∅; Utils.fragment := "" |}
    = Py.Return n
    /\ NotifyMattermost.channels n = ["general"; ""].
Proof.
  eexists. split; [reflexivity|].
  exact (proj1 (mattermost_channels_without_hash sample_penv (Some "TOKEN") None
                  ["#general"; "#"] false
                  {| Utils.schema := "mmost"; Utils.user := None;
                     Utils.password := None; Utils.host := "chat.example.org";
                     Utils.port := None; Utils.fullpath := "/TOKEN";
                     Utils.qsd := ∅; Utils.fragment := "" |} _ eq_refl)).
Defined.

(** A channel given as a lone [#] posts to the channel before it once
    more. *)
Example mattermost_empty_channel_repeats :
  map (fun p => channel (req_data p.1))
    (NotifyMattermost.send sample_penv lone_hash_channel "body" "" NT_INFO []).2
  = [Some "general"; Some "general"].
Proof. vm_compute. reflexivity. Qed.

Lemma mattermost_token_last_segment_witness :
  exists results r,
    NotifyBase.parse_url "mmost://host/a/b/TOKEN" = Some results
    /\ NotifyMattermost.parse_url sample_penv "mmost://host/a/b/TOKEN" = Some r
    /\ NotifyMattermost.results_token r = Some "TOKEN"
    /\ NotifyMattermost.results_fullpath r = Some "/a/b".
Proof.
  destruct (NotifyBase.parse_url "mmost://host/a/b/TOKEN")
    as [results|] eqn:Hbase; [|vm_compute in Hbase; discriminate].
  destruct (mattermost_token_last_segment sample_penv _ _ Hbase)
    as (r & Hr & _ & Hlast & _).
  exists results, r. split; [reflexivity|]. split; [exact Hr|].
  apply (Hlast ["a"; "b"] "TOKEN").
  vm_compute in Hbase. injection Hbase as <-. vm_compute. reflexivity.
Defined.

Lemma native_url_port_dropped_witness :
  exists r,
    NotifyMattermost.parse_native_url sample_penv
      "https://mattermost.example.com:8065/hooks/TOKEN" = Some r
    /\ Utils.port (NotifyMattermost.results r) = None.
Proof.
  destruct (NotifyMattermost.parse_native_url sample_penv
              "https://mattermost.example.com:8065/hooks/TOKEN")
    as [r|] eqn:Hr; [|vm_compute in Hr; discriminate].
  exists r. split; [reflexivity|].
  exact (proj1 (native_url_port_dropped sample_penv _ _ Hr)).
Defined.

Lemma native_url_rewritten_witness :
  NotifyMattermost.native_url
    <$> NotifyMattermost.native_match
          "https://mattermost.example.com:8065/hooks/TOKEN"
  = Some "mmosts://mattermost.example.com/TOKEN/".
Proof.
  exact (native_url_rewritten true "example.com" (Some "8065") "TOKEN"
           eq_refl eq_refl eq_refl eq_refl eq_refl).
Defined.

(** The port of a native URL never reaches the notifier. *)
Example native_url_identifier :
  match NotifyMattermost.parse_native_url sample_penv
          "https://mattermost.example.com:8065/hooks/TOKEN" with
  | Some r =>
    NotifyMattermost.url_identifier
      <$> match NotifyMattermost.__init__ sample_penv
                  (NotifyMattermost.results_token r)
                  (NotifyMattermost.results_fullpath r)
                  (NotifyMattermost.results_channels r)
                  (NotifyMattermost.results_include_image r)
                  (NotifyMattermost.results r) with
          | Py.Return n => Some n
          | Py.Raise _ => None
          end
    = Some ("mmosts", "TOKEN", "mattermost.example.com", None, "")
  | None => False
  end.
Proof. vm_compute. reflexivity. Qed.
